(** * pi-gadget: on-screen keyboard, menu state machine and app loader

    A shallow embedding of the parts of the gadget shell that carry its
    state-machine logic:

    - [ui_keyboard]  : [OnScreenKeyboard] of [ui_keyboard.py];
    - [loader]       : [load_app] of [apps/loader.py];
    - [main_py]      : the file-system actions and the OPTIONS_MENU /
                       KEYBOARD branches of the event loop of [main.py].

    Python values are modelled as follows.  A [str] is the list of its code
    points, so that [len] counts characters as Python does (the backspace
    label is one character, the Cyrillic letters are one character each).
    An [int] is a [Z].  A raised exception is the [Raise] branch of [res]. *)

From Stdlib Require Import ZArith NArith List Bool Lia String Ascii.
From Stdlib Require DecimalString.
Import ListNotations.

Open Scope Z_scope.

(* ------------------------------------------------------------------ *)
(** ** Python values *)

Module Py.

(** A Python [str]: the sequence of its Unicode code points. *)
Definition str : Type := list N.

(** An ASCII literal as a [str]. *)
Definition lit (s : string) : str :=
  List.map N_of_ascii (list_ascii_of_string s).

(** [len(x)] as an [int]. *)
Definition len {A : Type} (l : list A) : Z := Z.of_nat (List.length l).

Fixpoint str_eqb (a b : str) : bool :=
  match a, b with
  | [], [] => true
  | x :: a', y :: b' => N.eqb x y && str_eqb a' b'
  | _, _ => false
  end.

(** The exceptions the modelled code can meet.  [Exception_other] stands
    for any subclass of [Exception] other than [TypeError] and
    [IndexError] (ImportError, ValueError, OSError, ...);
    [BaseException_only] for what [except Exception] does not catch
    (KeyboardInterrupt, SystemExit). *)
Inductive exn : Type :=
| IndexError
| TypeError
| Exception_other (name : string)
| BaseException_only (name : string).

(** [isinstance(e, Exception)] *)
Definition is_Exception (e : exn) : bool :=
  match e with
  | BaseException_only _ => false
  | _ => true
  end.

(** [isinstance(e, TypeError)] *)
Definition is_TypeError (e : exn) : bool :=
  match e with
  | TypeError => true
  | _ => false
  end.

(** The outcome of evaluating an expression: a value or a raised
    exception. *)
Inductive res (A : Type) : Type :=
| Ok (a : A)
| Raise (e : exn).
Arguments Ok {A} a.
Arguments Raise {A} e.

Definition bind {A B : Type} (m : res A) (f : A -> res B) : res B :=
  match m with
  | Ok a => f a
  | Raise e => Raise e
  end.

(** [l[i]]: a negative index counts from the end, an index outside
    [-len(l) .. len(l)-1] raises IndexError. *)
Definition index {A : Type} (l : list A) (i : Z) : res A :=
  let j := if i <? 0 then i + len l else i in
  if (0 <=? j) && (j <? len l) then
    match nth_error l (Z.to_nat j) with
    | Some x => Ok x
    | None => Raise IndexError
    end
  else Raise IndexError.

(** [s[:-1]] *)
Definition drop_last {A : Type} (l : list A) : list A := removelast l.

(** [s.startswith(p)] *)
Fixpoint startswith (s p : str) : bool :=
  match p, s with
  | [], _ => true
  | y :: p', x :: s' => N.eqb x y && startswith s' p'
  | _ :: _, [] => false
  end.

(** [s.endswith(p)] *)
Definition endswith (s p : str) : bool := startswith (List.rev s) (List.rev p).

(** [c.isspace()] for one code point: the Unicode white space that
    [str.strip()] removes. *)
Definition isspace (c : N) : bool :=
  (((9 <=? c) && (c <=? 13)) || ((28 <=? c) && (c <=? 32))
   || (c =? 133) || (c =? 160) || (c =? 5760)
   || ((8192 <=? c) && (c <=? 8202))
   || (c =? 8232) || (c =? 8233) || (c =? 8239) || (c =? 8287)
   || (c =? 12288))%N.

Fixpoint dropwhile {A : Type} (f : A -> bool) (l : list A) : list A :=
  match l with
  | [] => []
  | x :: l' => if f x then dropwhile f l' else l
  end.

Definition lstrip (s : str) : str := dropwhile isspace s.
Definition rstrip (s : str) : str := List.rev (dropwhile isspace (List.rev s)).

(** [s.strip()] *)
Definition strip (s : str) : str := rstrip (lstrip s).

(** [f"{i}"] for a non-negative [int]: its decimal digits. *)
Definition format_nat (i : nat) : str :=
  lit (DecimalString.NilEmpty.string_of_uint (Nat.to_uint i)).

(** A record handed to the [logging] module: its level and its format
    string. *)
Inductive log_record : Type :=
| info (fmt : string)
| warning (fmt : string).

End Py.

Notation "x <- m ;; k" := (Py.bind m (fun x => k))
  (at level 61, m at next level, right associativity).

(* ------------------------------------------------------------------ *)
(** ** ui_keyboard.py *)

Module ui_keyboard.
Import Py.

(** [self.mode]: one of the strings "letters_en", "letters_ru",
    "num_sym"; no other value is ever assigned. *)
Inductive Mode : Type := letters_en | letters_ru | num_sym.

(** [mode.startswith("letters")] *)
Definition startswith_letters (m : Mode) : bool :=
  match m with
  | num_sym => false
  | _ => true
  end.

Record OnScreenKeyboard : Type := mkKeyboard {
  prompt : str;
  text : str;
  max_len : Z;
  mode : Mode;
  shift : bool;
  cursor_row : Z;
  cursor_col : Z
}.

Definition set_text (k : OnScreenKeyboard) (t : str) :=
  mkKeyboard (prompt k) t (max_len k) (mode k) (shift k)
             (cursor_row k) (cursor_col k).
Definition set_mode (k : OnScreenKeyboard) (m : Mode) :=
  mkKeyboard (prompt k) (text k) (max_len k) m (shift k)
             (cursor_row k) (cursor_col k).
Definition set_shift (k : OnScreenKeyboard) (b : bool) :=
  mkKeyboard (prompt k) (text k) (max_len k) (mode k) b
             (cursor_row k) (cursor_col k).
Definition set_cursor_row (k : OnScreenKeyboard) (r : Z) :=
  mkKeyboard (prompt k) (text k) (max_len k) (mode k) (shift k)
             r (cursor_col k).
Definition set_cursor_col (k : OnScreenKeyboard) (c : Z) :=
  mkKeyboard (prompt k) (text k) (max_len k) (mode k) (shift k)
             (cursor_row k) c.

(** The events of [read_buttons]. *)
Inductive Event : Type :=
| UP | DOWN | LEFT | RIGHT | CENTER | KEY1 | KEY2 | KEY3.

(** The first component of the pair returned by [handle_event]. *)
Inductive Action : Type := redraw | done.

(** *** Layout data of [__init__] *)

(** [list("...")] of an ASCII literal: one one-character string per
    character. *)
Definition chars (s : string) : list str :=
  List.map (fun c => [c]) (lit s).

Definition letters_en_rows : list (list str) :=
  [ chars "qwertyuiop"; chars "asdfghjkl"; chars "zxcvbnm" ].

(** The Cyrillic rows, by code point: U+0430 is 1072. *)
Definition letters_ru_rows : list (list str) :=
  [ List.map (fun c => [c])
      [1081; 1094; 1091; 1082; 1077; 1085; 1075; 1096; 1097; 1079]%N;
    List.map (fun c => [c])
      [1092; 1099; 1074; 1072; 1087; 1088; 1086; 1083; 1076]%N;
    List.map (fun c => [c])
      [1103; 1095; 1089; 1084; 1080; 1090; 1100; 1073; 1102]%N ].

Definition num_rows : list (list str) :=
  [ chars "1234567890";
    [lit "-"; lit "_"; lit "@"; lit "."; lit ","; lit "?"];
    [lit "!"; lit "?"; lit ":"; lit ";"; lit "("; lit ")"] ].

(** The backspace label, U+232B. *)
Definition backspace_label : str := [9003%N].

(** [str.upper] and [str.lower] on the alphabets of the layouts: basic
    Latin and the Cyrillic block U+0430..U+044F / U+0410..U+042F, where
    both are one-to-one on single characters. *)
Definition upper_cp (c : N) : N :=
  if ((97 <=? c) && (c <=? 122))%N then (c - 32)%N
  else if ((1072 <=? c) && (c <=? 1103))%N then (c - 32)%N
  else c.
Definition lower_cp (c : N) : N :=
  if ((65 <=? c) && (c <=? 90))%N then (c + 32)%N
  else if ((1040 <=? c) && (c <=? 1071))%N then (c + 32)%N
  else c.
Definition upper (s : str) : str := List.map upper_cp s.
Definition lower (s : str) : str := List.map lower_cp s.

(** *** Public API *)

(** [OnScreenKeyboard.__init__] *)
Definition init : OnScreenKeyboard :=
  mkKeyboard (lit "Text") [] 64 letters_en false 0 0.

(** [start(prompt, initial_text, max_len)]; [initial_text or ""] maps
    both [None] and the empty string to the empty string. *)
Definition start (k : OnScreenKeyboard) (prompt0 : str)
           (initial_text : option str) (max_len0 : Z) : OnScreenKeyboard :=
  mkKeyboard prompt0
             (match initial_text with Some t => t | None => [] end)
             max_len0 letters_en false 0 0.

Definition cycle_language (k : OnScreenKeyboard) : OnScreenKeyboard :=
  match mode k with
  | num_sym => set_mode k letters_en
  | letters_en => set_mode k letters_ru
  | letters_ru => set_mode k letters_en
  end.

(** [_get_layout_rows] *)
Definition get_layout_rows (k : OnScreenKeyboard) : list (list str) :=
  let base_rows :=
    match mode k with
    | letters_en => letters_en_rows
    | letters_ru => letters_ru_rows
    | num_sym => num_rows
    end in
  let rows :=
    List.map (fun base_row =>
      List.map (fun ch =>
        if startswith_letters (mode k)
        then (if shift k then upper ch else lower ch)
        else ch) base_row) base_rows in
  let mode_label :=
    match mode k with
    | num_sym => lit "ABC"
    | _ => lit "123"
    end in
  let system_row :=
    [mode_label; lit "Shift"; lit "space"; backspace_label; lit "return"] in
  rows ++ [system_row].

(** [_get_current_key_label] *)
Definition get_current_key_label (k : OnScreenKeyboard) : res (option str) :=
  let rows := get_layout_rows k in
  if (cursor_row k <? 0) || (cursor_row k >=? len rows) then Ok None
  else
    row <- index rows (cursor_row k) ;;
    if (cursor_col k <? 0) || (cursor_col k >=? len row) then Ok None
    else
      label <- index row (cursor_col k) ;;
      Ok (Some label).

Definition is_navigation (e : Event) : bool :=
  match e with
  | UP | DOWN | LEFT | RIGHT => true
  | _ => false
  end.

(** The [if]/[elif] chain of the navigation branch. *)
Definition navigate (k : OnScreenKeyboard) (rows : list (list str))
           (event : Event) : res OnScreenKeyboard :=
  let max_row := len rows - 1 in
  match event with
  | UP =>
      if cursor_row k >? 0 then Ok (set_cursor_row k (cursor_row k - 1))
      else Ok k
  | DOWN =>
      if cursor_row k <? max_row then Ok (set_cursor_row k (cursor_row k + 1))
      else Ok k
  | LEFT =>
      if cursor_col k >? 0 then Ok (set_cursor_col k (cursor_col k - 1))
      else Ok k
  | RIGHT =>
      row <- index rows (cursor_row k) ;;
      if cursor_col k <? len row - 1
      then Ok (set_cursor_col k (cursor_col k + 1))
      else Ok k
  | _ => Ok k
  end.

(** [handle_event]: the new keyboard and the returned pair. *)
Definition handle_event (k : OnScreenKeyboard) (event : Event)
  : res (OnScreenKeyboard * (option Action * option str)) :=
  let rows := get_layout_rows k in
  if is_navigation event then
    k1 <- navigate k rows event ;;
    row <- index rows (cursor_row k1) ;;
    if cursor_col k1 >=? len row then
      row' <- index rows (cursor_row k1) ;;
      Ok (set_cursor_col k1 (len row' - 1), (Some redraw, None))
    else Ok (k1, (Some redraw, None))
  else
    match event with
    | CENTER =>
        l <- get_current_key_label k ;;
        match l with
        | None => Ok (k, (None, None))
        | Some label =>
            if str_eqb label (lit "space") then
              if len (text k) <? max_len k
              then Ok (set_text k (text k ++ lit " "), (Some redraw, None))
              else Ok (k, (Some redraw, None))
            else if str_eqb label backspace_label then
              match text k with
              | [] => Ok (k, (Some redraw, None))
              | _ => Ok (set_text k (drop_last (text k)), (Some redraw, None))
              end
            else if str_eqb label (lit "return") then
              Ok (k, (Some done, Some (text k)))
            else if str_eqb label (lit "123") || str_eqb label (lit "ABC") then
              let k1 :=
                match mode k with
                | num_sym => set_mode k letters_en
                | _ => set_mode k num_sym
                end in
              let k2 :=
                set_cursor_row k1
                  (Z.min (cursor_row k1) (len (get_layout_rows k1) - 1)) in
              row <- index (get_layout_rows k2) (cursor_row k2) ;;
              Ok (set_cursor_col k2 (Z.min (cursor_col k2) (len row - 1)),
                  (Some redraw, None))
            else if str_eqb label (lit "Shift") then
              Ok (set_shift k (negb (shift k)), (Some redraw, None))
            else if (len label =? 1) && (len (text k) <? max_len k) then
              Ok (set_text k (text k ++ label), (Some redraw, None))
            else Ok (k, (None, None))
        end
    | _ => Ok (k, (None, None))
    end.

(** *** Sessions *)

(** What the KEYBOARD state of the event loop does to the keyboard on one
    tick: KEY1 calls [cycle_language], the joystick events go to
    [handle_event]. *)
Inductive Input : Type :=
| Handle (e : Event)
| CycleLanguage.

Definition step (k : OnScreenKeyboard) (i : Input) : res OnScreenKeyboard :=
  match i with
  | Handle e => r <- handle_event k e ;; Ok (fst r)
  | CycleLanguage => Ok (cycle_language k)
  end.

Fixpoint run (k : OnScreenKeyboard) (inputs : list Input)
  : res OnScreenKeyboard :=
  match inputs with
  | [] => Ok k
  | i :: rest => k' <- step k i ;; run k' rest
  end.

(** The cursor points at a key of the grid that is currently shown. *)
Definition cursor_in_grid (k : OnScreenKeyboard) : bool :=
  let rows := get_layout_rows k in
  (0 <=? cursor_row k) && (cursor_row k <? len rows) &&
  match nth_error rows (Z.to_nat (cursor_row k)) with
  | Some row => (0 <=? cursor_col k) && (cursor_col k <? len row)
  | None => false
  end.

(** The number of keys in each row of each layout. *)
Definition row_len (m : Mode) (r : Z) : Z :=
  if r =? 3 then 5
  else if r =? 0 then 10
  else match m with
       | letters_en => if r =? 1 then 9 else 7
       | letters_ru => 9
       | num_sym => 6
       end.

(** Activating this label reaches one of the two statements that append
    to the text: the space key or a one-character key other than
    backspace. *)
Definition appends (label : str) : bool :=
  str_eqb label (lit "space")
  || ((len label =? 1) && negb (str_eqb label backspace_label)).

(** The label of the mode-toggle key. *)
Definition is_mode_toggle (label : str) : bool :=
  str_eqb label (lit "123") || str_eqb label (lit "ABC").

(** The cursor is on a row of the grid and not left of it: what every step
    of a session keeps, [cycle_language] included. *)
Definition row_ok (k : OnScreenKeyboard) : Prop :=
  0 <= cursor_row k < 4 /\ 0 <= cursor_col k.

(** The last row of the grid [_get_layout_rows] builds in mode [m]. *)
Definition system_row (m : Mode) : list str :=
  [ match m with num_sym => lit "ABC" | _ => lit "123" end;
    lit "Shift"; lit "space"; backspace_label; lit "return" ].

(** A label of the three main rows: one character, not the backspace. *)
Definition char_label (l : str) : Prop :=
  len l = 1 /\ l <> backspace_label.

(** [_get_layout_indicator]: "123", "EN", "RU", with an up arrow (U+2191)
    after the language when shift is on. *)
Definition get_layout_indicator (k : OnScreenKeyboard) : str :=
  match mode k with
  | num_sym => lit "123"
  | letters_en => if shift k then lit "EN" ++ [8593%N] else lit "EN"
  | letters_ru => if shift k then lit "RU" ++ [8593%N] else lit "RU"
  end.

(** Enumerating an integer that is known to lie in [0, 10). *)
Ltac enum10 c :=
  let C := fresh "C" in
  assert (C : c = 0 \/ c = 1 \/ c = 2 \/ c = 3 \/ c = 4 \/ c = 5 \/ c = 6
              \/ c = 7 \/ c = 8 \/ c = 9) by lia;
  destruct C as [C|[C|[C|[C|[C|[C|[C|[C|[C|C]]]]]]]]]; subst c.

Ltac enum4 r :=
  let C := fresh "C" in
  assert (C : r = 0 \/ r = 1 \/ r = 2 \/ r = 3) by lia;
  destruct C as [C|[C|[C|C]]]; subst r.

End ui_keyboard.

(* ------------------------------------------------------------------ *)
(** ** apps/loader.py *)

Module loader.
Import Py.

Section Loader.

(** The type of instantiated mini-apps. *)
Variable App : Type.

(** An attribute of the imported module as [load_app] uses it: what
    calling it with three and with two positional arguments does. *)
Record Attr : Type := mkAttr {
  call3 : res App;   (* app_cls(hw, fonts, monitor) *)
  call2 : res App    (* app_cls(hw, fonts) *)
}.

(** An imported module: the names of [dir(mod)], in the order [dir]
    lists them, each with the value [getattr] gives. *)
Definition PyModule : Type := list (str * Attr).

(** [importlib.import_module] *)
Variable import_module : str -> res PyModule.

(** The [for attr in dir(mod)] loop: the first attribute whose name
    ends in "App". *)
Fixpoint find_app_cls (attrs : PyModule) : option Attr :=
  match attrs with
  | [] => None
  | (attr, value) :: rest =>
      if endswith attr (lit "App") then Some value
      else find_app_cls rest
  end.

(** [load_app(module_name, hw, fonts, monitor)]: the records logged
    and the value returned or the exception raised. *)
Definition load_app (module_name : str)
  : list log_record * res (option App) :=
  match import_module (lit "apps." ++ module_name ++ lit ".app") with
  | Raise e =>
      if is_Exception e
      then ([warning "Failed to import app module %s: %s"], Ok None)
      else ([], Raise e)
  | Ok mod_ =>
      match find_app_cls mod_ with
      | None => ([warning "No *App class found in %s"], Ok None)
      | Some app_cls =>
          match call3 app_cls with
          | Ok a => ([], Ok (Some a))
          | Raise e =>
              if is_TypeError e then
                match call2 app_cls with
                | Ok a => ([], Ok (Some a))
                | Raise e2 =>
                    if is_Exception e2
                    then ([warning "Failed to instantiate app %s: %s"],
                          Ok None)
                    else ([], Raise e2)
                end
              else ([], Raise e)
          end
      end
  end.

End Loader.

Arguments call3 {App} _.
Arguments call2 {App} _.
Arguments mkAttr {App} _ _.

(** *** Example data *)

(** A module whose only [*App] class needs hardware that is missing: its
    constructor raises RuntimeError whatever the number of arguments. *)
Definition failing_module : PyModule unit :=
  [ (lit "GpsApp",
     mkAttr (Raise (Exception_other "RuntimeError"))
            (Raise (Exception_other "RuntimeError")));
    (lit "time", mkAttr (Raise TypeError) (Raise TypeError)) ].

(** A module with an old-style class that takes two arguments only. *)
Definition old_style_module : PyModule unit :=
  [ (lit "Image", mkAttr (Raise TypeError) (Raise TypeError));
    (lit "TempApp", mkAttr (Raise TypeError) (Ok tt)) ].

End loader.

(* ------------------------------------------------------------------ *)
(** ** main.py: file-system actions *)

Module main_py.
Import Py.
Import ui_keyboard.

(** *** posixpath *)

Definition slash : N := 47%N.

(** [os.path.join(a, b)] *)
Definition path_join (a b : str) : str :=
  if startswith b [slash] then b
  else if match a with [] => true | _ => false end || endswith a [slash]
       then a ++ b
       else a ++ [slash] ++ b.

(** [os.path.dirname(p)]: everything up to the last slash, with the
    trailing slashes removed unless nothing else is left. *)
Definition path_dirname (p : str) : str :=
  let head := List.rev (dropwhile (fun c => negb (N.eqb c slash)) (List.rev p)) in
  if forallb (N.eqb slash) head then head
  else List.rev (dropwhile (N.eqb slash) (List.rev head)).

(** *** Menu entries and their metadata *)

(** [entry["type"]] *)
Inductive EntryType : Type := folder | app.

(** An entry dict of [load_list_entries], without its icon image. *)
Record Entry : Type := mkEntry {
  etype : EntryType;
  path : str;
  display_name : str;
  sort_priority : Z
}.

Inductive json : Type :=
| JStr (s : str)
| JBool (b : bool)
| JInt (z : Z).

(** A metadata dict, as [json.load] gives it and [json.dump] takes it. *)
Definition Meta : Type := list (string * json).

(** [meta[key] = v] on a dict *)
Fixpoint dict_set (m : Meta) (key : string) (v : json) : Meta :=
  match m with
  | [] => [(key, v)]
  | (k', v') :: rest =>
      if String.eqb k' key then (key, v) :: rest
      else (k', v') :: dict_set rest key v
  end.

(** What [json.load] gives for a file that parses: a JSON object, that is
    a dict, or another JSON value (an array, a string, a number, [true],
    [false] or [null]). *)
Inductive Document : Type :=
| Object (m : Meta)
| NotObject.

(** [meta[key] = v] on what [json.load] gave: with a string key the
    assignment raises TypeError on a list, a str, a number, a bool and
    [None]. *)
Definition setitem (meta : Document) (key : string) (v : json) : res Meta :=
  match meta with
  | Object m => Ok (dict_set m key v)
  | NotObject => Raise TypeError
  end.

Definition FOLDER_ICON_NAME : str := lit "folder.png".

(** *** The operating system, as the actions below call it *)

(** Whether a call into [os] / [shutil] / [open] returned or raised
    (an [OSError], which every caller catches with [except Exception]). *)
Inductive outcome : Type := Returned | Raised.

(** The file system is a collaborator: the actions are modelled over any
    type of file-system states with these operations.  A mutating call
    gives the state it leaves behind together with its outcome, so that
    nothing is assumed about what a failed call has or has not done.
    [read_json] is [open] followed by [json.load]: [None] when either
    raised.
    [load_list_entries] only reads the directory; the event loop uses
    nothing but the list it returns. *)
Class FileSystem (FS : Type) : Type := {
  path_exists : FS -> str -> bool;
  path_isfile : FS -> str -> bool;
  os_makedirs : FS -> str -> FS * outcome;
  os_rename : FS -> str -> str -> FS * outcome;
  shutil_rmtree : FS -> str -> FS * outcome;
  os_remove : FS -> str -> FS * outcome;
  read_json : FS -> str -> option Document;
  write_json : FS -> str -> Meta -> FS * outcome;
  load_list_entries : FS -> str -> list Entry
}.

Definition is_empty {A : Type} (l : list A) : bool :=
  match l with
  | [] => true
  | _ => false
  end.

(** [sanitize_fs_name] *)
Definition allowed : str :=
  lit "abcdefghijklmnopqrstuvwxyzABCDEFGHIJKLMNOPQRSTUVWXYZ0123456789_-".

Definition sanitize_fs_name (name : str) : str :=
  let name := strip name in
  if is_empty name then []
  else
    let name := List.map (fun c => if N.eqb c 32 then 95%N else c) name in
    List.filter (fun ch => existsb (N.eqb ch) allowed) name.

Section Actions.

Context {FS : Type} `{FileSystem FS}.

(** The probing loop of [create_folder_named], over the values [i]
    still to try: the first candidate path that does not exist. *)
Fixpoint create_candidate (fs : FS) (current_dir base_fs : str)
         (range : list nat) : option str :=
  match range with
  | [] => None
  | i :: rest =>
      let candidate :=
        if Nat.eqb i 0 then base_fs
        else base_fs ++ lit "_" ++ format_nat i in
      let path := path_join current_dir candidate in
      if negb (path_exists fs path) then Some path
      else create_candidate fs current_dir base_fs rest
  end.

(** [create_folder_named(current_dir, display_name)]: the file system
    it leaves and the records it logs. *)
Definition create_folder_named (fs : FS) (current_dir display_name : str)
  : FS * list log_record :=
  let display_name := strip display_name in
  if is_empty display_name
  then (fs, [info "Empty folder name, skipping create"])
  else
    let safe_name := sanitize_fs_name display_name in
    let safe_name := if is_empty safe_name then lit "Folder" else safe_name in
    let base_fs := safe_name in
    match create_candidate fs current_dir base_fs (seq 0 1000) with
    | None => (fs, [warning "Could not create new folder, limit reached"])
    | Some new_path =>
        match os_makedirs fs new_path with
        | (fs1, Raised) => (fs1, [warning "Failed to create folder %s: %s"])
        | (fs1, Returned) =>
            let meta_path := path_join new_path (lit ".meta.json") in
            let meta : Meta :=
              [ ("display_name"%string, JStr display_name);
                ("icon"%string, JStr FOLDER_ICON_NAME);
                ("visible"%string, JBool true);
                ("sort_priority"%string, JInt 5000) ] in
            match write_json fs1 meta_path meta with
            | (fs2, Raised) =>
                (fs2, [warning "Failed to write folder meta: %s";
                       info "Created folder: %s (display: %s)"])
            | (fs2, Returned) =>
                (fs2, [info "Created folder: %s (display: %s)"])
            end
        end
    end.

(** [delete_entry(entry)] *)
Definition delete_entry (fs : FS) (entry : Entry) : FS * list log_record :=
  match etype entry with
  | folder =>
      match shutil_rmtree fs (path entry) with
      | (fs1, Returned) => (fs1, [info "Deleted folder: %s"])
      | (fs1, Raised) => (fs1, [warning "Failed to delete folder %s: %s"])
      end
  | app =>
      match os_remove fs (path entry) with
      | (fs1, Returned) => (fs1, [info "Deleted app: %s"])
      | (fs1, Raised) => (fs1, [warning "Failed to delete app %s: %s"])
      end
  end.

(** The collision loop of [rename_entry], over the values [i] still to
    try: the first candidate [safe_name_i] (plus [suffix], ".app" for
    an app) that does not exist; [new_path] is kept when the loop runs
    to its end. *)
Fixpoint rename_candidate (fs : FS) (parent safe_name suffix new_path : str)
         (range : list nat) : str :=
  match range with
  | [] => new_path
  | i :: rest =>
      let candidate := safe_name ++ lit "_" ++ format_nat i ++ suffix in
      let candidate_path := path_join parent candidate in
      if negb (path_exists fs candidate_path) then candidate_path
      else rename_candidate fs parent safe_name suffix new_path rest
  end.

(** The destination [rename_entry] hands to [os.rename]. *)
Definition rename_new_path (fs : FS) (parent safe_name suffix : str) : str :=
  let new_path := path_join parent (safe_name ++ suffix) in
  if path_exists fs new_path
  then rename_candidate fs parent safe_name suffix new_path (seq 1 999)
  else new_path.

(** [rename_entry(entry, new_display_name)]: the file system it leaves,
    the entry dict after the call (the dict is updated in place) and
    the records it logs.  The assignments [meta["display_name"] = ...]
    and [meta["name"] = ...] stand outside every [try]: when the metadata
    file parses to something that is not a dict, the call raises TypeError
    after [os.rename] has returned. *)
Definition rename_entry (fs : FS) (entry : Entry) (new_display_name : str)
  : res (FS * Entry * list log_record) :=
  let path0 := path entry in
  let parent := path_dirname path0 in
  let display_name0 := strip new_display_name in
  if is_empty display_name0
  then Ok (fs, entry, [info "Empty new name, skipping rename"])
  else
    match etype entry with
    | folder =>
        let safe_name := sanitize_fs_name display_name0 in
        if is_empty safe_name
        then Ok (fs, entry,
                 [info "Sanitized folder name is empty, skipping rename"])
        else
          let new_path := rename_new_path fs parent safe_name [] in
          match os_rename fs path0 new_path with
          | (fs1, Raised) =>
              Ok (fs1, entry, [warning "Failed to rename folder %s -> %s: %s"])
          | (fs1, Returned) =>
              let meta_path := path_join new_path (lit ".meta.json") in
              let meta : Document :=
                if path_isfile fs1 meta_path then
                  match read_json fs1 meta_path with
                  | Some m => m
                  | None => Object []
                  end
                else Object [] in
              meta <- setitem meta "display_name" (JStr display_name0) ;;
              let entry' :=
                mkEntry (etype entry) new_path display_name0
                        (sort_priority entry) in
              match write_json fs1 meta_path meta with
              | (fs2, Raised) =>
                  Ok (fs2, entry',
                      [warning "Failed to write meta after folder rename: %s";
                       info "Renamed folder to: %s (display: %s)"])
              | (fs2, Returned) =>
                  Ok (fs2, entry',
                      [info "Renamed folder to: %s (display: %s)"])
              end
          end
    | app =>
        let safe_name := sanitize_fs_name display_name0 in
        if is_empty safe_name
        then Ok (fs, entry,
                 [info "Sanitized app name is empty, skipping rename"])
        else
          let new_path := rename_new_path fs parent safe_name (lit ".app") in
          match os_rename fs path0 new_path with
          | (fs1, Raised) =>
              Ok (fs1, entry, [warning "Failed to rename app %s -> %s: %s"])
          | (fs1, Returned) =>
              let meta : Document :=
                match read_json fs1 new_path with
                | Some m => m
                | None => Object []
                end in
              meta <- setitem meta "name" (JStr display_name0) ;;
              let entry' :=
                mkEntry (etype entry) new_path display_name0
                        (sort_priority entry) in
              match write_json fs1 new_path meta with
              | (fs2, Raised) =>
                  Ok (fs2, entry',
                      [warning "Failed to write app meta after rename: %s";
                       info "Renamed app to: %s (display: %s)"])
              | (fs2, Returned) =>
                  Ok (fs2, entry', [info "Renamed app to: %s (display: %s)"])
              end
          end
    end.

End Actions.

(** *** The event loop of [main]: OPTIONS_MENU and KEYBOARD *)

Inductive State : Type :=
| STATE_SCREENSAVER | STATE_MAIN_MENU | STATE_LIST_VIEW
| STATE_OPTIONS_MENU | STATE_KEYBOARD | STATE_CONSOLE | STATE_APP.

Inductive KbMode : Type := KB_MODE_RENAME | KB_MODE_NEW_FOLDER.

Definition OPTIONS_ITEMS : list str :=
  [lit "Create folder"; lit "Rename"; lit "Delete"; lit "Back"].

(** The local variables of [main] that the two branches read or write.
    [current_dir] is [None] until a root category is entered.
    [keyboard_target] is the entry dict picked for renaming; that dict is
    also an element of [list_entries], which is replaced by a reload
    right after a rename whenever [current_dir] is set. *)
Record UI : Type := mkUI {
  state : State;
  current_dir : option str;
  list_entries : list Entry;
  selected_list_index : Z;
  list_scroll : Z;
  selected_option_index : Z;
  keyboard : OnScreenKeyboard;
  keyboard_mode : option KbMode;
  keyboard_target : option Entry;
  list_dirty : bool;
  options_dirty : bool;
  keyboard_dirty : bool
}.

(** [if current_dir:] *)
Definition truthy_dir (d : option str) : option str :=
  match d with
  | Some (c :: s) => Some (c :: s)
  | _ => None
  end.

(** The three lines that follow every reload on the way back to the list
    view ([if selected_list_index >= len(list_entries): ...] and
    [list_scroll = min(list_scroll, selected_list_index)]): the new
    selection and the new scroll offset. *)
Definition clamp_selection (entries : list Entry)
           (selected_list_index0 list_scroll0 : Z) : Z * Z :=
  let selected :=
    if selected_list_index0 >=? len entries
    then Z.max 0 (len entries - 1)
    else selected_list_index0 in
  (selected, Z.min list_scroll0 selected).

Section Loop.

Context {FS : Type} `{FileSystem FS}.

(** [load_list_entries(current_dir)] where [current_dir] may still be
    [None], on which [os.path.isdir] raises TypeError. *)
Definition load_current (fs : FS) (d : option str) : res (list Entry) :=
  match d with
  | Some dir => Ok (load_list_entries fs dir)
  | None => Raise TypeError
  end.

(** The branch [elif state == STATE_OPTIONS_MENU:]. *)
Definition options_menu_event (fs : FS) (ui : UI) (event : Event)
  : res (FS * UI * list log_record) :=
  let to_list_view (u : UI) :=
    mkUI STATE_LIST_VIEW (current_dir u) (list_entries u)
         (selected_list_index u) (list_scroll u) (selected_option_index u)
         (keyboard u) (keyboard_mode u) (keyboard_target u)
         true (options_dirty u) (keyboard_dirty u) in
  let set_option (u : UI) (i : Z) :=
    mkUI (state u) (current_dir u) (list_entries u)
         (selected_list_index u) (list_scroll u) i
         (keyboard u) (keyboard_mode u) (keyboard_target u)
         (list_dirty u) true (keyboard_dirty u) in
  match event with
  | KEY3 => Ok (fs, to_list_view ui, [])
  | UP =>
      if selected_option_index ui >? 0
      then Ok (fs, set_option ui (selected_option_index ui - 1), [])
      else Ok (fs, ui, [])
  | DOWN =>
      let max_idx := len OPTIONS_ITEMS - 1 in
      if selected_option_index ui <? max_idx
      then Ok (fs, set_option ui (selected_option_index ui + 1), [])
      else Ok (fs, ui, [])
  | CENTER =>
      choice <- index OPTIONS_ITEMS (selected_option_index ui) ;;
      let log0 := [info "OPTIONS choice: %s"] in
      if str_eqb choice (lit "Back") then
        Ok (fs, to_list_view ui, log0)
      else if str_eqb choice (lit "Create folder") then
        match truthy_dir (current_dir ui) with
        | Some _ =>
            Ok (fs,
                mkUI STATE_KEYBOARD (current_dir ui) (list_entries ui)
                     (selected_list_index ui) (list_scroll ui)
                     (selected_option_index ui)
                     (start (keyboard ui) (lit "New folder") (Some []) 64)
                     (Some KB_MODE_NEW_FOLDER) None
                     (list_dirty ui) (options_dirty ui) true,
                log0)
        | None => Ok (fs, ui, log0)
        end
      else if str_eqb choice (lit "Delete") then
        match list_entries ui with
        | [] => Ok (fs, to_list_view ui, log0)
        | _ =>
            item <- index (list_entries ui) (selected_list_index ui) ;;
            let '(fs1, log1) := delete_entry fs item in
            entries <- load_current fs1 (current_dir ui) ;;
            let '(sel, scroll) :=
              clamp_selection entries (selected_list_index ui)
                              (list_scroll ui) in
            Ok (fs1,
                mkUI STATE_LIST_VIEW (current_dir ui) entries sel scroll
                     (selected_option_index ui) (keyboard ui)
                     (keyboard_mode ui) (keyboard_target ui)
                     true (options_dirty ui) (keyboard_dirty ui),
                log0 ++ log1)
        end
      else if str_eqb choice (lit "Rename") then
        match list_entries ui with
        | [] => Ok (fs, to_list_view ui, log0)
        | _ =>
            target <- index (list_entries ui) (selected_list_index ui) ;;
            let initial := display_name target in
            Ok (fs,
                mkUI STATE_KEYBOARD (current_dir ui) (list_entries ui)
                     (selected_list_index ui) (list_scroll ui)
                     (selected_option_index ui)
                     (start (keyboard ui) (lit "Rename") (Some initial) 64)
                     (Some KB_MODE_RENAME) (Some target)
                     (list_dirty ui) (options_dirty ui) true,
                log0 ++ [info "Open KEYBOARD for rename: %s"])
        end
      else Ok (fs, ui, log0)
  | _ => Ok (fs, ui, [])
  end.

(** What both the KEY2 branch and the [action == "done"] branch of the
    keyboard state do with the confirmed [text] (applied only when it
    [is not None]): apply the rename or the creation, reload the list
    when [current_dir] is set, clamp the selection and go back to the
    list view. *)
Definition confirm_text (fs : FS) (ui : UI) (text0 : option str)
  : res (FS * UI * list log_record) :=
  applied <-
    match keyboard_mode ui, keyboard_target ui,
          truthy_dir (current_dir ui), text0 with
    | Some KB_MODE_RENAME, Some target, _, Some t =>
        r <- rename_entry fs target t ;;
        let '(fs', _, l) := r in Ok (fs', l)
    | Some KB_MODE_NEW_FOLDER, _, Some dir, Some t =>
        Ok (create_folder_named fs dir t)
    | _, _, _, _ => Ok (fs, [])
    end ;;
  let '(fs1, log1) := applied in
  let '(entries, sel, scroll) :=
    match truthy_dir (current_dir ui) with
    | Some dir =>
        let entries := load_list_entries fs1 dir in
        let '(sel, scroll) :=
          clamp_selection entries (selected_list_index ui)
                          (list_scroll ui) in
        (entries, sel, scroll)
    | None => (list_entries ui, selected_list_index ui, list_scroll ui)
    end in
  Ok (fs1,
      mkUI STATE_LIST_VIEW (current_dir ui) entries sel scroll
           (selected_option_index ui) (keyboard ui) None None
           true (options_dirty ui) (keyboard_dirty ui),
      log1).

(** The branch [elif state == STATE_KEYBOARD:]. *)
Definition keyboard_event (fs : FS) (ui : UI) (event : Event)
  : res (FS * UI * list log_record) :=
  let set_keyboard (u : UI) (k : OnScreenKeyboard) (dirty : bool) :=
    mkUI (state u) (current_dir u) (list_entries u)
         (selected_list_index u) (list_scroll u) (selected_option_index u)
         k (keyboard_mode u) (keyboard_target u)
         (list_dirty u) (options_dirty u) dirty in
  match event with
  | KEY3 =>
      Ok (fs,
          mkUI STATE_LIST_VIEW (current_dir ui) (list_entries ui)
               (selected_list_index ui) (list_scroll ui)
               (selected_option_index ui) (keyboard ui) None None
               true (options_dirty ui) (keyboard_dirty ui),
          [])
  | KEY1 =>
      Ok (fs, set_keyboard ui (cycle_language (keyboard ui)) true, [])
  | KEY2 => confirm_text fs ui (Some (text (keyboard ui)))
  | _ =>
      r <- handle_event (keyboard ui) event ;;
      let '(k', (action, text0)) := r in
      match action with
      | Some redraw => Ok (fs, set_keyboard ui k' true, [])
      | Some done =>
          confirm_text fs (set_keyboard ui k' (keyboard_dirty ui)) text0
      | None => Ok (fs, set_keyboard ui k' (keyboard_dirty ui), [])
      end
  end.

End Loop.

(** *** A small in-memory file system

    An instance of [FileSystem] on which the model runs: a table from
    paths to nodes.  [os.rename] onto an existing file replaces it, as on
    POSIX. *)

Inductive Node : Type :=
| DirNode
| FileNode (content : option Document).

Definition MemFS : Type := list (str * Node).

Fixpoint mem_lookup (fs : MemFS) (p : str) : option Node :=
  match fs with
  | [] => None
  | (q, n) :: rest => if str_eqb q p then Some n else mem_lookup rest p
  end.

Definition mem_delete (fs : MemFS) (p : str) : MemFS :=
  List.filter (fun '(q, _) => negb (str_eqb q p)) fs.

Definition mem_drop (fs : MemFS) (p : str) : MemFS * outcome :=
  match mem_lookup fs p with
  | Some _ => (mem_delete fs p, Returned)
  | None => (fs, Raised)
  end.

Definition mem_entry (dir : str) (b : str * Node) : list Entry :=
  let '(q, n) := b in
  if str_eqb (path_dirname q) dir then
    match n with
    | DirNode => [mkEntry folder q q 5000]
    | FileNode _ =>
        if endswith q (lit ".app") then [mkEntry app q q 9000] else []
    end
  else [].

#[export] Instance MemFS_FileSystem : FileSystem MemFS := {
  path_exists fs p :=
    match mem_lookup fs p with Some _ => true | None => false end;
  path_isfile fs p :=
    match mem_lookup fs p with Some (FileNode _) => true | _ => false end;
  os_makedirs fs p :=
    match mem_lookup fs p with
    | Some DirNode => (fs, Returned)
    | Some (FileNode _) => (fs, Raised)
    | None => (fs ++ [(p, DirNode)], Returned)
    end;
  os_rename fs src dst :=
    match mem_lookup fs src with
    | Some n => (mem_delete (mem_delete fs src) dst ++ [(dst, n)], Returned)
    | None => (fs, Raised)
    end;
  shutil_rmtree := mem_drop;
  os_remove := mem_drop;
  read_json fs p :=
    match mem_lookup fs p with
    | Some (FileNode (Some m)) => Some m
    | _ => None
    end;
  write_json fs p m :=
    (mem_delete fs p ++ [(p, FileNode (Some (Object m)))], Returned);
  load_list_entries fs dir := List.flat_map (mem_entry dir) fs
}.

(** *** Example data *)

(** A menu directory with two app files. *)
Definition two_apps : MemFS :=
  [ (lit "menu", DirNode);
    (lit "menu/a.app", FileNode (Some (Object [])));
    (lit "menu/b.app", FileNode (Some (Object []))) ].

(** A menu directory with a single app file. *)
Definition one_app : MemFS :=
  [ (lit "menu", DirNode);
    (lit "menu/a.app", FileNode (Some (Object []))) ].

(** The event-loop variables in state [st], showing directory "menu" of
    [fs] with the entry at [selected] selected, the options menu on item
    [opt], and keyboard [k] in mode [km] for target [kt]. *)
Definition ui_on (fs : MemFS) (st : State) (selected opt : Z)
           (k : OnScreenKeyboard) (km : option KbMode) (kt : option Entry) : UI :=
  mkUI st (Some (lit "menu")) (load_list_entries fs (lit "menu"))
       selected 0 opt k km kt false false false.

(** A keyboard session whose text is two spaces. *)
Definition blank_keyboard : OnScreenKeyboard :=
  mkKeyboard (lit "New folder") (lit "  ") 64 letters_en false 0 0.

(** The same session with the cursor on the on-screen "return" key. *)
Definition blank_keyboard_on_return : OnScreenKeyboard :=
  mkKeyboard (lit "Rename") (lit "  ") 64 letters_en false 3 4.

(** A directory "d" in which [old.app] sits next to [new.app],
    [new_1.app], ..., [new_999.app]: every name the collision loop of
    [rename_entry] tries for "new" is taken. *)
Definition old_meta : Meta := [("exec"%string, JStr (lit "uptime"))].
Definition taken_meta : Meta := [("exec"%string, JStr (lit "reboot"))].

Definition crowded_dir : MemFS :=
  (lit "d/old.app", FileNode (Some (Object old_meta)))
  :: (lit "d/new.app", FileNode (Some (Object taken_meta)))
  :: List.map (fun i => (lit "d/new_" ++ format_nat i ++ lit ".app",
                         FileNode (Some (Object taken_meta))))
              (seq 1 999).

Definition old_entry : Entry := mkEntry app (lit "d/old.app") (lit "old") 9000.

(** A menu directory whose only app file holds the JSON array [[]]: the
    file parses, but not to an object. *)
Definition array_app : MemFS :=
  [ (lit "menu", DirNode);
    (lit "menu/a.app", FileNode (Some NotObject)) ].

(** A rename session on that app, the only entry of the list: the
    keyboard holds the new name "b". *)
Definition rename_array_app : UI :=
  ui_on array_app STATE_KEYBOARD 0 1
        (mkKeyboard (lit "Rename") (lit "b") 64 letters_en false 0 0)
        (Some KB_MODE_RENAME)
        (Some (mkEntry app (lit "menu/a.app") (lit "menu/a.app") 9000)).

(** *** A file system that refuses every change

    An in-memory file system mounted read-only: the calls that would
    change it raise and leave it as it is ([os.makedirs] with
    [exist_ok=True] still returns on a directory that exists). *)

Record ReadOnlyFS : Type := mkReadOnly { mounted : MemFS }.

#[export] Instance ReadOnlyFS_FileSystem : FileSystem ReadOnlyFS := {
  path_exists fs p := path_exists (mounted fs) p;
  path_isfile fs p := path_isfile (mounted fs) p;
  os_makedirs fs p :=
    match mem_lookup (mounted fs) p with
    | Some DirNode => (fs, Returned)
    | _ => (fs, Raised)
    end;
  os_rename fs src dst := (fs, Raised);
  shutil_rmtree fs p := (fs, Raised);
  os_remove fs p := (fs, Raised);
  read_json fs p := read_json (mounted fs) p;
  write_json fs p m := (fs, Raised);
  load_list_entries fs dir := load_list_entries (mounted fs) dir
}.

(** *** The event loop of [main]: navigation inside the other states *)

(** The branch [elif event in ("UP", "DOWN", "LEFT", "RIGHT")] of the main
    menu, a grid of 2 rows and 3 columns over [root_entries]: the new
    [selected_root_index] and whether [menu_dirty] was set. *)
Definition main_menu_navigate {A : Type} (root_entries : list A)
           (selected_root_index : Z) (event : Event) : Z * bool :=
  match root_entries with
  | [] => (selected_root_index, false)
  | _ =>
      let rows := 2 in
      let cols := 3 in
      let idx := selected_root_index in
      let row := idx / cols in
      let col := idx mod cols in
      let '(row, col) :=
        match event with
        | UP => if row >? 0 then (row - 1, col) else (row, col)
        | DOWN => if row <? rows - 1 then (row + 1, col) else (row, col)
        | LEFT => if col >? 0 then (row, col - 1) else (row, col)
        | RIGHT => if col <? cols - 1 then (row, col + 1) else (row, col)
        | _ => (row, col)
        end in
      let new_idx := row * cols + col in
      if (new_idx <? len root_entries) && negb (new_idx =? selected_root_index)
      then (new_idx, true)
      else (selected_root_index, false)
  end.

(** The branch [elif event in ("UP", "DOWN")] of the list view, for a
    screen of height [screen_height]: selection, scroll offset and
    [list_dirty] after the event. *)
Definition list_view_navigate (screen_height : Z) (ui : UI) (event : Event)
  : UI :=
  let set_list (u : UI) (sel scroll : Z) :=
    mkUI (state u) (current_dir u) (list_entries u) sel scroll
         (selected_option_index u) (keyboard u) (keyboard_mode u)
         (keyboard_target u) true (options_dirty u) (keyboard_dirty u) in
  match list_entries ui with
  | [] => ui
  | _ =>
      let row_h := 30 in
      let max_rows := (screen_height - 30) / row_h in
      match event with
      | UP =>
          if selected_list_index ui >? 0 then
            let sel := selected_list_index ui - 1 in
            set_list ui sel
                     (if sel <? list_scroll ui then sel else list_scroll ui)
          else ui
      | DOWN =>
          if selected_list_index ui <? len (list_entries ui) - 1 then
            let sel := selected_list_index ui + 1 in
            set_list ui sel
                     (if sel >=? list_scroll ui + max_rows
                      then sel - max_rows + 1 else list_scroll ui)
          else ui
      | _ => ui
      end
  end.

(** The UP and DOWN branches of the console state: the new
    [console_scroll] and whether [console_dirty] was set. *)
Definition console_navigate (console_lines : list str) (console_scroll : Z)
           (event : Event) : Z * bool :=
  match event with
  | UP =>
      if console_scroll >? 0 then (console_scroll - 1, true)
      else (console_scroll, false)
  | DOWN =>
      if console_scroll <? Z.max 0 (len console_lines - 1)
      then (console_scroll + 1, true)
      else (console_scroll, false)
  | _ => (console_scroll, false)
  end.

(** What the list view relies on between events, for a window of
    [max_rows] rows: the selection is an index of the list (0 on an empty
    list), the scroll offset is not negative and the selected row lies in
    the window; a list that is not empty comes from a directory; the
    options index is one of the four items; the keyboard cursor is on a
    row. *)
Definition ui_inv (max_rows : Z) (ui : UI) : Prop :=
  0 <= list_scroll ui <= selected_list_index ui
  /\ selected_list_index ui < list_scroll ui + max_rows
  /\ (selected_list_index ui < len (list_entries ui)
      \/ (list_entries ui = [] /\ selected_list_index ui = 0))
  /\ (list_entries ui <> [] -> current_dir ui <> None)
  /\ 0 <= selected_option_index ui < 4
  /\ row_ok (keyboard ui).

(** [ch in allowed] *)
Definition is_allowed (ch : N) : bool := existsb (N.eqb ch) allowed.

(** A directory "d" in which "Beta" exists and "Beta_1" does not. *)
Definition beta_dir : MemFS :=
  [ (lit "d", DirNode); (lit "d/Alpha", DirNode); (lit "d/Beta", DirNode) ].

(** Case analysis on the next [os.path.exists] test of a probing loop. *)
Ltac case_exists E :=
  match goal with
  | |- context [negb (path_exists ?fs ?q)] =>
      destruct (path_exists fs q) eqn:E; cbn [negb]
  end.

End main_py.

(* ------------------------------------------------------------------ *)
(** ** core/input.py and [read_buttons] of main.py *)

Module core_input.
Import Py ui_keyboard.

Definition Event_eqb (a b : Event) : bool :=
  match a, b with
  | UP, UP | DOWN, DOWN | LEFT, LEFT | RIGHT, RIGHT
  | CENTER, CENTER | KEY1, KEY1 | KEY2, KEY2 | KEY3, KEY3 => true
  | _, _ => false
  end.

(** The keys of the [pins] dict, in its order. *)
Definition pin_names : list Event :=
  [UP; DOWN; LEFT; RIGHT; CENTER; KEY1; KEY2; KEY3].

(** A dict from button names to the level read on their pin. *)
Definition States : Type := list (Event * Z).

(** [d.get(name, default)] *)
Fixpoint states_get (d : States) (name : Event) (default : Z) : Z :=
  match d with
  | [] => default
  | (n, v) :: rest => if Event_eqb n name then v else states_get rest name default
  end.

(** [d[name] = v] *)
Fixpoint states_set (d : States) (name : Event) (v : Z) : States :=
  match d with
  | [] => [(name, v)]
  | (n, w) :: rest =>
      if Event_eqb n name then (n, v) :: rest
      else (n, w) :: states_set rest name v
  end.

(** The loop [for name, pin in pins.items()], over the names still to
    visit; [digital_read] gives the level of each pin on this tick. *)
Fixpoint read_loop (digital_read : Event -> Z) (prev_states : States)
         (names : list Event) (new_states : States) (event : option Event)
  : option Event * States :=
  match names with
  | [] => (event, new_states)
  | name :: rest =>
      let val := digital_read name in
      let new_states := states_set new_states name val in
      let prev := states_get prev_states name 1 in
      let event :=
        if (prev =? 1) && (val =? 0)
           && match event with None => true | Some _ => false end
        then Some name else event in
      read_loop digital_read prev_states rest new_states event
  end.

(** [read_buttons(prev_states)]: the event and the new states. *)
Definition read_buttons (digital_read : Event -> Z) (prev_states : States)
  : option Event * States :=
  read_loop digital_read prev_states pin_names [] None.

(** The pin of [name] went from 1 to 0 between the two reads. *)
Definition pressed (digital_read : Event -> Z) (prev_states : States)
           (name : Event) : bool :=
  (states_get prev_states name 1 =? 1) && (digital_read name =? 0).

End core_input.

(* ------------------------------------------------------------------ *)
(** ** core/monitor.py *)

Module core_monitor.
Import Py.

Section Monitor.

(** Python floats and the two operations [sample] applies to them. *)
Variable float : Type.
Variable fsub : float -> float -> float.
Variable flt : float -> float -> bool.

Record SystemMonitor : Type := mkMonitor {
  max_points : Z;
  interval : float;
  last_sample : float;
  cpu_percent : float;
  mem_used : Z;
  mem_total : Z;
  temp_c : float;
  cpu_history : list float;
  temp_history : list float
}.

(** What [_sample_cpu], [_sample_mem] and [_sample_temp] store. *)
Record Readings : Type := mkReadings {
  read_cpu : float;
  read_mem_used : Z;
  read_mem_total : Z;
  read_temp : float
}.

(** [__init__(max_points, interval)]; [zero] is the float 0.0. *)
Definition init (zero : float) (max_points0 : Z) (interval0 : float)
  : SystemMonitor :=
  mkMonitor max_points0 interval0 zero zero 0 0 zero [] [].

(** [hist.append(v)] followed by [hist.pop(0)] when the list has grown
    past [max_points]. *)
Definition append_bounded (hist : list float) (v : float) (max_points0 : Z)
  : list float :=
  let hist := hist ++ [v] in
  if len hist >? max_points0 then List.tl hist else hist.

(** [sample(now)], where [r] is what the three samplers read. *)
Definition sample (m : SystemMonitor) (now : float) (r : Readings)
  : SystemMonitor :=
  if flt (fsub now (last_sample m)) (interval m) then m
  else
    mkMonitor (max_points m) (interval m) now
              (read_cpu r) (read_mem_used r) (read_mem_total r) (read_temp r)
              (append_bounded (cpu_history m) (read_cpu r) (max_points m))
              (append_bounded (temp_history m) (read_temp r) (max_points m)).

(** A run of the main loop: one [sample] call per tick. *)
Fixpoint sample_all (m : SystemMonitor) (ticks : list (float * Readings))
  : SystemMonitor :=
  match ticks with
  | [] => m
  | (now, r) :: rest => sample_all (sample m now r) rest
  end.

End Monitor.

Arguments max_points {float} _.
Arguments interval {float} _.
Arguments last_sample {float} _.
Arguments cpu_percent {float} _.
Arguments temp_c {float} _.
Arguments cpu_history {float} _.
Arguments temp_history {float} _.
Arguments read_cpu {float} _.
Arguments read_temp {float} _.
Arguments mkReadings {float} _ _ _ _.

End core_monitor.

(* ------------------------------------------------------------------ *)
(** ** core/console.py *)

Module core_console.
Import Py.

(** [l[:n]] *)
Definition slice_to {A : Type} (l : list A) (n : Z) : list A :=
  if n <? 0 then firstn (Z.to_nat (len l + n)) l else firstn (Z.to_nat n) l.

(** [l[n:]] *)
Definition slice_from {A : Type} (l : list A) (n : Z) : list A :=
  if n <? 0 then skipn (Z.to_nat (len l + n)) l else skipn (Z.to_nat n) l.

(** [l[a:b]] for [0 <= a]. *)
Definition slice {A : Type} (l : list A) (a b : Z) : list A :=
  slice_from (slice_to l b) a.

(** The [while len(line) > max_chars] loop of [_wrap_lines] with the
    [append] that follows it: the pieces of [line], or [None] when [fuel]
    iterations were not enough. *)
Fixpoint wrap_line (fuel : nat) (line : str) (max_chars : Z)
  : option (list str) :=
  if len line >? max_chars then
    match fuel with
    | O => None
    | S fuel' =>
        match wrap_line fuel' (slice_from line max_chars) max_chars with
        | Some rest => Some (slice_to line max_chars :: rest)
        | None => None
        end
    end
  else Some [line].

(** [_wrap_lines(lines, max_chars)], each inner loop running at most
    [fuel] times. *)
Fixpoint wrap_lines (fuel : nat) (lines : list str) (max_chars : Z)
  : option (list str) :=
  match lines with
  | [] => Some []
  | line :: rest =>
      let pieces :=
        match rstrip line with
        | [] => Some [[]]
        | c :: line' => wrap_line fuel (c :: line') max_chars
        end in
      match pieces, wrap_lines fuel rest max_chars with
      | Some pieces, Some wrapped => Some (pieces ++ wrapped)
      | _, _ => None
      end
  end.

(** The lines [draw_console] puts on a screen of height [height]: the
    scroll offset is normalised and the window [wrapped[start:end]] is
    drawn. *)
Definition visible_lines (height : Z) (wrapped0 : list str)
           (console_scroll : Z) : list str :=
  let top_bar_h := 20 in
  let row_h := 14 in
  let max_rows := (height - top_bar_h) / row_h in
  let wrapped :=
    match wrapped0 with
    | [] => [lit "(no output)"]
    | _ => wrapped0
    end in
  let console_scroll := if console_scroll <? 0 then 0 else console_scroll in
  let console_scroll :=
    if console_scroll >? Z.max 0 (len wrapped - max_rows)
    then Z.max 0 (len wrapped - max_rows)
    else console_scroll in
  let start := console_scroll in
  let end_ := Z.min (start + max_rows) (len wrapped) in
  slice wrapped start end_.

End core_console.

(* ================================================================== *)
(** * Properties *)

(** ** Python values *)

Module Py_facts.
Import Py.

Lemma len_nonneg {A : Type} (l : list A) : 0 <= len l.
Proof. unfold len. lia. Qed.

Lemma len_app {A : Type} (l1 l2 : list A) : len (l1 ++ l2) = len l1 + len l2.
Proof. unfold len. rewrite length_app. lia. Qed.

Lemma str_eqb_eq (a b : str) : str_eqb a b = true <-> a = b.
Proof.
  revert b. induction a as [|x a IH]; intros [|y b]; simpl; split;
    try congruence; try reflexivity.
  - intros E. apply andb_true_iff in E as [E1 E2].
    apply N.eqb_eq in E1. apply IH in E2. congruence.
  - intros E. inversion E; subst. apply andb_true_iff. split.
    + apply N.eqb_refl.
    + now apply IH.
Qed.

Lemma str_eqb_refl (a : str) : str_eqb a a = true.
Proof. now apply str_eqb_eq. Qed.

(** Comparing strings of different lengths. *)
Lemma str_eqb_len (a b : str) : len a <> len b -> str_eqb a b = false.
Proof.
  intros Hn. destruct (str_eqb a b) eqn:E; [|reflexivity].
  apply str_eqb_eq in E. subst. contradiction.
Qed.

(** Inside its bounds [l[i]] is the element at position [i]. *)
Lemma index_in_range {A : Type} (l : list A) (i : Z) :
  0 <= i < len l ->
  exists x, nth_error l (Z.to_nat i) = Some x /\ index l i = Ok x.
Proof.
  intros [H0 H1]. unfold index.
  assert (E : (i <? 0) = false) by lia. rewrite E.
  assert (E' : (0 <=? i) && (i <? len l) = true) by lia. rewrite E'.
  destruct (nth_error l (Z.to_nat i)) as [x|] eqn:N.
  - eauto.
  - apply nth_error_None in N. unfold len in H1. lia.
Qed.

Lemma removelast_len {A : Type} (l : list A) :
  l <> [] -> len (drop_last l) = len l - 1.
Proof.
  intros Hne. unfold drop_last, len.
  destruct (exists_last Hne) as [l' [a ->]].
  rewrite removelast_last, length_app. simpl. lia.
Qed.

End Py_facts.


(** ** The on-screen keyboard *)

Module ui_keyboard_facts.
Import Py Py_facts ui_keyboard.

(** Every layout has four rows, of the lengths [row_len] gives. *)
Lemma rows_shape (k : OnScreenKeyboard) :
  exists r0 r1 r2 r3,
    get_layout_rows k = [r0; r1; r2; r3]
    /\ len r0 = row_len (mode k) 0 /\ len r1 = row_len (mode k) 1
    /\ len r2 = row_len (mode k) 2 /\ len r3 = row_len (mode k) 3.
Proof.
  unfold get_layout_rows.
  destruct (mode k), (shift k); cbn;
    do 4 eexists; (split; [reflexivity | repeat split; reflexivity]).
Qed.

Lemma len_rows (k : OnScreenKeyboard) : len (get_layout_rows k) = 4.
Proof.
  destruct (rows_shape k) as (r0 & r1 & r2 & r3 & E & _). now rewrite E.
Qed.

(** Indexing the grid at a row number in range gives a row of the length
    [row_len] tells. *)
Lemma index_row (k : OnScreenKeyboard) (r : Z) :
  0 <= r < 4 ->
  exists row,
    nth_error (get_layout_rows k) (Z.to_nat r) = Some row
    /\ index (get_layout_rows k) r = Ok row
    /\ len row = row_len (mode k) r.
Proof.
  intros Hr.
  destruct (index_in_range (get_layout_rows k) r) as (row & N & I).
  { rewrite len_rows. exact Hr. }
  exists row. repeat split; trivial.
  destruct (rows_shape k) as (r0 & r1 & r2 & r3 & E & L0 & L1 & L2 & L3).
  rewrite E in N.
  assert (C : r = 0 \/ r = 1 \/ r = 2 \/ r = 3) by lia.
  destruct C as [-> | [-> | [-> | ->]]]; cbn in N; inversion N; subst; assumption.
Qed.

Lemma row_len_pos (m : Mode) (r : Z) : 5 <= row_len m r <= 10.
Proof.
  unfold row_len.
  destruct (r =? 3), (r =? 0), m, (r =? 1); lia.
Qed.

(** [cursor_in_grid] in arithmetic. *)
Lemma cursor_in_grid_iff (k : OnScreenKeyboard) :
  cursor_in_grid k = true <->
  0 <= cursor_row k < 4 /\ 0 <= cursor_col k < row_len (mode k) (cursor_row k).
Proof.
  unfold cursor_in_grid. rewrite len_rows. split.
  - intros E. apply andb_true_iff in E as [E1 E2].
    apply andb_true_iff in E1 as [E0 E1].
    assert (Hr : 0 <= cursor_row k < 4) by lia.
    destruct (index_row k _ Hr) as (row & N & _ & L).
    rewrite N in E2. lia.
  - intros [Hr Hc].
    destruct (index_row k _ Hr) as (row & N & _ & L).
    rewrite N. lia.
Qed.

(** The rows of the grid only depend on the mode and on shift. *)
Lemma rows_set_text k t : get_layout_rows (set_text k t) = get_layout_rows k.
Proof. reflexivity. Qed.
Lemma rows_set_cursor_row k r :
  get_layout_rows (set_cursor_row k r) = get_layout_rows k.
Proof. reflexivity. Qed.
Lemma rows_set_cursor_col k c :
  get_layout_rows (set_cursor_col k c) = get_layout_rows k.
Proof. reflexivity. Qed.

Lemma cursor_in_grid_row_ok k : cursor_in_grid k = true -> row_ok k.
Proof. intros E. apply cursor_in_grid_iff in E. unfold row_ok. lia. Qed.

(** A navigation event never raises on a cursor that is on a row, returns
    "redraw", touches only the cursor and leaves it inside the grid. *)
Lemma navigation_spec (k : OnScreenKeyboard) (e : Event) :
  is_navigation e = true -> row_ok k ->
  exists k',
    handle_event k e = Ok (k', (Some redraw, None))
    /\ cursor_in_grid k' = true
    /\ text k' = text k /\ max_len k' = max_len k
    /\ mode k' = mode k /\ shift k' = shift k /\ prompt k' = prompt k.
Proof.
  intros Hnav [Hr Hc]. unfold handle_event. rewrite Hnav.
  assert (Hnavk : exists k1, navigate k (get_layout_rows k) e = Ok k1
            /\ 0 <= cursor_row k1 < 4 /\ 0 <= cursor_col k1
            /\ text k1 = text k /\ max_len k1 = max_len k
            /\ mode k1 = mode k /\ shift k1 = shift k /\ prompt k1 = prompt k).
  { unfold navigate. rewrite len_rows.
    destruct e; try discriminate.
    - destruct (cursor_row k >? 0) eqn:E; eexists; (split; [reflexivity|]);
        cbn; repeat split; lia.
    - destruct (cursor_row k <? 4 - 1) eqn:E; eexists; (split; [reflexivity|]);
        cbn; repeat split; lia.
    - destruct (cursor_col k >? 0) eqn:E; eexists; (split; [reflexivity|]);
        cbn; repeat split; lia.
    - destruct (index_row k _ Hr) as (row & _ & I & L). rewrite I. cbn.
      destruct (cursor_col k <? len row - 1) eqn:E; eexists;
        (split; [reflexivity|]); cbn; repeat split; lia. }
  destruct Hnavk as (k1 & -> & Hr1 & Hc1 & Et & Em & Emo & Es & Ep). cbn.
  assert (Erows : get_layout_rows k = get_layout_rows k1).
  { unfold get_layout_rows. now rewrite Emo, Es. }
  rewrite Erows.
  destruct (index_row k1 _ Hr1) as (row & _ & I & L). rewrite I. cbn.
  pose proof (row_len_pos (mode k1) (cursor_row k1)) as Hpos.
  destruct (cursor_col k1 >=? len row) eqn:E.
  - eexists. split; [reflexivity|]. split.
    + apply cursor_in_grid_iff. cbn. lia.
    + cbn. auto.
  - eexists. split; [reflexivity|]. split.
    + apply cursor_in_grid_iff. lia.
    + auto.
Qed.

(** The grid is three rows of character labels above the system row. *)
Lemma rows_structure (k : OnScreenKeyboard) :
  exists r0 r1 r2,
    get_layout_rows k = [r0; r1; r2; system_row (mode k)]
    /\ Forall char_label r0 /\ Forall char_label r1 /\ Forall char_label r2.
Proof.
  unfold get_layout_rows, system_row, char_label.
  destruct (mode k), (shift k); cbn;
    do 3 eexists; (split; [reflexivity|]);
    repeat split; repeat (constructor; [split; [reflexivity | discriminate]|]);
    constructor.
Qed.

(** [_get_current_key_label] never raises: it gives [None] exactly when the
    cursor is outside the grid, and otherwise the label under the cursor, a
    key of the system row or a character label. *)
Lemma label_cases (k : OnScreenKeyboard) :
  (cursor_in_grid k = false /\ get_current_key_label k = Ok None)
  \/ (cursor_in_grid k = true /\
      exists l, get_current_key_label k = Ok (Some l)
        /\ ((cursor_row k = 3
             /\ nth_error (system_row (mode k)) (Z.to_nat (cursor_col k)) = Some l)
            \/ (0 <= cursor_row k < 3 /\ char_label l))).
Proof.
  unfold get_current_key_label. rewrite len_rows.
  destruct ((cursor_row k <? 0) || (cursor_row k >=? 4)) eqn:Er.
  - left. split; [|reflexivity].
    destruct (cursor_in_grid k) eqn:G; [|reflexivity].
    apply cursor_in_grid_iff in G. lia.
  - assert (Hr : 0 <= cursor_row k < 4) by lia.
    destruct (index_row k _ Hr) as (row & N & I & L). rewrite I. cbn.
    destruct ((cursor_col k <? 0) || (cursor_col k >=? len row)) eqn:Ec.
    + left. split; [|reflexivity].
      destruct (cursor_in_grid k) eqn:G; [|reflexivity].
      apply cursor_in_grid_iff in G. lia.
    + assert (Hc : 0 <= cursor_col k < len row) by lia.
      destruct (index_in_range row _ Hc) as (l & Nl & Il). rewrite Il. cbn.
      right. split; [apply cursor_in_grid_iff; lia|].
      exists l. split; [reflexivity|].
      destruct (rows_structure k) as (r0 & r1 & r2 & E & F0 & F1 & F2).
      rewrite E in N.
      assert (C : cursor_row k = 0 \/ cursor_row k = 1 \/ cursor_row k = 2
                  \/ cursor_row k = 3) by lia.
      destruct C as [C | [C | [C | C]]]; rewrite C in N; cbn in N;
        inversion N; subst row.
      * right. split; [lia|].
        apply nth_error_In in Nl. rewrite Forall_forall in F0. auto.
      * right. split; [lia|].
        apply nth_error_In in Nl. rewrite Forall_forall in F1. auto.
      * right. split; [lia|].
        apply nth_error_In in Nl. rewrite Forall_forall in F2. auto.
      * left. split; [exact C | exact Nl].
Qed.

Lemma label_some_in_grid (k : OnScreenKeyboard) (l : str) :
  get_current_key_label k = Ok (Some l) -> cursor_in_grid k = true.
Proof.
  intros E. destruct (label_cases k) as [[_ E'] | [G _]]; [congruence | exact G].
Qed.

(** The comparisons of [handle_event] on a character label all fail. *)
Lemma char_label_tests (l : str) :
  char_label l ->
  str_eqb l (lit "space") = false /\ str_eqb l backspace_label = false
  /\ str_eqb l (lit "return") = false /\ str_eqb l (lit "123") = false
  /\ str_eqb l (lit "ABC") = false /\ str_eqb l (lit "Shift") = false
  /\ (len l =? 1) = true.
Proof.
  intros [L Nb].
  repeat split; try (apply str_eqb_len; rewrite L; cbn; lia); try lia.
  destruct (str_eqb l backspace_label) eqn:E; [|reflexivity].
  apply str_eqb_eq in E. contradiction.
Qed.

(** A key of the system row, by its column. *)
Lemma system_row_cases (m : Mode) (c : Z) (l : str) :
  nth_error (system_row m) (Z.to_nat c) = Some l -> 0 <= c ->
  (c = 0 /\ l = match m with num_sym => lit "ABC" | _ => lit "123" end)
  \/ (c = 1 /\ l = lit "Shift") \/ (c = 2 /\ l = lit "space")
  \/ (c = 3 /\ l = backspace_label) \/ (c = 4 /\ l = lit "return").
Proof.
  intros N Hc.
  assert (Hlt : (Z.to_nat c < 5)%nat).
  { change 5%nat with (List.length (system_row m)).
    apply nth_error_Some. rewrite N. discriminate. }
  assert (C : c = 0 \/ c = 1 \/ c = 2 \/ c = 3 \/ c = 4) by lia.
  destruct C as [-> | [-> | [-> | [-> | ->]]]]; cbn in N; inversion N; tauto.
Qed.

(** The mode-toggle label is only found in column 0 of the system row. *)
Lemma mode_toggle_position (k : OnScreenKeyboard) (l : str) :
  get_current_key_label k = Ok (Some l) -> is_mode_toggle l = true ->
  cursor_row k = 3 /\ cursor_col k = 0.
Proof.
  intros E T. destruct (label_cases k) as [[_ E'] | [G (l' & E' & C)]];
    [congruence|].
  assert (l' = l) by congruence. subst l'.
  apply cursor_in_grid_iff in G.
  destruct C as [[R N] | [_ Hc]].
  - apply system_row_cases in N; [|lia].
    destruct N as [[-> _] | [[_ ->] | [[_ ->] | [[_ ->] | [_ ->]]]]];
      auto; discriminate.
  - apply char_label_tests in Hc as (_ & _ & _ & H1 & H2 & _).
    unfold is_mode_toggle in T. rewrite H1, H2 in T. discriminate.
Qed.

(** One activation of the mode-toggle key: it flips between [num_sym] and
    [letters_en] and leaves everything else, the cursor included, as it
    was. *)
Lemma toggle_step (k : OnScreenKeyboard) (l : str) :
  get_current_key_label k = Ok (Some l) -> is_mode_toggle l = true ->
  handle_event k CENTER =
    Ok (set_mode k (match mode k with num_sym => letters_en | _ => num_sym end),
        (Some redraw, None)).
Proof.
  intros E T. destruct (mode_toggle_position k l E T) as [R C].
  destruct k as [p t ml m sh r c]. cbn in R, C. subst r c.
  destruct m, sh; reflexivity.
Qed.

(** On the toggle key the label is again a toggle after the mode changed. *)
Lemma toggle_label_after (k : OnScreenKeyboard) (m : Mode) :
  cursor_row k = 3 -> cursor_col k = 0 ->
  exists l, get_current_key_label (set_mode k m) = Ok (Some l)
            /\ is_mode_toggle l = true.
Proof.
  intros R C. destruct k as [p t ml m0 sh r c]. cbn in R, C. subst r c.
  destruct m, sh; eexists; split; reflexivity.
Qed.

(** What one CENTER does, on any keyboard: it never raises, keeps
    [max_len] and the prompt, and either leaves the text, or drops its last
    character, or appends one character below the bound. *)
Lemma center_spec (k : OnScreenKeyboard) :
  exists k' r,
    handle_event k CENTER = Ok (k', r)
    /\ max_len k' = max_len k
    /\ cursor_row k' = cursor_row k /\ cursor_col k' = cursor_col k
    /\ (mode k' = mode k \/ (cursor_row k = 3 /\ cursor_col k = 0))
    /\ (text k' = text k
        \/ text k' = drop_last (text k)
        \/ (len (text k) < max_len k /\ len (text k') = len (text k) + 1)).
Proof.
  destruct (label_cases k) as [[_ E] | [G (l & E & C)]].
  - unfold handle_event. cbn. rewrite E. cbn.
    do 2 eexists. split; [reflexivity|]. auto 10.
  - destruct (is_mode_toggle l) eqn:T.
    { rewrite (toggle_step k l E T). do 2 eexists.
      split; [reflexivity|]. cbn.
      pose proof (mode_toggle_position k l E T). auto 10. }
    apply cursor_in_grid_iff in G.
    destruct C as [[R N] | [_ Hc]].
    + apply system_row_cases in N; [|lia].
      destruct N as [[_ ->] | [[_ ->] | [[_ ->] | [[_ ->] | [_ ->]]]]].
      * destruct (mode k); discriminate.
      * unfold handle_event. cbn. rewrite E. cbn.
        do 2 eexists. split; [reflexivity|]. cbn. auto 10.
      * unfold handle_event. cbn. rewrite E. cbn.
        destruct (len (text k) <? max_len k) eqn:B;
          do 2 eexists; (split; [reflexivity|]); cbn; auto 10.
        repeat split; auto. right. right. rewrite len_app.
        split; [lia | reflexivity].
      * unfold handle_event. cbn. rewrite E. cbn.
        destruct (text k) eqn:Tx;
          do 2 eexists; (split; [reflexivity|]); cbn; auto 10.
      * unfold handle_event. cbn. rewrite E. cbn.
        do 2 eexists. split; [reflexivity|]. auto 10.
    + pose proof (char_label_tests l Hc) as (H1 & H2 & H3 & H4 & H5 & H6 & H7).
      unfold handle_event. cbn [is_navigation]. rewrite E. cbn [bind].
      rewrite H1, H2, H3, H4, H5, H6, H7. cbn [orb andb].
      destruct (len (text k) <? max_len k) eqn:B;
        do 2 eexists; (split; [reflexivity|]); cbn; auto 10.
      repeat split; auto. right. right. rewrite len_app.
      destruct Hc as [L _]. lia.
Qed.

(** One tick of a session on a cursor that is on a row: it does not raise,
    the cursor stays on a row, and the text changes as [center_spec] says. *)
Lemma step_spec (k : OnScreenKeyboard) (i : Input) :
  row_ok k ->
  exists k',
    step k i = Ok k' /\ row_ok k' /\ max_len k' = max_len k
    /\ (text k' = text k
        \/ text k' = drop_last (text k)
        \/ (len (text k) < max_len k /\ len (text k') = len (text k) + 1)).
Proof.
  intros Hk. destruct i as [e|].
  - destruct (is_navigation e) eqn:Nav.
    + destruct (navigation_spec k e Nav Hk)
        as (k' & E & G & Et & Em & _).
      exists k'. unfold step. rewrite E. cbn.
      split; [reflexivity|]. split; [now apply cursor_in_grid_row_ok|]. auto.
    + destruct e; try discriminate.
      * destruct (center_spec k) as (k' & r & E & Em & Er & Ec & _ & Et).
        exists k'. unfold step. rewrite E. cbn.
        split; [reflexivity|]. unfold row_ok in *. rewrite Er, Ec. auto.
      * exists k. cbn. auto.
      * exists k. cbn. auto.
      * exists k. cbn. auto.
  - exists (cycle_language k). cbn. split; [reflexivity|].
    unfold cycle_language, row_ok in *. destruct (mode k); cbn; auto.
Qed.

Lemma drop_last_len_le {A : Type} (l : list A) : len (drop_last l) <= len l.
Proof.
  destruct l as [|a l]; [cbn; lia|].
  rewrite removelast_len by discriminate. lia.
Qed.

(** A session on a cursor that starts on a row runs to its end without
    raising and never lets the text grow past [max_len], provided the text
    it starts with is within the bound. *)
Lemma run_spec (inputs : list Input) :
  forall k, row_ok k -> len (text k) <= max_len k ->
  exists k', run k inputs = Ok k' /\ row_ok k'
             /\ max_len k' = max_len k /\ len (text k') <= max_len k'.
Proof.
  induction inputs as [|i rest IH]; intros k Hk Hb.
  - exists k. cbn. auto.
  - destruct (step_spec k i Hk) as (k1 & E & Hk1 & Em & Et).
    assert (Hb1 : len (text k1) <= max_len k1).
    { rewrite Em. destruct Et as [-> | [-> | [Hlt ->]]]; try lia.
      pose proof (drop_last_len_le (text k)). lia. }
    destruct (IH k1 Hk1 Hb1) as (k' & E' & Hk' & Em' & Hb').
    exists k'. cbn. rewrite E. cbn. rewrite E'.
    split; [reflexivity|]. split; [exact Hk'|]. split; [congruence | exact Hb'].
Qed.

(** [handle_event] keeps a cursor that is inside the grid inside the grid,
    whatever the event. *)
Lemma handle_event_keeps_cursor_in_grid (k : OnScreenKeyboard) (e : Event) :
  cursor_in_grid k = true ->
  exists k' r, handle_event k e = Ok (k', r) /\ cursor_in_grid k' = true.
Proof.
  intros G. destruct (is_navigation e) eqn:Nav.
  - destruct (navigation_spec k e Nav (cursor_in_grid_row_ok k G))
      as (k' & E & G' & _).
    eauto.
  - destruct e; try discriminate; try (exists k; eexists; split; [reflexivity | exact G]).
    destruct (center_spec k) as (k' & r & E & _ & Er & Ec & Em & _).
    exists k', r. split; [exact E|].
    apply cursor_in_grid_iff in G. apply cursor_in_grid_iff.
    rewrite Er, Ec. destruct Em as [-> | [R C]]; [exact G|].
    rewrite R, C. cbn. lia.
Qed.

(** C1 (code defect): the cursor does not stay inside the grid through
    [cycle_language].  From a fresh session, switching to the Russian
    layout and walking to the last key of its third row (row 2, column 8)
    leaves the cursor inside the grid; calling [cycle_language] there
    returns to the English layout, whose third row has seven keys, without
    touching the cursor, which now points outside the grid. *)
Theorem cycle_language_leaves_cursor_outside_grid :
  exists k,
    run (start init (lit "New folder") (Some []) 64)
        [CycleLanguage; Handle DOWN; Handle DOWN;
         Handle RIGHT; Handle RIGHT; Handle RIGHT; Handle RIGHT;
         Handle RIGHT; Handle RIGHT; Handle RIGHT; Handle RIGHT] = Ok k
    /\ mode k = letters_ru /\ cursor_row k = 2 /\ cursor_col k = 8
    /\ cursor_in_grid k = true
    /\ mode (cycle_language k) = letters_en
    /\ cursor_row (cycle_language k) = 2 /\ cursor_col (cycle_language k) = 8
    /\ row_len letters_en 2 = 7
    /\ cursor_in_grid (cycle_language k) = false.
Proof.
  eexists. split; [vm_compute; reflexivity|]. vm_compute. repeat split.
Qed.

(** C2 as stated fails: a session started with an initial text longer than
    [max_len] keeps that text, so the bound does not hold after an append
    activation. *)
Lemma length_bound_fails_for_long_initial_text :
  ~ (forall (prompt0 : str) (initial_text : option str) (max_len0 : Z)
            (inputs : list Input) (k : OnScreenKeyboard),
        run (start init prompt0 initial_text max_len0) inputs = Ok k ->
        len (text k) <= max_len0).
Proof.
  intros H.
  specialize (H (lit "Rename") (Some (lit "abc")) 2 [Handle CENTER]
                (mkKeyboard (lit "Rename") (lit "abc") 2 letters_en false 0 0)
                eq_refl).
  vm_compute in H. apply H. reflexivity.
Qed.

(** C2 (amended): for a session started with an initial text no longer than
    [max_len], every sequence of events and [cycle_language] calls runs
    without raising and ends with [len(text) <= max_len]; and on any
    keyboard whose text has reached [max_len], activating the space key or
    a character key leaves the text as it is. *)
Theorem text_length_bound
  (k0 : OnScreenKeyboard) (prompt0 : str) (initial_text : option str)
  (max_len0 : Z) (inputs : list Input) :
  len (match initial_text with Some t => t | None => [] end) <= max_len0 ->
  (exists k, run (start k0 prompt0 initial_text max_len0) inputs = Ok k
             /\ max_len k = max_len0 /\ len (text k) <= max_len0)
  /\ (forall k l, get_current_key_label k = Ok (Some l) ->
                  appends l = true -> max_len k <= len (text k) ->
                  exists r, handle_event k CENTER = Ok (k, r)).
Proof.
  intros Hinit. split.
  - destruct (run_spec inputs (start k0 prompt0 initial_text max_len0))
      as (k & E & _ & Em & Hb).
    + unfold row_ok. cbn. lia.
    + cbn. exact Hinit.
    + exists k. cbn in Em. split; [exact E|]. split; [exact Em | lia].
  - intros k l E A Hfull. unfold appends in A.
    assert (B : (len (text k) <? max_len k) = false) by lia.
    destruct (str_eqb l (lit "space")) eqn:S.
    + apply str_eqb_eq in S. subst l.
      unfold handle_event. cbn [is_navigation]. rewrite E. cbn [bind].
      change (str_eqb (lit "space") (lit "space")) with true. cbv iota.
      rewrite B. eauto.
    + cbn [orb] in A. apply andb_true_iff in A as [A1 A2].
      assert (Hc : char_label l).
      { split; [lia|]. intros ->. rewrite str_eqb_refl in A2. discriminate. }
      pose proof (char_label_tests l Hc) as (H1 & H2 & H3 & H4 & H5 & H6 & H7).
      unfold handle_event. cbn [is_navigation]. rewrite E. cbn [bind].
      rewrite H1, H2, H3, H4, H5, H6, H7, B. cbn [orb andb]. eauto.
Qed.

(** The amended length bound at a concrete session: "ab" with bound 3,
    then two presses of the first key. *)
Lemma text_length_bound_witness :
  (exists k, run (start init (lit "Rename") (Some (lit "ab")) 3)
                 [Handle CENTER; Handle CENTER] = Ok k
             /\ max_len k = 3 /\ len (text k) <= 3)
  /\ (forall k l, get_current_key_label k = Ok (Some l) ->
                  appends l = true -> max_len k <= len (text k) ->
                  exists r, handle_event k CENTER = Ok (k, r)).
Proof.
  apply (text_length_bound init (lit "Rename") (Some (lit "ab")) 3
                           [Handle CENTER; Handle CENTER]).
  vm_compute. discriminate.
Defined.

(** C3 as stated fails: with the text at [max_len], activating a character
    key does not return "redraw" but [(None, None)]. *)
Lemma character_key_on_full_text_gives_no_redraw :
  ~ (forall (k : OnScreenKeyboard) (l : str),
        get_current_key_label k = Ok (Some l) -> char_label l ->
        exists k', handle_event k CENTER = Ok (k', (Some redraw, None))).
Proof.
  intros H.
  destruct (H (mkKeyboard (lit "Rename") (lit "ab") 2 letters_en false 0 0)
              (lit "q") eq_refl) as (k' & E).
  - split; [reflexivity | discriminate].
  - vm_compute in E. discriminate.
Qed.

(** C3 (amended): CENTER on a single-character key other than backspace
    appends that character and returns "redraw" when
    [len(text) < max_len]; otherwise it changes nothing and returns
    [(None, None)]. *)
Theorem center_on_character_key (k : OnScreenKeyboard) (l : str) :
  get_current_key_label k = Ok (Some l) -> char_label l ->
  handle_event k CENTER =
    if len (text k) <? max_len k
    then Ok (set_text k (text k ++ l), (Some redraw, None))
    else Ok (k, (None, None)).
Proof.
  intros E Hc.
  pose proof (char_label_tests l Hc) as (H1 & H2 & H3 & H4 & H5 & H6 & H7).
  unfold handle_event. cbn [is_navigation]. rewrite E. cbn [bind].
  rewrite H1, H2, H3, H4, H5, H6, H7. cbn [orb andb].
  destruct (len (text k) <? max_len k); reflexivity.
Qed.

(** The amended C3 on a fresh session: the key under the cursor is "q". *)
Lemma center_on_character_key_witness :
  handle_event (start init (lit "New folder") (Some []) 64) CENTER =
    Ok (set_text (start init (lit "New folder") (Some []) 64) (lit "q"),
        (Some redraw, None)).
Proof.
  apply (center_on_character_key
           (start init (lit "New folder") (Some []) 64) (lit "q")).
  - reflexivity.
  - split; [reflexivity | discriminate].
Defined.

(** C4 as stated fails: from the Russian layout two activations of the
    mode-toggle key end in the English layout, not in the original mode. *)
Lemma mode_toggle_twice_from_letters_ru :
  ~ (forall (k k1 k2 : OnScreenKeyboard) (l : str) r1 r2,
        get_current_key_label k = Ok (Some l) -> is_mode_toggle l = true ->
        handle_event k CENTER = Ok (k1, r1) ->
        handle_event k1 CENTER = Ok (k2, r2) ->
        mode k2 = mode k).
Proof.
  intros H.
  specialize (H (mkKeyboard (lit "Rename") [] 64 letters_ru false 3 0)
                (mkKeyboard (lit "Rename") [] 64 num_sym false 3 0)
                (mkKeyboard (lit "Rename") [] 64 letters_en false 3 0)
                (lit "123") (Some redraw, None) (Some redraw, None)
                eq_refl eq_refl eq_refl eq_refl).
  discriminate H.
Qed.

(** C4 (amended): activating the mode-toggle key returns "redraw", selects
    [letters_en] from [num_sym] and [num_sym] from either letters mode
    (never [letters_ru]), changes nothing but the mode, so keeps text and
    shift, and leaves the cursor inside the new grid; a second activation
    does the same again, and brings the keyboard back to the state it
    started from whenever the original mode was [letters_en] or [num_sym];
    when the original mode was [letters_ru] the two activations end in
    [letters_en], in the original state with only the mode replaced. *)
Theorem mode_toggle_twice (k : OnScreenKeyboard) (l : str) :
  get_current_key_label k = Ok (Some l) -> is_mode_toggle l = true ->
  exists k1 k2,
    handle_event k CENTER = Ok (k1, (Some redraw, None))
    /\ handle_event k1 CENTER = Ok (k2, (Some redraw, None))
    /\ mode k1 = match mode k with num_sym => letters_en | _ => num_sym end
    /\ mode k1 <> letters_ru /\ mode k2 <> letters_ru
    /\ text k1 = text k /\ shift k1 = shift k /\ cursor_in_grid k1 = true
    /\ text k2 = text k /\ shift k2 = shift k /\ cursor_in_grid k2 = true
    /\ (mode k <> letters_ru -> k2 = k)
    /\ (mode k = letters_ru ->
        mode k2 = letters_en /\ k2 = set_mode k letters_en)
    /\ k1 = set_mode k (mode k1).
Proof.
  intros E T.
  destruct (mode_toggle_position k l E T) as [R C].
  pose proof (toggle_step k l E T) as S1.
  destruct (toggle_label_after k
              (match mode k with num_sym => letters_en | _ => num_sym end) R C)
    as (l1 & E1 & T1).
  pose proof (toggle_step _ l1 E1 T1) as S2.
  do 2 eexists. split; [exact S1|]. split; [exact S2|].
  destruct k as [p t ml m sh r c]. cbn in R, C. subst r c.
  destruct m, sh; cbn; repeat split; try discriminate; try congruence.
Qed.

(** The amended C4 on a session whose cursor was moved onto the "123"
    key. *)
Lemma mode_toggle_twice_witness :
  exists k1 k2,
    handle_event (mkKeyboard (lit "Rename") (lit "ab") 64 letters_en true 3 0)
                 CENTER = Ok (k1, (Some redraw, None))
    /\ handle_event k1 CENTER = Ok (k2, (Some redraw, None))
    /\ mode k1 = num_sym
    /\ mode k1 <> letters_ru /\ mode k2 <> letters_ru
    /\ text k1 = lit "ab" /\ shift k1 = true /\ cursor_in_grid k1 = true
    /\ text k2 = lit "ab" /\ shift k2 = true /\ cursor_in_grid k2 = true
    /\ (letters_en <> letters_ru ->
        k2 = mkKeyboard (lit "Rename") (lit "ab") 64 letters_en true 3 0)
    /\ (letters_en = letters_ru ->
        mode k2 = letters_en
        /\ k2 = set_mode
                  (mkKeyboard (lit "Rename") (lit "ab") 64 letters_en true 3 0)
                  letters_en)
    /\ k1 = set_mode
              (mkKeyboard (lit "Rename") (lit "ab") 64 letters_en true 3 0)
              (mode k1).
Proof.
  apply (mode_toggle_twice
           (mkKeyboard (lit "Rename") (lit "ab") 64 letters_en true 3 0)
           (lit "123")); reflexivity.
Defined.

(** C5: [cycle_language] maps [letters_en] to [letters_ru], [letters_ru]
    to [letters_en] and [num_sym] to [letters_en], and leaves shift and
    text (and everything else) unchanged. *)
Theorem cycle_language_spec (k : OnScreenKeyboard) :
  mode (cycle_language k) =
    match mode k with
    | letters_en => letters_ru
    | letters_ru => letters_en
    | num_sym => letters_en
    end
  /\ shift (cycle_language k) = shift k
  /\ text (cycle_language k) = text k
  /\ cycle_language k = set_mode k (mode (cycle_language k)).
Proof.
  unfold cycle_language. destruct (mode k); cbn; repeat split.
Qed.

(** C9: when the cursor lies outside the active grid, CENTER reads no key
    ([_get_current_key_label] gives [None] without raising), returns
    [(None, None)] and leaves the keyboard, that is text, mode, shift and
    cursor, unchanged. *)
Theorem center_outside_grid (k : OnScreenKeyboard) :
  cursor_in_grid k = false ->
  get_current_key_label k = Ok None
  /\ handle_event k CENTER = Ok (k, (None, None)).
Proof.
  intros G. destruct (label_cases k) as [[_ E] | [G' _]]; [|congruence].
  split; [exact E|].
  unfold handle_event. cbn [is_navigation]. rewrite E. reflexivity.
Qed.

(** C9 at the cursor position that [cycle_language] can leave behind:
    row 2, column 8 of the English layout. *)
Lemma center_outside_grid_witness :
  get_current_key_label
    (mkKeyboard (lit "Rename") (lit "ab") 64 letters_en false 2 8) = Ok None
  /\ handle_event
       (mkKeyboard (lit "Rename") (lit "ab") 64 letters_en false 2 8) CENTER
     = Ok (mkKeyboard (lit "Rename") (lit "ab") 64 letters_en false 2 8,
           (None, None)).
Proof.
  apply (center_outside_grid
           (mkKeyboard (lit "Rename") (lit "ab") 64 letters_en false 2 8)).
  reflexivity.
Defined.

End ui_keyboard_facts.

(** ** The app loader *)

Module loader_facts.
Import Py Py_facts loader.

Section Loader.

Variable App : Type.
Variable import_module : str -> res (PyModule App).

(** An import that fails with an [Exception] gives "no app" and one
    warning. *)
Lemma load_app_import_failure (module_name : str) (e : exn) :
  import_module (lit "apps." ++ module_name ++ lit ".app") = Raise e -> is_Exception e = true ->
  load_app App import_module module_name =
    ([warning "Failed to import app module %s: %s"], Ok None).
Proof. intros E I. unfold load_app. now rewrite E, I. Qed.

(** A module without an attribute ending in "App" gives "no app" and one
    warning. *)
Lemma load_app_no_class (module_name : str) (m : PyModule App) :
  import_module (lit "apps." ++ module_name ++ lit ".app") = Ok m -> find_app_cls App m = None ->
  load_app App import_module module_name = ([warning "No *App class found in %s"], Ok None).
Proof. intros E F. unfold load_app. now rewrite E, F. Qed.

(** The three-argument call is tried first, on the first attribute whose
    name ends in "App"; its result is returned. *)
Lemma load_app_three_arguments (module_name : str) (m : PyModule App)
      (cls : Attr App) (a : App) :
  import_module (lit "apps." ++ module_name ++ lit ".app") = Ok m ->
  find_app_cls App m = Some cls -> call3 cls = Ok a ->
  load_app App import_module module_name = ([], Ok (Some a)).
Proof.
  intros E F C. unfold load_app.
  now rewrite E, F, C.
Qed.

(** On a TypeError from the three-argument call the two-argument call is
    tried: its result is returned, and an [Exception] it raises gives
    "no app" and one warning. *)
Lemma load_app_two_arguments (module_name : str) (m : PyModule App)
      (cls : Attr App) :
  import_module (lit "apps." ++ module_name ++ lit ".app") = Ok m ->
  find_app_cls App m = Some cls -> call3 cls = Raise TypeError ->
  load_app App import_module module_name =
    match call2 cls with
    | Ok a => ([], Ok (Some a))
    | Raise e2 =>
        if is_Exception e2
        then ([warning "Failed to instantiate app %s: %s"], Ok None)
        else ([], Raise e2)
    end.
Proof.
  intros E F C. unfold load_app.
  now rewrite E, F, C.
Qed.

(** Any other exception of the three-argument call leaves [load_app]. *)
Lemma load_app_three_arguments_raise (module_name : str) (m : PyModule App)
      (cls : Attr App) (e : exn) :
  import_module (lit "apps." ++ module_name ++ lit ".app") = Ok m ->
  find_app_cls App m = Some cls -> call3 cls = Raise e ->
  is_TypeError e = false ->
  load_app App import_module module_name = ([], Raise e).
Proof.
  intros E F C T. unfold load_app.
  now rewrite E, F, C, T.
Qed.

(** Whenever [load_app] returns "no app" it has logged exactly one
    warning, and whenever it returns an app or raises it has logged
    nothing. *)
Lemma load_app_log (module_name : str) :
  match load_app App import_module module_name with
  | (log, Ok None) => exists fmt, log = [warning fmt]
  | (log, _) => log = []
  end.
Proof.
  unfold load_app.
  destruct (import_module _) as [m|e].
  - destruct (find_app_cls App m) as [cls|]; [|eauto].
    destruct (call3 cls) as [a|e]; [reflexivity|].
    destruct (is_TypeError e); [|reflexivity].
    destruct (call2 cls) as [a|e2]; [reflexivity|].
    destruct (is_Exception e2); [eauto | reflexivity].
  - destruct (is_Exception e); [eauto | reflexivity].
Qed.

End Loader.

(** C8 (code defect): a constructor failure of the three-argument call
    that is not a TypeError is not turned into "no app".  For a module
    whose [GpsApp] constructor raises RuntimeError, [load_app] logs nothing
    and raises that RuntimeError to its caller, although the same failure
    of the two-argument call would be caught, logged and answered with
    [None]. *)
Theorem load_app_propagates_constructor_failure :
  find_app_cls unit failing_module
    = Some (mkAttr (Raise (Exception_other "RuntimeError"))
                   (Raise (Exception_other "RuntimeError")))
  /\ is_Exception (Exception_other "RuntimeError") = true
  /\ load_app unit (fun _ => Ok failing_module) (lit "network.gps")
     = ([], Raise (Exception_other "RuntimeError")).
Proof. repeat split. Qed.

(** The fallback on an old-style class, on an example. *)
Example load_app_old_style :
  load_app unit (fun _ => Ok old_style_module) (lit "system.temp")
  = ([], Ok (Some tt)).
Proof. reflexivity. Qed.

End loader_facts.

(** ** File-system actions and the event loop *)

Module main_py_facts.
Import Py Py_facts ui_keyboard ui_keyboard_facts main_py.

Section Actions.

Context {FS : Type} `{FileSystem FS}.

(** *** Probing for a free name *)

(** The path [create_folder_named] picks does not exist. *)
Lemma create_candidate_free (fs : FS) (current_dir base_fs : str)
      (range : list nat) (p : str) :
  create_candidate fs current_dir base_fs range = Some p ->
  path_exists fs p = false.
Proof.
  induction range as [|i rest IH]; cbn [create_candidate]; [discriminate|].
  case_exists E.
  - exact IH.
  - intros [= <-]. exact E.
Qed.

(** It picks none only when every candidate exists. *)
Lemma create_candidate_none (fs : FS) (current_dir base_fs : str)
      (range : list nat) :
  create_candidate fs current_dir base_fs range = None ->
  forall i, In i range ->
    path_exists fs
      (path_join current_dir
         (if Nat.eqb i 0 then base_fs else base_fs ++ lit "_" ++ format_nat i))
    = true.
Proof.
  induction range as [|j rest IH]; cbn [create_candidate In];
    [contradiction|].
  case_exists E; [|discriminate].
  intros N i [<- | Hin]; [exact E | now apply IH].
Qed.

(** [create_folder_named] changes the file system only through
    [os.makedirs] on a path that does not exist, followed by the write of
    the metadata file inside it. *)
Lemma create_folder_named_no_overwrite (fs : FS) (current_dir name : str) :
  fst (create_folder_named fs current_dir name) = fs
  \/ exists p,
       path_exists fs p = false
       /\ (fst (create_folder_named fs current_dir name)
             = fst (os_makedirs fs p)
           \/ exists meta,
                fst (create_folder_named fs current_dir name)
                = fst (write_json (fst (os_makedirs fs p))
                                  (path_join p (lit ".meta.json")) meta)).
Proof.
  unfold create_folder_named.
  destruct (is_empty (strip name)); [now left|].
  match goal with
  | |- context [create_candidate ?f ?d ?b ?r] =>
      destruct (create_candidate f d b r) as [p|] eqn:C
  end; [|now left].
  right. exists p. split; [exact (create_candidate_free _ _ _ _ _ C)|].
  destruct (os_makedirs fs p) as [fs1 [|]] eqn:M; cbn [fst].
  - right.
    match goal with
    | |- context [write_json ?a ?b ?c] =>
        exists c; destruct (write_json a b c) as [fs2 [|]] eqn:W
    end; reflexivity.
  - now left.
Qed.

(** When every one of the thousand names is taken, [create_folder_named]
    gives up with a warning and leaves the file system alone. *)
Lemma create_folder_named_gives_up (fs : FS) (current_dir name : str) :
  is_empty (strip name) = false ->
  create_candidate fs current_dir
    (if is_empty (sanitize_fs_name (strip name)) then lit "Folder"
     else sanitize_fs_name (strip name)) (seq 0 1000) = None ->
  create_folder_named fs current_dir name
  = (fs, [warning "Could not create new folder, limit reached"]).
Proof.
  intros E C. unfold create_folder_named. rewrite E, C. reflexivity.
Qed.

(** The collision loop of [rename_entry] ends on a free candidate when
    there is one in its range. *)
Lemma rename_candidate_free (fs : FS) (parent safe_name suffix new_path : str)
      (range : list nat) :
  (exists i, In i range /\
     path_exists fs
       (path_join parent (safe_name ++ lit "_" ++ format_nat i ++ suffix))
     = false) ->
  path_exists fs
    (rename_candidate fs parent safe_name suffix new_path range) = false.
Proof.
  induction range as [|j rest IH]; intros (i & Hin & Hi); [contradiction|].
  cbn [rename_candidate]. case_exists E; [|exact E].
  apply IH. destruct Hin as [-> | Hin]; [congruence | eauto].
Qed.

(** It keeps the path it started from when every candidate exists. *)
Lemma rename_candidate_all_taken (fs : FS)
      (parent safe_name suffix new_path : str) (range : list nat) :
  (forall i, In i range ->
     path_exists fs
       (path_join parent (safe_name ++ lit "_" ++ format_nat i ++ suffix))
     = true) ->
  rename_candidate fs parent safe_name suffix new_path range = new_path.
Proof.
  induction range as [|j rest IH]; intros Hall; [reflexivity|].
  cbn [rename_candidate]. rewrite (Hall j) by now left. cbn [negb].
  apply IH. intros i Hin. apply Hall. now right.
Qed.

(** The destination of the rename does not exist as long as the plain name
    or one of the 999 numbered names is free. *)
Lemma rename_new_path_free (fs : FS) (parent safe_name suffix : str) :
  path_exists fs (path_join parent (safe_name ++ suffix)) = false
  \/ (exists i, In i (seq 1 999) /\
        path_exists fs
          (path_join parent (safe_name ++ lit "_" ++ format_nat i ++ suffix))
        = false) ->
  path_exists fs (rename_new_path fs parent safe_name suffix) = false.
Proof.
  intros Hfree. unfold rename_new_path.
  destruct (path_exists fs (path_join parent (safe_name ++ suffix))) eqn:E;
    [|exact E].
  destruct Hfree as [Hf | Hf]; [discriminate|].
  now apply rename_candidate_free.
Qed.

(** With all thousand names taken the destination is the plain name, which
    exists: there is no give-up branch as in [create_folder_named]. *)
Lemma rename_new_path_all_taken (fs : FS) (parent safe_name suffix : str) :
  path_exists fs (path_join parent (safe_name ++ suffix)) = true ->
  (forall i, In i (seq 1 999) ->
     path_exists fs
       (path_join parent (safe_name ++ lit "_" ++ format_nat i ++ suffix))
     = true) ->
  rename_new_path fs parent safe_name suffix
    = path_join parent (safe_name ++ suffix)
  /\ path_exists fs (rename_new_path fs parent safe_name suffix) = true.
Proof.
  intros E Hall. unfold rename_new_path. rewrite E.
  rewrite rename_candidate_all_taken by exact Hall. auto.
Qed.

(** *** Blank names *)



(** *** The one exception of [rename_entry] *)

(** [rename_entry] raises nothing but TypeError, and only after
    [os.rename] has returned, on a metadata file (the renamed app file, or
    [.meta.json] inside the renamed folder) that parses to something that
    is not an object. *)
Lemma rename_entry_raise (fs : FS) (entry : Entry) (name : str) (x : exn) :
  rename_entry fs entry name = Raise x ->
  x = TypeError
  /\ exists new_path fs1,
       os_rename fs (path entry) new_path = (fs1, Returned)
       /\ match etype entry with
          | folder =>
              path_isfile fs1 (path_join new_path (lit ".meta.json")) = true
              /\ read_json fs1 (path_join new_path (lit ".meta.json"))
                 = Some NotObject
          | app => read_json fs1 new_path = Some NotObject
          end.
Proof.
  unfold rename_entry.
  destruct (is_empty (strip name)); [discriminate|].
  destruct (etype entry);
    (destruct (is_empty (sanitize_fs_name (strip name))); [discriminate|]);
    match goal with
    | |- context [os_rename fs ?a ?b] =>
        destruct (os_rename fs a b) as [fs1 [|]] eqn:R; [|discriminate];
        set (new_path := b) in *
    end.
  - destruct (path_isfile fs1 (path_join new_path (lit ".meta.json"))) eqn:F;
      [destruct (read_json fs1 (path_join new_path (lit ".meta.json")))
         as [[m|]|] eqn:J|];
      cbn [setitem bind];
      try (match goal with
           | |- context [write_json ?a ?b ?c] =>
               destruct (write_json a b c) as [fs2 [|]]
           end; discriminate).
    intros X. inversion X. split; [reflexivity|].
    exists new_path, fs1. auto.
  - destruct (read_json fs1 new_path) as [[m|]|] eqn:J;
      cbn [setitem bind];
      try (match goal with
           | |- context [write_json ?a ?b ?c] =>
               destruct (write_json a b c) as [fs2 [|]]
           end; discriminate).
    intros X. inversion X. split; [reflexivity|].
    exists new_path, fs1. auto.
Qed.

End Actions.

Section Loop.

Context {FS : Type} `{FileSystem FS}.

(** *** Selection after a reload *)

(** The clamp that follows a reload, for a selection that is not negative:
    the selection moves to the last entry when it is past the end, to 0
    when the list is empty, and the scroll offset never exceeds it. *)
Lemma clamp_selection_spec (entries : list Entry) (sel scroll : Z) :
  0 <= sel ->
  clamp_selection entries sel scroll
  = (Z.max 0 (Z.min sel (len entries - 1)),
     Z.min scroll (Z.max 0 (Z.min sel (len entries - 1)))).
Proof.
  intros Hs. unfold clamp_selection.
  destruct (sel >=? len entries) eqn:E.
  - replace (Z.min sel (len entries - 1)) with (len entries - 1) by lia.
    reflexivity.
  - replace (Z.max 0 (Z.min sel (len entries - 1))) with sel by lia.
    reflexivity.
Qed.

(** On a list that is not empty the clamp is [min(selected, len - 1)]. *)
Lemma clamp_selection_nonempty (entries : list Entry) (sel scroll : Z) :
  0 <= sel -> 1 <= len entries ->
  clamp_selection entries sel scroll
  = (Z.min sel (len entries - 1), Z.min scroll (Z.min sel (len entries - 1))).
Proof.
  intros Hs Hn. rewrite clamp_selection_spec by exact Hs.
  replace (Z.max 0 (Z.min sel (len entries - 1)))
    with (Z.min sel (len entries - 1)) by lia.
  reflexivity.
Qed.

(** CENTER on the on-screen "return" key ends the session with the text. *)
Lemma center_on_return (k : OnScreenKeyboard) :
  get_current_key_label k = Ok (Some (lit "return")) ->
  handle_event k CENTER = Ok (k, (Some done, Some (text k))).
Proof.
  intros E. unfold handle_event. cbn [is_navigation]. rewrite E. reflexivity.
Qed.

(** CENTER on "Delete" with a selection that indexes the list: the
    selected entry is handed to [os.remove] (an app) or [shutil.rmtree]
    (a folder), the list of the current directory is read again from the
    file system the removal left, and selection and scroll offset are
    clamped to the new list. *)
Lemma delete_reload (fs : FS) (ui : UI) (dir : str) :
  selected_option_index ui = 2 -> current_dir ui = Some dir ->
  0 <= selected_list_index ui < len (list_entries ui) ->
  exists item fs1 o ui',
    index (list_entries ui) (selected_list_index ui) = Ok item
    /\ match etype item with
       | folder => shutil_rmtree fs (path item)
       | app => os_remove fs (path item)
       end = (fs1, o)
    /\ options_menu_event fs ui CENTER
       = Ok (fs1, ui',
             [info "OPTIONS choice: %s";
              match etype item, o with
              | folder, Returned => info "Deleted folder: %s"
              | folder, Raised => warning "Failed to delete folder %s: %s"
              | app, Returned => info "Deleted app: %s"
              | app, Raised => warning "Failed to delete app %s: %s"
              end])
    /\ state ui' = STATE_LIST_VIEW
    /\ list_entries ui' = load_list_entries fs1 dir
    /\ selected_list_index ui'
       = Z.max 0 (Z.min (selected_list_index ui) (len (list_entries ui') - 1))
    /\ list_scroll ui' = Z.min (list_scroll ui) (selected_list_index ui').
Proof.
  intros Hopt Hdir Hsel.
  destruct (index_in_range (list_entries ui) (selected_list_index ui) Hsel)
    as (item & _ & I).
  exists item.
  unfold options_menu_event. rewrite Hopt.
  change (index OPTIONS_ITEMS 2) with (Ok (lit "Delete")). cbn [bind].
  change (str_eqb (lit "Delete") (lit "Back")) with false.
  change (str_eqb (lit "Delete") (lit "Create folder")) with false.
  change (str_eqb (lit "Delete") (lit "Delete")) with true.
  cbv iota.
  destruct (list_entries ui) as [|e0 es] eqn:L;
    [change (len (@nil Entry)) with 0 in Hsel; lia|].
  rewrite I. cbn [bind]. unfold delete_entry.
  assert (R : exists fs1 o,
            match etype item with
            | folder => shutil_rmtree fs (path item)
            | app => os_remove fs (path item)
            end = (fs1, o)).
  { destruct (etype item);
      [destruct (shutil_rmtree fs (path item)) as [a b]
      |destruct (os_remove fs (path item)) as [a b]]; eauto. }
  destruct R as (fs1 & o & R). exists fs1, o.
  rewrite Hdir.
  pose proof (clamp_selection_spec (load_list_entries fs1 dir)
                (selected_list_index ui) (list_scroll ui)) as C.
  destruct (etype item); rewrite R; destruct o;
    cbn [load_current bind fst]; rewrite C by lia;
    eexists; (split; [reflexivity|]); (split; [reflexivity|]);
    cbn [state list_entries selected_list_index list_scroll List.app];
    repeat split.
Qed.

(** What [confirm_text] comes to: either [rename_entry] raised, or the
    action was applied and the list was read again from the file system
    it left, when [current_dir] is set, with selection and scroll offset
    clamped to the new list. *)
Lemma confirm_text_cases (fs : FS) (ui : UI) (t : option str) :
  (exists fs1 ui' log,
     confirm_text fs ui t = Ok (fs1, ui', log)
     /\ state ui' = STATE_LIST_VIEW
     /\ current_dir ui' = current_dir ui
     /\ keyboard ui' = keyboard ui
     /\ selected_option_index ui' = selected_option_index ui
     /\ match truthy_dir (current_dir ui) with
        | Some dir =>
            list_entries ui' = load_list_entries fs1 dir
            /\ (selected_list_index ui', list_scroll ui')
               = clamp_selection (load_list_entries fs1 dir)
                   (selected_list_index ui) (list_scroll ui)
        | None =>
            list_entries ui' = list_entries ui
            /\ selected_list_index ui' = selected_list_index ui
            /\ list_scroll ui' = list_scroll ui
        end)
  \/ (confirm_text fs ui t = Raise TypeError
      /\ keyboard_mode ui = Some KB_MODE_RENAME
      /\ exists target new_name,
           keyboard_target ui = Some target /\ t = Some new_name
           /\ rename_entry fs target new_name = Raise TypeError).
Proof.
  unfold confirm_text.
  assert (A :
    (exists fs1 log1,
      match keyboard_mode ui, keyboard_target ui,
            truthy_dir (current_dir ui), t with
      | Some KB_MODE_RENAME, Some target, _, Some t0 =>
          r <- rename_entry fs target t0 ;;
          let '(fs', _, l) := r in Ok (fs', l)
      | Some KB_MODE_NEW_FOLDER, _, Some dir, Some t0 =>
          Ok (create_folder_named fs dir t0)
      | _, _, _, _ => Ok (fs, [])
      end = Ok (fs1, log1))
    \/ (match keyboard_mode ui, keyboard_target ui,
              truthy_dir (current_dir ui), t with
        | Some KB_MODE_RENAME, Some target, _, Some t0 =>
            r <- rename_entry fs target t0 ;;
            let '(fs', _, l) := r in Ok (fs', l)
        | Some KB_MODE_NEW_FOLDER, _, Some dir, Some t0 =>
            Ok (create_folder_named fs dir t0)
        | _, _, _, _ => Ok (fs, [])
        end = Raise TypeError
        /\ keyboard_mode ui = Some KB_MODE_RENAME
        /\ exists target new_name,
             keyboard_target ui = Some target /\ t = Some new_name
             /\ rename_entry fs target new_name = Raise TypeError)).
  { destruct (keyboard_mode ui) as [[|]|], (keyboard_target ui) as [target|],
      (truthy_dir (current_dir ui)) as [dir|], t as [t0|];
      try (left; match goal with
                 | |- context [create_folder_named ?a ?b ?c] =>
                     destruct (create_folder_named a b c) as [a' l']
                 | _ => idtac
                 end; do 2 eexists; reflexivity);
      (destruct (rename_entry fs target t0) as [[[fs' e'] l]|x] eqn:R;
       cbn [bind];
       [ left; do 2 eexists; reflexivity
       | right; destruct (rename_entry_raise _ _ _ _ R) as [-> _];
         split; [reflexivity|]; split; [reflexivity|];
         exists target, t0; auto ]). }
  destruct A as [(fs1 & log1 & ->) | (-> & M & T)].
  - left. cbn [bind].
    destruct (truthy_dir (current_dir ui)) as [dir|].
    + destruct (clamp_selection _ _ _) as [sel scroll] eqn:C.
      do 3 eexists. split; [reflexivity|]. cbn. auto 10.
    + do 3 eexists. split; [reflexivity|]. cbn. auto 10.
  - right. cbn [bind]. auto.
Qed.

(** C6 (amended): in the options menu on "Delete", with N >= 1 entries and
    the last one selected, CENTER hands the selected entry to [os.remove]
    (an app) or [shutil.rmtree] (a folder), reloads the list of the current
    directory from the file system that call left and returns to the list
    view; the new selection is [max(0, min(selected, len(entries) - 1))]
    and the new scroll offset [min(scroll, selected)].  When the directory
    then lists the former entries without the selected one, the reloaded
    list has N - 1 entries and the selection is [max(0, N - 2)] (as it is
    whenever the reloaded list has N - 1 entries).  The same clamp follows
    the reload of every "Delete", whatever entry was selected, and the
    reload of every keyboard confirmation (KEY2 or the on-screen return
    key, with a current directory) that returns. *)
Theorem delete_clamps_selection (fs : FS) (ui : UI) (dir : str) :
  selected_option_index ui = 2 -> current_dir ui = Some dir ->
  1 <= len (list_entries ui) ->
  selected_list_index ui = len (list_entries ui) - 1 ->
  (exists item fs1 o ui' log,
    index (list_entries ui) (selected_list_index ui) = Ok item
    /\ match etype item with
       | folder => shutil_rmtree fs (path item)
       | app => os_remove fs (path item)
       end = (fs1, o)
    /\ options_menu_event fs ui CENTER = Ok (fs1, ui', log)
    /\ state ui' = STATE_LIST_VIEW
    /\ list_entries ui' = load_list_entries fs1 dir
    /\ selected_list_index ui'
       = Z.max 0 (Z.min (selected_list_index ui) (len (list_entries ui') - 1))
    /\ list_scroll ui' = Z.min (list_scroll ui) (selected_list_index ui')
    /\ (len (list_entries ui') = len (list_entries ui) - 1 ->
        selected_list_index ui' = Z.max 0 (len (list_entries ui) - 2))
    /\ (load_list_entries fs1 dir = drop_last (list_entries ui) ->
        list_entries ui' = drop_last (list_entries ui)
        /\ len (list_entries ui') = len (list_entries ui) - 1
        /\ selected_list_index ui' = Z.max 0 (len (list_entries ui) - 2)))
  /\ (forall (fs0 : FS) (ui0 : UI) (dir0 : str),
        selected_option_index ui0 = 2 -> current_dir ui0 = Some dir0 ->
        0 <= selected_list_index ui0 < len (list_entries ui0) ->
        exists fs' ui' log,
          options_menu_event fs0 ui0 CENTER = Ok (fs', ui', log)
          /\ list_entries ui' = load_list_entries fs' dir0
          /\ selected_list_index ui'
             = Z.max 0 (Z.min (selected_list_index ui0)
                              (len (list_entries ui') - 1))
          /\ list_scroll ui' = Z.min (list_scroll ui0) (selected_list_index ui'))
  /\ (forall (fs0 fs' : FS) (ui0 ui' : UI) (dir0 : str) (e : Event)
             (log : list log_record),
        truthy_dir (current_dir ui0) = Some dir0 ->
        0 <= selected_list_index ui0 ->
        e = KEY2
        \/ (e = CENTER
            /\ get_current_key_label (keyboard ui0)
               = Ok (Some (lit "return"))) ->
        keyboard_event fs0 ui0 e = Ok (fs', ui', log) ->
        state ui' = STATE_LIST_VIEW
        /\ list_entries ui' = load_list_entries fs' dir0
        /\ selected_list_index ui'
           = Z.max 0 (Z.min (selected_list_index ui0)
                            (len (list_entries ui') - 1))
        /\ list_scroll ui'
           = Z.min (list_scroll ui0) (selected_list_index ui')).
Proof.
  intros Hopt Hdir Hn Hsel. split; [|split].
  - destruct (delete_reload fs ui dir Hopt Hdir)
      as (item & fs1 & o & ui' & I & R & E & S & L & Sel & Scr); [lia|].
    exists item, fs1, o, ui'. eexists.
    split; [exact I|]. split; [exact R|]. split; [exact E|].
    split; [exact S|]. split; [exact L|]. split; [exact Sel|].
    split; [exact Scr|]. split.
    + intros Hlen. rewrite Sel, Hlen. lia.
    + intros Hdrop. rewrite Hdrop in L.
      assert (Hne : list_entries ui <> []).
      { intros X. rewrite X in Hn. change (len (@nil Entry)) with 0 in Hn. lia. }
      pose proof (removelast_len (list_entries ui) Hne) as Hlen.
      rewrite <- L in Hlen.
      split; [exact L|]. split; [exact Hlen|]. rewrite Sel, Hlen. lia.
  - intros fs0 ui0 dir0 Hopt0 Hdir0 Hsel0.
    destruct (delete_reload fs0 ui0 dir0 Hopt0 Hdir0 Hsel0)
      as (item & fs1 & o & ui' & _ & _ & E & _ & L & Sel & Scr).
    exists fs1, ui'. eexists. split; [exact E|]. auto.
  - intros fs0 fs' ui0 ui' dir0 e log Hdir0 Hsel0 He.
    assert (K : exists u,
              keyboard_event fs0 ui0 e
              = confirm_text fs0 u (Some (text (keyboard ui0)))
              /\ current_dir u = current_dir ui0
              /\ keyboard_target u = keyboard_target ui0
              /\ selected_list_index u = selected_list_index ui0
              /\ list_scroll u = list_scroll ui0).
    { destruct He as [-> | [-> Lb]].
      - exists ui0. cbn [keyboard_event]. auto.
      - unfold keyboard_event. rewrite (center_on_return _ Lb). cbn [bind].
        eexists. split; [reflexivity|]. cbn. auto. }
    destruct K as (u & -> & Ud & Ut & Us & Uc).
    destruct (confirm_text_cases fs0 u (Some (text (keyboard ui0))))
      as [(fs1 & ui1 & log1 & -> & S & _ & _ & _ & X)
         | (-> & _)]; [|discriminate].
    intros E. injection E as -> -> ->.
    rewrite Ud, Hdir0 in X. destruct X as [L C].
    rewrite clamp_selection_spec in C by lia.
    rewrite Us, Uc in C. rewrite <- L in C. injection C as C1 C2.
    split; [exact S|]. split; [exact L|]. split; [exact C1|].
    rewrite C2, <- C1. reflexivity.
Qed.

(** *** Confirming a blank text *)



End Loop.

(** *** On the in-memory file system *)

(** The amended C6 on a directory with two apps, the second selected: the
    reload gives one entry and the selection moves to index 0. *)
Lemma delete_clamps_selection_witness :
  (exists item fs1 o ui' log,
    index (list_entries (ui_on two_apps STATE_OPTIONS_MENU 1 2 init None None)) (selected_list_index (ui_on two_apps STATE_OPTIONS_MENU 1 2 init None None)) = Ok item
    /\ match etype item with
       | folder => shutil_rmtree two_apps (path item)
       | app => os_remove two_apps (path item)
       end = (fs1, o)
    /\ options_menu_event two_apps (ui_on two_apps STATE_OPTIONS_MENU 1 2 init None None) CENTER = Ok (fs1, ui', log)
    /\ state ui' = STATE_LIST_VIEW
    /\ list_entries ui' = load_list_entries fs1 (lit "menu")
    /\ selected_list_index ui'
       = Z.max 0 (Z.min (selected_list_index (ui_on two_apps STATE_OPTIONS_MENU 1 2 init None None)) (len (list_entries ui') - 1))
    /\ list_scroll ui' = Z.min (list_scroll (ui_on two_apps STATE_OPTIONS_MENU 1 2 init None None)) (selected_list_index ui')
    /\ (len (list_entries ui') = len (list_entries (ui_on two_apps STATE_OPTIONS_MENU 1 2 init None None)) - 1 ->
        selected_list_index ui' = Z.max 0 (len (list_entries (ui_on two_apps STATE_OPTIONS_MENU 1 2 init None None)) - 2))
    /\ (load_list_entries fs1 (lit "menu") = drop_last (list_entries (ui_on two_apps STATE_OPTIONS_MENU 1 2 init None None)) ->
        list_entries ui' = drop_last (list_entries (ui_on two_apps STATE_OPTIONS_MENU 1 2 init None None))
        /\ len (list_entries ui') = len (list_entries (ui_on two_apps STATE_OPTIONS_MENU 1 2 init None None)) - 1
        /\ selected_list_index ui' = Z.max 0 (len (list_entries (ui_on two_apps STATE_OPTIONS_MENU 1 2 init None None)) - 2)))
  /\ (forall (fs0 : MemFS) (ui0 : UI) (dir0 : str),
        selected_option_index ui0 = 2 -> current_dir ui0 = Some dir0 ->
        0 <= selected_list_index ui0 < len (list_entries ui0) ->
        exists fs' ui' log,
          options_menu_event fs0 ui0 CENTER = Ok (fs', ui', log)
          /\ list_entries ui' = load_list_entries fs' dir0
          /\ selected_list_index ui'
             = Z.max 0 (Z.min (selected_list_index ui0)
                              (len (list_entries ui') - 1))
          /\ list_scroll ui' = Z.min (list_scroll ui0) (selected_list_index ui'))
  /\ (forall (fs0 fs' : MemFS) (ui0 ui' : UI) (dir0 : str) (e : Event)
             (log : list log_record),
        truthy_dir (current_dir ui0) = Some dir0 ->
        0 <= selected_list_index ui0 ->
        e = KEY2
        \/ (e = CENTER
            /\ get_current_key_label (keyboard ui0)
               = Ok (Some (lit "return"))) ->
        keyboard_event fs0 ui0 e = Ok (fs', ui', log) ->
        state ui' = STATE_LIST_VIEW
        /\ list_entries ui' = load_list_entries fs' dir0
        /\ selected_list_index ui'
           = Z.max 0 (Z.min (selected_list_index ui0)
                            (len (list_entries ui') - 1))
        /\ list_scroll ui'
           = Z.min (list_scroll ui0) (selected_list_index ui')).
Proof.
  apply (delete_clamps_selection two_apps
           (ui_on two_apps STATE_OPTIONS_MENU 1 2 init None None) (lit "menu")).
  - reflexivity.
  - reflexivity.
  - vm_compute. discriminate.
  - reflexivity.
Defined.

(** On that directory the removal goes through and the reload is the old
    list without its last entry: one entry is left and index 0 selected. *)
Example delete_last_of_two_apps :
  exists fs1 ui',
    options_menu_event two_apps (ui_on two_apps STATE_OPTIONS_MENU 1 2 init None None) CENTER
    = Ok (fs1, ui', [info "OPTIONS choice: %s"; info "Deleted app: %s"])
    /\ path_exists fs1 (lit "menu/b.app") = false
    /\ list_entries ui' = drop_last (list_entries (ui_on two_apps STATE_OPTIONS_MENU 1 2 init None None))
    /\ len (list_entries ui') = 1
    /\ selected_list_index ui' = 0.
Proof. do 2 eexists. split; [vm_compute; reflexivity|]. repeat split. Qed.

(** C6 as stated fails, in two ways.  Deleting the only entry of a list
    reloads it to the empty list and sets the selection to 0, which is not
    [min(selected, len(entries) - 1) = -1].  And on a file system that
    refuses the removal, "Delete" on the last of two entries logs a warning
    and reloads the same two entries: nothing was removed, the list still
    has N entries and the selection stays at N - 1 = 1, not at
    [max(0, N - 2) = 0]. *)
Lemma delete_selection_claim_fails :
  (exists fs' ui' log,
    options_menu_event one_app
      (ui_on one_app STATE_OPTIONS_MENU 0 2 init None None) CENTER
    = Ok (fs', ui', log)
    /\ len (list_entries (ui_on one_app STATE_OPTIONS_MENU 0 2 init None None)) = 1
    /\ list_entries ui' = []
    /\ selected_list_index ui' = 0
    /\ selected_list_index ui'
       <> Z.min (selected_list_index
                   (ui_on one_app STATE_OPTIONS_MENU 0 2 init None None))
                (len (list_entries ui') - 1))
  /\ (exists ui',
        options_menu_event (mkReadOnly two_apps) (ui_on two_apps STATE_OPTIONS_MENU 1 2 init None None) CENTER
        = Ok (mkReadOnly two_apps, ui',
              [info "OPTIONS choice: %s";
               warning "Failed to delete app %s: %s"])
        /\ len (list_entries (ui_on two_apps STATE_OPTIONS_MENU 1 2 init None None)) = 2
        /\ selected_list_index (ui_on two_apps STATE_OPTIONS_MENU 1 2 init None None) = 2 - 1
        /\ path_exists (mkReadOnly two_apps) (lit "menu/b.app") = true
        /\ list_entries ui' = list_entries (ui_on two_apps STATE_OPTIONS_MENU 1 2 init None None)
        /\ len (list_entries ui') <> 2 - 1
        /\ selected_list_index ui' = 1
        /\ selected_list_index ui' <> Z.max 0 (2 - 2)).
Proof.
  split.
  - do 3 eexists. split; [vm_compute; reflexivity|].
    cbn [list_entries selected_list_index].
    repeat split; vm_compute; discriminate.
  - eexists. split; [vm_compute; reflexivity|].
    cbn [list_entries selected_list_index].
    repeat split; vm_compute; try reflexivity; discriminate.
Qed.


(** The same for a rename confirmed on the on-screen "return" key. *)
Example confirm_blank_rename_on_return :
  exists ui' log,
    keyboard_event two_apps
      (ui_on two_apps STATE_KEYBOARD 1 1 blank_keyboard_on_return
             (Some KB_MODE_RENAME)
             (Some (mkEntry app (lit "menu/b.app") (lit "menu/b.app") 9000)))
      CENTER
    = Ok (two_apps, ui', log)
    /\ log = [info "Empty new name, skipping rename"]
    /\ state ui' = STATE_LIST_VIEW
    /\ list_entries ui' = load_list_entries two_apps (lit "menu").
Proof. do 2 eexists. split; [vm_compute; reflexivity|]. repeat split. Qed.

(** C10 (code defect): [rename_entry] can overwrite an existing entry.  In
    a directory where [new.app] and [new_1.app] ... [new_999.app] all
    exist, renaming [old.app] to "new" finds no free candidate, keeps the
    plain destination [d/new.app], which exists, and hands it to
    [os.rename]: the file that was there is replaced by the renamed one. *)
Theorem rename_entry_overwrites_existing_file :
  forallb (fun i =>
             path_exists crowded_dir
               (path_join (lit "d")
                  (lit "new" ++ lit "_" ++ format_nat i ++ lit ".app")))
          (seq 1 999) = true
  /\ path_exists crowded_dir (lit "d/new.app") = true
  /\ read_json crowded_dir (lit "d/new.app") = Some (Object taken_meta)
  /\ rename_new_path crowded_dir (lit "d") (lit "new") (lit ".app")
     = lit "d/new.app"
  /\ match rename_entry crowded_dir old_entry (lit "new") with
     | Ok (fs', entry', log) =>
         path entry' = lit "d/new.app"
         /\ log = [info "Renamed app to: %s (display: %s)"]
         /\ path_exists fs' (lit "d/old.app") = false
         /\ read_json fs' (lit "d/new.app")
            = Some (Object (dict_set old_meta "name" (JStr (lit "new"))))
     | Raise _ => False
     end.
Proof.
  vm_compute. repeat split.
Qed.

End main_py_facts.

(* ================================================================== *)
(** * Further properties *)

(** ** The on-screen keyboard: keys, navigation, sessions *)

Module ui_keyboard_more.
Import Py Py_facts ui_keyboard ui_keyboard_facts.

(** The position of each key of the system row. *)
Lemma system_key_position (k : OnScreenKeyboard) (l : str) (c : Z) :
  get_current_key_label k = Ok (Some l) ->
  nth_error (system_row (mode k)) (Z.to_nat c) = Some l ->
  0 <= c ->
  cursor_in_grid k = true /\ (char_label l -> False) /\
  (cursor_row k = 3 /\ cursor_col k = c).
Proof.
  intros E N Hc.
  assert (Hsys : char_label l -> False).
  { intros Hl. apply system_row_cases in N; [|exact Hc].
    destruct Hl as [L B].
    destruct N as [[_ ->] | [[_ ->] | [[_ ->] | [[_ ->] | [_ ->]]]]];
      try (cbn in L; discriminate); try (now apply B).
    destruct (mode k); cbn in L; discriminate. }
  destruct (label_cases k) as [[_ E'] | [G (l' & E' & C)]]; [congruence|].
  assert (l' = l) by congruence. subst l'.
  split; [exact G|]. split; [exact Hsys|].
  destruct C as [[R N'] | [_ Hl]]; [|contradiction].
  split; [exact R|].
  apply cursor_in_grid_iff in G.
  apply system_row_cases in N; [|exact Hc].
  apply system_row_cases in N'; [|lia].
  destruct N as [[-> ->] | [[-> ->] | [[-> ->] | [[-> ->] | [-> ->]]]]];
    destruct N' as [[-> Q] | [[-> Q] | [[-> Q] | [[-> Q] | [-> Q]]]]];
    try reflexivity; try discriminate Q;
    destruct (mode k); discriminate Q.
Qed.

(** One activation of the backspace key. *)
Lemma backspace_step (k : OnScreenKeyboard) :
  get_current_key_label k = Ok (Some backspace_label) ->
  handle_event k CENTER
    = Ok (set_text k (drop_last (text k)), (Some redraw, None)).
Proof.
  intros E.
  unfold handle_event. cbn [is_navigation]. rewrite E. cbn [bind].
  change (str_eqb backspace_label (lit "space")) with false.
  change (str_eqb backspace_label backspace_label) with true. cbv iota.
  destruct k as [p t ml m sh r c]. cbn [text]. destruct t; reflexivity.
Qed.

(** X1: CENTER on the backspace key never fails: it returns "redraw" and
    removes the last character of the text, leaving an empty text empty;
    nothing else changes. *)
Theorem center_on_backspace (k : OnScreenKeyboard) :
  get_current_key_label k = Ok (Some backspace_label) ->
  handle_event k CENTER
    = Ok (set_text k (drop_last (text k)), (Some redraw, None))
  /\ len (drop_last (text k)) = Z.max 0 (len (text k) - 1)
  /\ (text k = [] -> set_text k (drop_last (text k)) = k).
Proof.
  intros E. split; [|split].
  - exact (backspace_step k E).
  - destruct (text k) as [|a t] eqn:T; [reflexivity|].
    rewrite removelast_len by discriminate.
    pose proof (len_nonneg t). unfold len in *. cbn [List.length]. lia.
  - intros T. destruct k as [p t ml m sh r c]. cbn in T. subst t. reflexivity.
Qed.

(** X1 on a session with text "ab" and the cursor on the backspace key. *)
Lemma center_on_backspace_witness :
  handle_event (mkKeyboard (lit "Rename") (lit "ab") 64 letters_en false 3 3)
               CENTER
    = Ok (set_text (mkKeyboard (lit "Rename") (lit "ab") 64 letters_en false 3 3)
                   (drop_last (lit "ab")), (Some redraw, None))
  /\ len (drop_last (lit "ab")) = Z.max 0 (len (lit "ab") - 1)
  /\ (lit "ab" = [] ->
      set_text (mkKeyboard (lit "Rename") (lit "ab") 64 letters_en false 3 3)
               (drop_last (lit "ab"))
      = mkKeyboard (lit "Rename") (lit "ab") 64 letters_en false 3 3).
Proof.
  apply (center_on_backspace
           (mkKeyboard (lit "Rename") (lit "ab") 64 letters_en false 3 3)).
  reflexivity.
Defined.

(** X2: typing and erasing is a round trip.  When a character key is
    activated with room left in the text and the backspace key (row 3,
    column 3) is activated next, the text, the mode and shift are what
    they were before the character was typed. *)
Theorem type_then_backspace (k : OnScreenKeyboard) (l : str) :
  get_current_key_label k = Ok (Some l) -> char_label l ->
  len (text k) < max_len k ->
  exists k1 k2,
    handle_event k CENTER = Ok (k1, (Some redraw, None))
    /\ text k1 = text k ++ l
    /\ handle_event (set_cursor_col (set_cursor_row k1 3) 3) CENTER
       = Ok (k2, (Some redraw, None))
    /\ text k2 = text k /\ mode k2 = mode k /\ shift k2 = shift k
    /\ max_len k2 = max_len k.
Proof.
  intros E Hl Hroom.
  pose proof (char_label_tests l Hl) as (H1 & H2 & H3 & H4 & H5 & H6 & H7).
  assert (S1 : handle_event k CENTER
               = Ok (set_text k (text k ++ l), (Some redraw, None))).
  { unfold handle_event. cbn [is_navigation]. rewrite E. cbn [bind].
    rewrite H1, H2, H3, H4, H5, H6, H7.
    assert (B : (len (text k) <? max_len k) = true) by lia.
    rewrite B. reflexivity. }
  set (k1 := set_text k (text k ++ l)) in *.
  assert (E2 : get_current_key_label (set_cursor_col (set_cursor_row k1 3) 3)
               = Ok (Some backspace_label)).
  { destruct k as [p t ml m sh r c]. destruct m, sh; reflexivity. }
  pose proof (backspace_step _ E2) as S2.
  do 2 eexists. split; [exact S1|]. split; [reflexivity|].
  split; [exact S2|].
  cbn [text set_text set_cursor_col set_cursor_row mode shift max_len k1].
  repeat split.
  destruct Hl as [L _]. destruct l as [|a [|b l']]; try (cbn in L; lia).
  unfold drop_last. apply removelast_last.
Qed.

(** X2 on a fresh session: "q" is typed and erased again. *)
Lemma type_then_backspace_witness :
  exists k1 k2,
    handle_event (start init (lit "New folder") (Some []) 64) CENTER
      = Ok (k1, (Some redraw, None))
    /\ text k1 = text (start init (lit "New folder") (Some []) 64) ++ lit "q"
    /\ handle_event (set_cursor_col (set_cursor_row k1 3) 3) CENTER
       = Ok (k2, (Some redraw, None))
    /\ text k2 = text (start init (lit "New folder") (Some []) 64)
    /\ mode k2 = mode (start init (lit "New folder") (Some []) 64)
    /\ shift k2 = shift (start init (lit "New folder") (Some []) 64)
    /\ max_len k2 = max_len (start init (lit "New folder") (Some []) 64).
Proof.
  apply (type_then_backspace (start init (lit "New folder") (Some []) 64)
                             (lit "q")).
  - reflexivity.
  - split; [reflexivity | discriminate].
  - vm_compute. reflexivity.
Defined.

(** X3: the Shift key toggles [shift] and nothing else, in every mode, and
    a second activation restores the keyboard exactly; the cursor stays on
    the Shift key, inside the grid. *)
Theorem shift_twice (k : OnScreenKeyboard) :
  get_current_key_label k = Ok (Some (lit "Shift")) ->
  handle_event k CENTER
    = Ok (set_shift k (negb (shift k)), (Some redraw, None))
  /\ handle_event (set_shift k (negb (shift k))) CENTER
     = Ok (k, (Some redraw, None))
  /\ cursor_in_grid (set_shift k (negb (shift k))) = true.
Proof.
  intros E.
  destruct (system_key_position k (lit "Shift") 1 E) as (_ & _ & R & C);
    [reflexivity | lia |].
  destruct k as [p t ml m sh r c]. cbn in R, C. subst r c.
  destruct m, sh; repeat split.
Qed.

Lemma shift_twice_witness :
  handle_event (mkKeyboard (lit "Rename") (lit "ab") 64 letters_ru false 3 1)
               CENTER
    = Ok (set_shift
            (mkKeyboard (lit "Rename") (lit "ab") 64 letters_ru false 3 1)
            (negb false), (Some redraw, None))
  /\ handle_event
       (set_shift (mkKeyboard (lit "Rename") (lit "ab") 64 letters_ru false 3 1)
                  (negb false)) CENTER
     = Ok (mkKeyboard (lit "Rename") (lit "ab") 64 letters_ru false 3 1,
           (Some redraw, None))
  /\ cursor_in_grid
       (set_shift (mkKeyboard (lit "Rename") (lit "ab") 64 letters_ru false 3 1)
                  (negb false)) = true.
Proof.
  apply (shift_twice
           (mkKeyboard (lit "Rename") (lit "ab") 64 letters_ru false 3 1)).
  reflexivity.
Defined.

(** X4: what Shift does to the keys.  In a letters mode every key of the
    three main rows carries, with shift on, the upper-case form of the
    label it carries with shift off, and the two differ; in the symbols
    mode the labels are the same with shift on and off. *)
Theorem shift_changes_case (k : OnScreenKeyboard) (l : str) :
  0 <= cursor_row k < 3 ->
  get_current_key_label (set_shift k false) = Ok (Some l) ->
  if startswith_letters (mode k)
  then get_current_key_label (set_shift k true) = Ok (Some (upper l))
       /\ upper l <> l /\ lower (upper l) = l
  else get_current_key_label (set_shift k true) = Ok (Some l).
Proof.
  intros Hr E.
  pose proof (label_some_in_grid _ _ E) as G.
  apply cursor_in_grid_iff in G. destruct G as [_ Hc].
  pose proof (row_len_pos (mode (set_shift k false))
                          (cursor_row (set_shift k false))) as Hp.
  destruct k as [p t ml m sh r c]. cbn in Hr, Hc, Hp, E |- *.
  assert (R : r = 0 \/ r = 1 \/ r = 2) by lia.
  destruct m; destruct R as [-> | [-> | ->]]; unfold row_len in Hc;
    cbn in Hc; enum10 c; try lia;
    vm_compute in E; inversion E; subst l; vm_compute;
    try reflexivity; repeat split; discriminate.
Qed.

Lemma shift_changes_case_witness :
  if startswith_letters
       (mode (mkKeyboard (lit "Rename") [] 64 letters_ru true 1 2))
  then get_current_key_label
         (set_shift (mkKeyboard (lit "Rename") [] 64 letters_ru true 1 2) true)
       = Ok (Some (upper [1074%N]))
       /\ upper [1074%N] <> [1074%N] /\ lower (upper [1074%N]) = [1074%N]
  else get_current_key_label
         (set_shift (mkKeyboard (lit "Rename") [] 64 letters_ru true 1 2) true)
       = Ok (Some [1074%N]).
Proof.
  apply (shift_changes_case
           (mkKeyboard (lit "Rename") [] 64 letters_ru true 1 2) [1074%N]).
  - cbn. lia.
  - reflexivity.
Defined.

(** Inversion of [handle_event] on the action "done". *)
Lemma handle_event_done_inv (k k' : OnScreenKeyboard) (e : Event)
        (t : option str) :
  handle_event k e = Ok (k', (Some done, t)) ->
  e = CENTER
  /\ get_current_key_label k = Ok (Some (lit "return"))
  /\ cursor_row k = 3 /\ cursor_col k = 4
  /\ k' = k /\ t = Some (text k).
Proof.
  intros H.
  assert (Hnav : is_navigation e = false).
  { destruct (is_navigation e) eqn:Nav; [|reflexivity].
    unfold handle_event in H. rewrite Nav in H.
    destruct (navigate k (get_layout_rows k) e) as [k1|] ; cbn [bind] in H;
      [|discriminate].
    destruct (index (get_layout_rows k) (cursor_row k1)) as [row|];
      cbn [bind] in H; [|discriminate].
    destruct (cursor_col k1 >=? len row).
    - destruct (index (get_layout_rows k) (cursor_row k1)); cbn [bind] in H;
        discriminate.
    - discriminate. }
  destruct e; try discriminate; try (cbn in H; discriminate).
  destruct (label_cases k) as [[_ E] | [G (l & E & C)]].
  { unfold handle_event in H. cbn [is_navigation] in H. rewrite E in H.
    cbn in H. discriminate. }
  destruct (is_mode_toggle l) eqn:T.
  { rewrite (toggle_step k l E T) in H. discriminate. }
  destruct C as [[R N] | [_ Hl]].
  - pose proof (cursor_in_grid_iff k) as [Gi _]. specialize (Gi G).
    pose proof N as N0.
    apply system_row_cases in N; [|lia].
    destruct N as [[_ ->] | [[_ ->] | [[_ ->] | [[_ ->] | [Hc ->]]]]].
    + destruct (mode k); discriminate.
    + unfold handle_event in H. cbn [is_navigation] in H. rewrite E in H.
      cbn in H. discriminate.
    + unfold handle_event in H. cbn [is_navigation] in H. rewrite E in H.
      cbn in H. destruct (len (text k) <? max_len k); discriminate.
    + unfold handle_event in H. cbn [is_navigation] in H. rewrite E in H.
      cbn in H. destruct (text k); discriminate.
    + unfold handle_event in H. cbn [is_navigation] in H. rewrite E in H.
      cbn in H. inversion H; subst. auto 10.
  - pose proof (char_label_tests l Hl) as (H1 & H2 & H3 & H4 & H5 & H6 & H7).
    unfold handle_event in H. cbn [is_navigation] in H. rewrite E in H.
    cbn [bind] in H. rewrite H1, H2, H3, H4, H5, H6, H7 in H.
    cbn [orb andb] in H. destruct (len (text k) <? max_len k); discriminate.
Qed.

(** X5: "done" only comes from the on-screen return key.  Whenever
    [handle_event] returns the action "done", the event was CENTER with
    the cursor on "return" (row 3, column 4), the text handed back is the
    current text, and the keyboard is unchanged. *)
Theorem done_only_from_return (k k' : OnScreenKeyboard) (e : Event)
        (t : option str) :
  handle_event k e = Ok (k', (Some done, t)) ->
  e = CENTER
  /\ get_current_key_label k = Ok (Some (lit "return"))
  /\ cursor_row k = 3 /\ cursor_col k = 4
  /\ k' = k /\ t = Some (text k).
Proof. exact (handle_event_done_inv k k' e t). Qed.

Lemma done_only_from_return_witness :
  CENTER = CENTER
  /\ get_current_key_label
       (mkKeyboard (lit "Rename") (lit "XY") 64 letters_en false 3 4)
     = Ok (Some (lit "return"))
  /\ cursor_row (mkKeyboard (lit "Rename") (lit "XY") 64 letters_en false 3 4) = 3
  /\ cursor_col (mkKeyboard (lit "Rename") (lit "XY") 64 letters_en false 3 4) = 4
  /\ mkKeyboard (lit "Rename") (lit "XY") 64 letters_en false 3 4
     = mkKeyboard (lit "Rename") (lit "XY") 64 letters_en false 3 4
  /\ Some (lit "XY")
     = Some (text (mkKeyboard (lit "Rename") (lit "XY") 64 letters_en false 3 4)).
Proof.
  apply (done_only_from_return
           (mkKeyboard (lit "Rename") (lit "XY") 64 letters_en false 3 4)
           (mkKeyboard (lit "Rename") (lit "XY") 64 letters_en false 3 4)
           CENTER (Some (lit "XY"))).
  reflexivity.
Defined.

(** X6: navigation is clamped and never wraps.  On a cursor inside the
    grid a navigation event returns "redraw" and touches only the cursor:
    UP and DOWN move one row, stopping at rows 0 and 3, and pull the column
    back to the last key of a shorter row; LEFT and RIGHT move one column,
    stopping at the first and the last key of the row. *)
Theorem navigation_one_step (k : OnScreenKeyboard) (e : Event) :
  cursor_in_grid k = true -> is_navigation e = true ->
  exists row' col',
    handle_event k e
      = Ok (set_cursor_col (set_cursor_row k row') col', (Some redraw, None))
    /\ match e with
       | UP => row' = Z.max 0 (cursor_row k - 1)
       | DOWN => row' = Z.min 3 (cursor_row k + 1)
       | _ => row' = cursor_row k
       end
    /\ match e with
       | LEFT => col' = Z.max 0 (cursor_col k - 1)
       | RIGHT =>
           col' = Z.min (row_len (mode k) (cursor_row k) - 1) (cursor_col k + 1)
       | _ => col' = Z.min (row_len (mode k) row' - 1) (cursor_col k)
       end.
Proof.
  intros G Nav. apply cursor_in_grid_iff in G. destruct G as [Hr Hc].
  destruct k as [p t ml m sh r c]. cbn in Hr, Hc |- *.
  assert (Hrow : forall r', 0 <= r' < 4 ->
            exists row,
              index (get_layout_rows (mkKeyboard p t ml m sh r c)) r' = Ok row
              /\ len row = row_len m r').
  { intros r' Hr'.
    destruct (index_row (mkKeyboard p t ml m sh r c) r' Hr')
      as (row & _ & I & L).
    exists row. split; [exact I | exact L]. }
  pose proof (row_len_pos m r) as Hp.
  unfold handle_event. rewrite Nav.
  destruct e; try discriminate; unfold navigate; rewrite ?len_rows;
    cbn [cursor_row cursor_col].
  - (* UP *)
    destruct (r >? 0) eqn:B; cbn [bind set_cursor_row cursor_row cursor_col].
    + destruct (Hrow (r - 1)) as (row & I & L); [lia|].
      rewrite I. cbn [bind]. pose proof (row_len_pos m (r - 1)).
      exists (r - 1). destruct (c >=? len row) eqn:B2.
      * exists (len row - 1). split; [reflexivity|]. split; lia.
      * exists c. split; [reflexivity|]. split; lia.
    + destruct (Hrow r) as (row & I & L); [lia|].
      rewrite I. cbn [bind]. assert (B2 : (c >=? len row) = false) by lia.
      rewrite B2. exists r, c. split; [reflexivity|]. split; lia.
  - (* DOWN *)
    destruct (r <? 4 - 1) eqn:B; cbn [bind set_cursor_row cursor_row cursor_col].
    + destruct (Hrow (r + 1)) as (row & I & L); [lia|].
      rewrite I. cbn [bind]. pose proof (row_len_pos m (r + 1)).
      exists (r + 1). destruct (c >=? len row) eqn:B2.
      * exists (len row - 1). split; [reflexivity|]. split; lia.
      * exists c. split; [reflexivity|]. split; lia.
    + destruct (Hrow r) as (row & I & L); [lia|].
      rewrite I. cbn [bind]. assert (B2 : (c >=? len row) = false) by lia.
      rewrite B2. exists r, c. split; [reflexivity|]. split; lia.
  - (* LEFT *)
    destruct (Hrow r) as (row & I & L); [lia|].
    destruct (c >? 0) eqn:B; cbn [bind set_cursor_col cursor_row cursor_col];
      rewrite I; cbn [bind].
    + assert (B2 : (c - 1 >=? len row) = false) by lia. rewrite B2.
      exists r, (c - 1). split; [reflexivity|]. split; lia.
    + assert (B2 : (c >=? len row) = false) by lia. rewrite B2.
      exists r, c. split; [reflexivity|]. split; lia.
  - (* RIGHT *)
    destruct (Hrow r) as (row & I & L); [lia|].
    rewrite I. cbn [bind].
    destruct (c <? len row - 1) eqn:B;
      cbn [bind set_cursor_col cursor_row cursor_col]; rewrite I; cbn [bind].
    + assert (B2 : (c + 1 >=? len row) = false) by lia. rewrite B2.
      exists r, (c + 1). split; [reflexivity|]. split; lia.
    + assert (B2 : (c >=? len row) = false) by lia. rewrite B2.
      exists r, c. split; [reflexivity|]. split; lia.
Qed.

(** X6 on the last key of the first English row: DOWN lands on the last
    key of the shorter second row. *)
Lemma navigation_one_step_witness :
  exists row' col',
    handle_event (mkKeyboard (lit "Rename") [] 64 letters_en false 0 9) DOWN
      = Ok (set_cursor_col
              (set_cursor_row
                 (mkKeyboard (lit "Rename") [] 64 letters_en false 0 9) row')
              col', (Some redraw, None))
    /\ row' = Z.min 3 (0 + 1)
    /\ col' = Z.min (row_len letters_en row' - 1) 9.
Proof.
  apply (navigation_one_step
           (mkKeyboard (lit "Rename") [] 64 letters_en false 0 9) DOWN);
    reflexivity.
Defined.

(** X7: where [cycle_language] loses the cursor.  Called with the cursor
    inside the grid, [cycle_language] leaves it outside the new grid
    exactly when it leaves the Russian layout from one of the last two keys
    of its third row (row 2, column 7 or 8); in every other case the cursor
    is inside the new grid. *)
Theorem cycle_language_cursor (k : OnScreenKeyboard) :
  cursor_in_grid k = true ->
  (cursor_in_grid (cycle_language k) = false
   <-> mode k = letters_ru /\ cursor_row k = 2 /\ 7 <= cursor_col k).
Proof.
  intros G. apply cursor_in_grid_iff in G. destruct G as [Hr Hc].
  assert (Hiff : cursor_in_grid (cycle_language k) = true <->
                 0 <= cursor_col k
                 < row_len (mode (cycle_language k)) (cursor_row k)).
  { rewrite cursor_in_grid_iff.
    unfold cycle_language. destruct (mode k); cbn; intuition lia. }
  destruct (cursor_in_grid (cycle_language k)) eqn:G'.
  - destruct Hiff as [Hi _]. specialize (Hi eq_refl).
    split; [discriminate|].
    intros (M & R & C). unfold cycle_language in Hi. rewrite M, R in Hi.
    cbn in Hi. lia.
  - split; [|reflexivity]. intros _.
    assert (N : ~ (0 <= cursor_col k
                   < row_len (mode (cycle_language k)) (cursor_row k))).
    { intros X. apply Hiff in X. discriminate. }
    unfold cycle_language in N.
    destruct (mode k) eqn:M; cbn [mode set_mode] in N; unfold row_len in Hc, N;
      destruct (Z.eqb_spec (cursor_row k) 3), (Z.eqb_spec (cursor_row k) 0),
               (Z.eqb_spec (cursor_row k) 1);
      try (exfalso; lia); repeat split; lia.
Qed.

Lemma cycle_language_cursor_witness :
  cursor_in_grid
    (cycle_language (mkKeyboard (lit "Rename") [] 64 letters_ru false 2 7))
    = false
  <-> mode (mkKeyboard (lit "Rename") [] 64 letters_ru false 2 7) = letters_ru
      /\ cursor_row (mkKeyboard (lit "Rename") [] 64 letters_ru false 2 7) = 2
      /\ 7 <= cursor_col (mkKeyboard (lit "Rename") [] 64 letters_ru false 2 7).
Proof.
  apply (cycle_language_cursor
           (mkKeyboard (lit "Rename") [] 64 letters_ru false 2 7)).
  reflexivity.
Defined.

(** X8: the cursor comes back with the next navigation event.  After
    [cycle_language] on a cursor inside the grid, every navigation event
    runs without raising, returns "redraw" and leaves the cursor inside the
    grid of the new layout. *)
Theorem navigation_after_cycle_language (k : OnScreenKeyboard) (e : Event) :
  cursor_in_grid k = true -> is_navigation e = true ->
  exists k',
    handle_event (cycle_language k) e = Ok (k', (Some redraw, None))
    /\ cursor_in_grid k' = true
    /\ mode k' = mode (cycle_language k) /\ text k' = text k.
Proof.
  intros G Nav.
  assert (Hk : row_ok (cycle_language k)).
  { apply cursor_in_grid_row_ok in G. unfold row_ok, cycle_language in *.
    destruct (mode k); exact G. }
  destruct (navigation_spec (cycle_language k) e Nav Hk)
    as (k' & E & G' & Et & _ & Em & _).
  exists k'. repeat split; trivial.
  rewrite Et. unfold cycle_language. destruct (mode k); reflexivity.
Qed.

Lemma navigation_after_cycle_language_witness :
  exists k',
    handle_event
      (cycle_language (mkKeyboard (lit "Rename") [] 64 letters_ru false 2 8))
      LEFT = Ok (k', (Some redraw, None))
    /\ cursor_in_grid k' = true
    /\ mode k'
       = mode (cycle_language
                 (mkKeyboard (lit "Rename") [] 64 letters_ru false 2 8))
    /\ text k' = text (mkKeyboard (lit "Rename") [] 64 letters_ru false 2 8).
Proof.
  apply (navigation_after_cycle_language
           (mkKeyboard (lit "Rename") [] 64 letters_ru false 2 8) LEFT);
    reflexivity.
Defined.

(** X9: the text never outgrows the larger of its initial length and
    [max_len].  A session of any events and [cycle_language] calls, started
    by [start] with any initial text, runs without raising; at its end
    [max_len] and the prompt are those given to [start] and the text is no
    longer than [max(len(initial_text), max_len)]. *)
Theorem text_never_outgrows
  (k0 : OnScreenKeyboard) (prompt0 : str) (initial_text : option str)
  (max_len0 : Z) (inputs : list Input) :
  exists k,
    run (start k0 prompt0 initial_text max_len0) inputs = Ok k
    /\ max_len k = max_len0
    /\ len (text k)
       <= Z.max (len (match initial_text with Some t => t | None => [] end))
                max_len0.
Proof.
  set (M := Z.max (len (match initial_text with Some t => t | None => [] end))
                  max_len0).
  assert (Hgen : forall inputs k, row_ok k -> max_len k = max_len0 ->
            len (text k) <= M ->
            exists k', run k inputs = Ok k' /\ max_len k' = max_len0
                       /\ len (text k') <= M).
  { clear inputs. induction inputs as [|i rest IH]; intros k Hk Hm Hb.
    - exists k. cbn. auto.
    - destruct (step_spec k i Hk) as (k1 & E & Hk1 & Em & Et).
      assert (Hb1 : len (text k1) <= M).
      { destruct Et as [-> | [-> | [Hlt ->]]]; try lia.
        pose proof (drop_last_len_le (text k)). lia. }
      destruct (IH k1 Hk1 (eq_trans Em Hm) Hb1) as (k' & E' & Hm' & Hb').
      exists k'. cbn. rewrite E. cbn. rewrite E'. auto. }
  apply Hgen.
  - unfold row_ok. cbn. lia.
  - reflexivity.
  - unfold M, start. cbn [text]. apply Z.le_max_l.
Qed.

(** X10: the layout indicator tells the display states apart.  Two
    keyboards show the same indicator exactly when they are in the same
    mode and, in a letters mode, have the same shift state; in the symbols
    mode shift does not show. *)
Theorem layout_indicator_injective (k1 k2 : OnScreenKeyboard) :
  get_layout_indicator k1 = get_layout_indicator k2
  <-> mode k1 = mode k2 /\ (mode k1 = num_sym \/ shift k1 = shift k2).
Proof.
  unfold get_layout_indicator.
  destruct (mode k1), (mode k2), (shift k1), (shift k2); split;
    try discriminate; try reflexivity; try (intros _; auto; fail);
    try (intros [? [?|?]]; discriminate).
Qed.

End ui_keyboard_more.

(** ** File names, paths and the file-system actions *)

Module main_py_more.
Import Py Py_facts ui_keyboard ui_keyboard_facts ui_keyboard_more.
Import main_py main_py_facts.

(** *** Strings *)

Lemma dropwhile_incl {A : Type} (f : A -> bool) (l : list A) :
  incl (dropwhile f l) l.
Proof.
  induction l as [|x l IH]; cbn; [apply incl_refl|].
  destruct (f x); [now apply incl_tl | apply incl_refl].
Qed.

Lemma strip_incl (s : str) : incl (strip s) s.
Proof.
  unfold strip, rstrip, lstrip. intros c Hc.
  apply in_rev in Hc. apply dropwhile_incl in Hc. apply in_rev in Hc.
  now apply dropwhile_incl in Hc.
Qed.

(** [dropwhile] stops at once on a list whose head fails the test. *)
Lemma dropwhile_head {A : Type} (f : A -> bool) (x : A) (l : list A) :
  f x = false -> dropwhile f (x :: l) = x :: l.
Proof. intros E. cbn. now rewrite E. Qed.

(** A string without white space is its own [strip]. *)
Lemma strip_no_space (s : str) :
  Forall (fun c => isspace c = false) s -> strip s = s.
Proof.
  intros F. unfold strip, rstrip, lstrip.
  assert (L : dropwhile isspace s = s).
  { destruct s as [|c s]; [reflexivity|]. apply dropwhile_head.
    now inversion F. }
  rewrite L.
  assert (R : dropwhile isspace (List.rev s) = List.rev s).
  { destruct (List.rev s) as [|c r] eqn:E; [reflexivity|].
    apply dropwhile_head. rewrite Forall_forall in F. apply F.
    apply in_rev. rewrite E. now left. }
  rewrite R. apply rev_involutive.
Qed.

(** The allowed characters are neither white space, nor the space that is
    replaced, nor the slash. *)
Lemma allowed_chars (c : N) :
  is_allowed c = true -> isspace c = false /\ c <> 32%N /\ c <> slash.
Proof.
  unfold is_allowed. intros E.
  apply existsb_exists in E as (x & Hin & Hx). apply N.eqb_eq in Hx. subst x.
  assert (F : forallb (fun x => negb (isspace x) && negb (N.eqb x 32)
                                && negb (N.eqb x slash)) allowed = true)
    by (vm_compute; reflexivity).
  rewrite forallb_forall in F. specialize (F c Hin).
  apply andb_true_iff in F as [F F3]. apply andb_true_iff in F as [F1 F2].
  apply negb_true_iff in F1, F2, F3.
  apply N.eqb_neq in F2, F3. auto.
Qed.

Lemma sanitize_Forall (name : str) :
  Forall (fun c => is_allowed c = true) (sanitize_fs_name name).
Proof.
  unfold sanitize_fs_name. destruct (is_empty (strip name)); [constructor|].
  apply Forall_forall. intros c Hc. apply filter_In in Hc. apply Hc.
Qed.

(** The sanitized name, character by character. *)
Lemma sanitize_fs_name_allowed_aux (name : str) :
  Forall (fun c => is_allowed c = true /\ c <> slash /\ isspace c = false)
         (sanitize_fs_name name).
Proof.
  pose proof (sanitize_Forall name) as F.
  rewrite Forall_forall in *. intros c Hc. specialize (F c Hc).
  destruct (allowed_chars c F) as (S & _ & L). auto.
Qed.

(** X11: [sanitize_fs_name] only lets allowed characters through: its
    result consists of ASCII letters, digits, "_" and "-", so it contains
    no slash and no white space. *)
Theorem sanitize_fs_name_allowed (name : str) :
  Forall (fun c => is_allowed c = true /\ c <> slash /\ isspace c = false)
         (sanitize_fs_name name).
Proof. exact (sanitize_fs_name_allowed_aux name). Qed.

(** X12: [sanitize_fs_name] is idempotent: a sanitized name is left as it
    is by a second pass. *)
Theorem sanitize_fs_name_idempotent (name : str) :
  sanitize_fs_name (sanitize_fs_name name) = sanitize_fs_name name.
Proof.
  pose proof (sanitize_Forall name) as F.
  set (s := sanitize_fs_name name) in *.
  unfold sanitize_fs_name at 1.
  assert (St : strip s = s).
  { apply strip_no_space. rewrite Forall_forall in *. intros c Hc.
    now apply allowed_chars, F. }
  rewrite St. destruct s as [|c0 s0] eqn:Es; [reflexivity|].
  cbn [is_empty]. rewrite <- Es in *. clear Es c0 s0.
  assert (M : List.map (fun c => if N.eqb c 32 then 95%N else c) s = s).
  { rewrite <- (map_id s) at 2. apply map_ext_in. intros c Hc.
    rewrite Forall_forall in F.
    destruct (allowed_chars c (F c Hc)) as (_ & N32 & _).
    apply N.eqb_neq in N32. now rewrite N32. }
  rewrite M.
  apply forallb_filter_id. apply forallb_forall.
  rewrite Forall_forall in F. exact F.
Qed.

(** *** Paths *)

Lemma dropwhile_app_all {A : Type} (f : A -> bool) (l1 l2 : list A) :
  Forall (fun x => f x = true) l1 -> dropwhile f (l1 ++ l2) = dropwhile f l2.
Proof.
  induction 1 as [|x l Hx _ IH]; [reflexivity|].
  cbn. now rewrite Hx.
Qed.

(** Joining a name to a directory and taking the parent again. *)
Lemma dirname_join_aux (dir name : str) (d : str) (c : N) :
  dir = d ++ [c] -> c <> slash -> ~ In slash name ->
  path_join dir name = dir ++ [slash] ++ name
  /\ path_dirname (path_join dir name) = dir.
Proof.
  intros -> Hc Hn.
  assert (J : path_join (d ++ [c]) name = (d ++ [c]) ++ [slash] ++ name).
  { unfold path_join.
    assert (S : startswith name [slash] = false).
    { destruct name as [|x name]; [reflexivity|]. cbn.
      destruct (N.eqb_spec x slash) as [->|]; [|reflexivity].
      exfalso. apply Hn. now left. }
    rewrite S.
    assert (E : endswith (d ++ [c]) [slash] = false).
    { unfold endswith. rewrite rev_app_distr. cbn.
      apply N.eqb_neq in Hc. now rewrite Hc. }
    rewrite E. destruct (d ++ [c]) eqn:X; [|reflexivity].
    destruct d; discriminate. }
  split; [exact J|]. rewrite J. unfold path_dirname.
  assert (X : N.eqb slash c = false) by (apply N.eqb_neq; congruence).
  assert (R : List.rev ((d ++ [c]) ++ [slash] ++ name)
              = List.rev name ++ slash :: List.rev (d ++ [c])).
  { rewrite !rev_app_distr. cbn [List.rev List.app].
    rewrite <- !app_assoc. reflexivity. }
  rewrite R. clear R.
  rewrite dropwhile_app_all.
  2:{ apply Forall_forall. intros x Hx. apply in_rev in Hx.
      apply negb_true_iff. apply N.eqb_neq. intros ->. contradiction. }
  cbn [dropwhile]. rewrite N.eqb_refl. cbn [negb].
  assert (Hd : List.rev (slash :: List.rev (d ++ [c])) = (d ++ [c]) ++ [slash]).
  { cbn [List.rev]. now rewrite rev_involutive. }
  rewrite Hd.
  assert (NA : forallb (N.eqb slash) ((d ++ [c]) ++ [slash]) = false).
  { rewrite !forallb_app. cbn [forallb]. rewrite X.
    now rewrite andb_false_r. }
  rewrite NA.
  assert (R2 : List.rev ((d ++ [c]) ++ [slash]) = slash :: c :: List.rev d).
  { rewrite !rev_app_distr. reflexivity. }
  rewrite R2. cbn [dropwhile]. rewrite N.eqb_refl, X.
  cbn [List.rev]. now rewrite rev_involutive.
Qed.

(** X13: [os.path.dirname] undoes [os.path.join].  For a directory path
    that is not empty and does not end in a slash, and a name without
    slash, the parent of the joined path is the directory again. *)
Theorem dirname_join (dir name : str) (d : str) (c : N) :
  dir = d ++ [c] -> c <> slash -> ~ In slash name ->
  path_join dir name = dir ++ [slash] ++ name
  /\ path_dirname (path_join dir name) = dir.
Proof. exact (dirname_join_aux dir name d c). Qed.

Lemma dirname_join_witness :
  path_join (lit "menu") (lit "Docs") = lit "menu" ++ [slash] ++ lit "Docs"
  /\ path_dirname (path_join (lit "menu") (lit "Docs")) = lit "menu".
Proof.
  apply (dirname_join (lit "menu") (lit "Docs") (lit "men") 117%N).
  - reflexivity.
  - discriminate.
  - cbn. intuition discriminate.
Defined.

(** The decimal digits of a number contain no slash. *)
Lemma format_nat_no_slash (i : nat) : ~ In slash (format_nat i).
Proof.
  unfold format_nat. generalize (Nat.to_uint i). intros u.
  induction u; cbn; [intros [] | ..]; intros [E|E]; try discriminate E; auto.
Qed.

(** Splitting a range at one of its elements. *)
Lemma seq_split (start n i : nat) :
  (i < n)%nat ->
  seq start n = seq start i ++ (start + i)%nat :: seq (S (start + i)) (n - S i).
Proof.
  intros Hi.
  replace n with (i + S (n - S i))%nat at 1 by lia.
  rewrite seq_app. reflexivity.
Qed.

Section Names.

Context {FS : Type} `{FileSystem FS}.

(** The path picked by the probing loop is a candidate name joined to the
    directory. *)
Lemma create_candidate_shape (fs : FS) (current_dir base_fs : str)
      (range : list nat) (p : str) :
  create_candidate fs current_dir base_fs range = Some p ->
  exists i, In i range /\
    p = path_join current_dir
          (if Nat.eqb i 0 then base_fs else base_fs ++ lit "_" ++ format_nat i).
Proof.
  induction range as [|i rest IH]; cbn [create_candidate]; [discriminate|].
  case_exists E.
  - intros C. destruct (IH C) as (j & Hin & ->). exists j. split; [now right | reflexivity].
  - intros [= <-]. exists i. split; [now left | reflexivity].
Qed.

(** The probing loop stops at the first free candidate of its range. *)
Lemma create_candidate_prefix (fs : FS) (current_dir base_fs : str)
      (pre post : list nat) (i : nat) :
  (forall j, In j pre ->
     path_exists fs
       (path_join current_dir
          (if Nat.eqb j 0 then base_fs else base_fs ++ lit "_" ++ format_nat j))
     = true) ->
  path_exists fs
    (path_join current_dir
       (if Nat.eqb i 0 then base_fs else base_fs ++ lit "_" ++ format_nat i))
  = false ->
  create_candidate fs current_dir base_fs (pre ++ i :: post)
  = Some (path_join current_dir
            (if Nat.eqb i 0 then base_fs else base_fs ++ lit "_" ++ format_nat i)).
Proof.
  intros Hpre Hi. induction pre as [|j pre IH]; cbn [List.app create_candidate].
  - rewrite Hi. reflexivity.
  - rewrite (Hpre j) by now left. cbn [negb]. apply IH.
    intros j' Hj'. apply Hpre. now right.
Qed.

Lemma rename_candidate_prefix (fs : FS)
      (parent safe_name suffix new_path : str) (pre post : list nat) (i : nat) :
  (forall j, In j pre ->
     path_exists fs
       (path_join parent (safe_name ++ lit "_" ++ format_nat j ++ suffix))
     = true) ->
  path_exists fs
    (path_join parent (safe_name ++ lit "_" ++ format_nat i ++ suffix)) = false ->
  rename_candidate fs parent safe_name suffix new_path (pre ++ i :: post)
  = path_join parent (safe_name ++ lit "_" ++ format_nat i ++ suffix).
Proof.
  intros Hpre Hi. induction pre as [|j pre IH]; cbn [List.app rename_candidate].
  - rewrite Hi. reflexivity.
  - rewrite (Hpre j) by now left. cbn [negb]. apply IH.
    intros j' Hj'. apply Hpre. now right.
Qed.

(** X14: [create_folder_named] picks the first free name.  When the plain
    name and the numbered names below [i] are taken and candidate [i]
    (below 1000) is free, the probing loop returns candidate [i]: the plain
    name for [i = 0], [base_i] otherwise. *)
Theorem create_candidate_first_free (fs : FS) (current_dir base_fs : str)
        (i : nat) :
  (i < 1000)%nat ->
  (forall j, (j < i)%nat ->
     path_exists fs
       (path_join current_dir
          (if Nat.eqb j 0 then base_fs else base_fs ++ lit "_" ++ format_nat j))
     = true) ->
  path_exists fs
    (path_join current_dir
       (if Nat.eqb i 0 then base_fs else base_fs ++ lit "_" ++ format_nat i))
  = false ->
  create_candidate fs current_dir base_fs (seq 0 1000)
  = Some (path_join current_dir
            (if Nat.eqb i 0 then base_fs else base_fs ++ lit "_" ++ format_nat i)).
Proof.
  intros Hi Hpre Hfree.
  rewrite (seq_split 0 1000 i Hi). cbn [Nat.add].
  apply create_candidate_prefix; [|exact Hfree].
  intros j Hj. apply in_seq in Hj. apply Hpre. lia.
Qed.

(** X15: [rename_entry] picks the first free numbered name.  When the
    plain destination exists, the numbered names below [i] are taken and
    [safe_name_i] (with [1 <= i <= 999]) is free, the destination handed to
    [os.rename] is [safe_name_i]; in particular an entry renamed to the
    name it already has is moved to [name_1]. *)
Theorem rename_new_path_first_free (fs : FS) (parent safe_name suffix : str)
        (i : nat) :
  path_exists fs (path_join parent (safe_name ++ suffix)) = true ->
  (1 <= i <= 999)%nat ->
  (forall j, (1 <= j < i)%nat ->
     path_exists fs
       (path_join parent (safe_name ++ lit "_" ++ format_nat j ++ suffix))
     = true) ->
  path_exists fs
    (path_join parent (safe_name ++ lit "_" ++ format_nat i ++ suffix)) = false ->
  rename_new_path fs parent safe_name suffix
  = path_join parent (safe_name ++ lit "_" ++ format_nat i ++ suffix).
Proof.
  intros Hbase Hi Hpre Hfree. unfold rename_new_path. rewrite Hbase.
  assert (Hlt : (i - 1 < 999)%nat) by lia.
  rewrite (seq_split 1 999 (i - 1) Hlt).
  replace (1 + (i - 1))%nat with i by lia.
  apply rename_candidate_prefix; [|exact Hfree].
  intros j Hj. apply in_seq in Hj. apply Hpre. lia.
Qed.

(** X16: a folder is only created as a new direct child of the current
    directory.  For a directory path that is not empty and does not end in
    a slash, [create_folder_named] either leaves the file system alone or
    calls [os.makedirs] on a path that does not exist and whose parent is
    that directory, and then at most writes the metadata file inside the
    new folder. *)
Theorem create_folder_named_inside_dir (fs : FS) (current_dir name d : str)
        (c : N) :
  current_dir = d ++ [c] -> c <> slash ->
  fst (create_folder_named fs current_dir name) = fs
  \/ exists p,
       path_exists fs p = false /\ path_dirname p = current_dir
       /\ (fst (create_folder_named fs current_dir name)
             = fst (os_makedirs fs p)
           \/ exists meta,
                fst (create_folder_named fs current_dir name)
                = fst (write_json (fst (os_makedirs fs p))
                                  (path_join p (lit ".meta.json")) meta)).
Proof.
  intros Hd Hc. unfold create_folder_named.
  destruct (is_empty (strip name)); [now left|].
  match goal with
  | |- context [create_candidate ?f ?dd ?b ?r] =>
      destruct (create_candidate f dd b r) as [p|] eqn:C; set (base := b) in *
  end; [|now left].
  right. exists p. split; [exact (create_candidate_free _ _ _ _ _ C)|].
  split.
  - destruct (create_candidate_shape _ _ _ _ _ C) as (i & _ & ->).
    apply (dirname_join_aux current_dir _ d c Hd Hc).
    assert (Hb : ~ In slash base).
    { unfold base. destruct (is_empty (sanitize_fs_name (strip name))).
      - cbn. intuition discriminate.
      - intros Hin. pose proof (sanitize_fs_name_allowed_aux (strip name)) as F.
        rewrite Forall_forall in F. destruct (F _ Hin) as (_ & X & _).
        now apply X. }
    destruct (Nat.eqb i 0); [exact Hb|].
    intros Hin. apply in_app_or in Hin. destruct Hin as [Hin|Hin]; [now apply Hb|].
    apply in_app_or in Hin. destruct Hin as [Hin|Hin].
    + cbn in Hin. intuition discriminate.
    + now apply format_nat_no_slash in Hin.
  - destruct (os_makedirs fs p) as [fs1 [|]] eqn:M; cbn [fst].
    + right.
      match goal with
      | |- context [write_json ?a ?b ?m] =>
          exists m; destruct (write_json a b m) as [fs2 [|]] eqn:W
      end; reflexivity.
    + now left.
Qed.

(** X17: a name without any allowed character.  When the stripped name is
    not empty but holds no allowed character and no space (a name typed on
    the Russian layout), its sanitized form is empty: [rename_entry] skips
    the rename, leaving file system and entry untouched and logging an info
    record only, while [create_folder_named] falls back to the directory
    name "Folder" and, when that path is free, creates it and writes the
    typed name into its metadata as display name. *)
Theorem unsanitizable_name (fs : FS) (current_dir : str) (entry : Entry)
        (name : str) :
  strip name <> [] ->
  Forall (fun c => is_allowed c = false /\ c <> 32%N) (strip name) ->
  path_exists fs (path_join current_dir (lit "Folder")) = false ->
  sanitize_fs_name (strip name) = []
  /\ (exists msg, rename_entry fs entry name = Ok (fs, entry, [info msg]))
  /\ fst (create_folder_named fs current_dir name)
     = match os_makedirs fs (path_join current_dir (lit "Folder")) with
       | (fs1, Raised) => fs1
       | (fs1, Returned) =>
           fst (write_json fs1
                  (path_join (path_join current_dir (lit "Folder"))
                             (lit ".meta.json"))
                  [ ("display_name"%string, JStr (strip name));
                    ("icon"%string, JStr FOLDER_ICON_NAME);
                    ("visible"%string, JBool true);
                    ("sort_priority"%string, JInt 5000) ])
       end.
Proof.
  intros Hne Hall Hfree.
  assert (Hs : sanitize_fs_name (strip name) = []).
  { unfold sanitize_fs_name. destruct (is_empty (strip (strip name))); [reflexivity|].
    match goal with |- filter ?f ?l = [] => destruct (filter f l) as [|x r] eqn:E end;
      [reflexivity|].
    exfalso.
    assert (Hx : In x (x :: r)) by now left.
    rewrite <- E in Hx. apply filter_In in Hx as [Hin Hal].
    apply in_map_iff in Hin as (c & Hc & Hin).
    apply strip_incl in Hin. rewrite Forall_forall in Hall.
    destruct (Hall c Hin) as [Na N32].
    apply N.eqb_neq in N32. rewrite N32 in Hc. subst x.
    unfold is_allowed in Na. congruence. }
  assert (He : is_empty (strip name) = false)
    by (destruct (strip name); [contradiction | reflexivity]).
  split; [exact Hs|]. split.
  - unfold rename_entry. rewrite He, Hs. cbn [is_empty].
    destruct (etype entry); eexists; reflexivity.
  - unfold create_folder_named. rewrite He, Hs. cbn [is_empty].
    change (seq 0 1000) with ([] ++ 0%nat :: seq 1 999).
    rewrite (create_candidate_prefix fs current_dir (lit "Folder") [] (seq 1 999) 0);
      [| intros j [] | exact Hfree ].
    cbn [Nat.eqb].
    destruct (os_makedirs fs (path_join current_dir (lit "Folder")))
      as [fs1 [|]]; [|reflexivity].
    match goal with
    | |- context [write_json ?a ?b ?m] => destruct (write_json a b m) as [fs2 [|]]
    end; reflexivity.
Qed.

End Names.

(** *** On the in-memory file system *)

Lemma create_candidate_first_free_witness :
  create_candidate beta_dir (lit "d") (lit "Beta") (seq 0 1000)
  = Some (path_join (lit "d")
            (if Nat.eqb 1 0 then lit "Beta"
             else lit "Beta" ++ lit "_" ++ format_nat 1)).
Proof.
  apply (create_candidate_first_free beta_dir (lit "d") (lit "Beta") 1).
  - lia.
  - intros j Hj. assert (j = 0)%nat by lia. subst j. reflexivity.
  - reflexivity.
Defined.

Lemma rename_new_path_first_free_witness :
  rename_new_path beta_dir (lit "d") (lit "Beta") []
  = path_join (lit "d") (lit "Beta" ++ lit "_" ++ format_nat 1 ++ []).
Proof.
  apply (rename_new_path_first_free beta_dir (lit "d") (lit "Beta") [] 1).
  - reflexivity.
  - lia.
  - intros j Hj. lia.
  - reflexivity.
Defined.

Lemma create_folder_named_inside_dir_witness :
  fst (create_folder_named beta_dir (lit "d") (lit "Beta")) = beta_dir
  \/ exists p,
       path_exists beta_dir p = false /\ path_dirname p = lit "d"
       /\ (fst (create_folder_named beta_dir (lit "d") (lit "Beta"))
             = fst (os_makedirs beta_dir p)
           \/ exists meta,
                fst (create_folder_named beta_dir (lit "d") (lit "Beta"))
                = fst (write_json (fst (os_makedirs beta_dir p))
                                  (path_join p (lit ".meta.json")) meta)).
Proof.
  apply (create_folder_named_inside_dir beta_dir (lit "d") (lit "Beta") [] 100%N).
  - reflexivity.
  - discriminate.
Defined.

Lemma unsanitizable_name_witness :
  sanitize_fs_name (strip [1087; 1072; 1087; 1082; 1072]%N) = []
  /\ (exists msg,
        rename_entry beta_dir (mkEntry folder (lit "d/Beta") (lit "Beta") 5000)
                     [1087; 1072; 1087; 1082; 1072]%N
        = Ok (beta_dir, mkEntry folder (lit "d/Beta") (lit "Beta") 5000,
              [info msg]))
  /\ fst (create_folder_named beta_dir (lit "d") [1087; 1072; 1087; 1082; 1072]%N)
     = match os_makedirs beta_dir (path_join (lit "d") (lit "Folder")) with
       | (fs1, Raised) => fs1
       | (fs1, Returned) =>
           fst (write_json fs1
                  (path_join (path_join (lit "d") (lit "Folder"))
                             (lit ".meta.json"))
                  [ ("display_name"%string,
                     JStr (strip [1087; 1072; 1087; 1082; 1072]%N));
                    ("icon"%string, JStr FOLDER_ICON_NAME);
                    ("visible"%string, JBool true);
                    ("sort_priority"%string, JInt 5000) ])
       end.
Proof.
  apply (unsanitizable_name beta_dir (lit "d")
           (mkEntry folder (lit "d/Beta") (lit "Beta") 5000)
           [1087; 1072; 1087; 1082; 1072]%N).
  - vm_compute. discriminate.
  - vm_compute. repeat constructor; discriminate.
  - reflexivity.
Defined.

(** ** The event loop: what its branches keep *)


(** The clamp after a reload re-establishes what the list view relies
    on. *)
Lemma clamp_selection_inv (max_rows : Z) (entries : list Entry)
      (sel scroll : Z) :
  0 <= scroll <= sel -> sel < scroll + max_rows ->
  let '(sel', scroll') := clamp_selection entries sel scroll in
  0 <= scroll' <= sel' /\ sel' < scroll' + max_rows
  /\ (sel' < len entries \/ (entries = [] /\ sel' = 0)).
Proof.
  intros H1 H2. unfold clamp_selection.
  pose proof (len_nonneg entries) as Hl.
  destruct (sel >=? len entries) eqn:E.
  - destruct entries as [|x entries].
    + change (len (@nil Entry)) with 0 in *.
      split; [lia|]. split; [lia|]. right. split; [reflexivity | lia].
    + assert (1 <= len (x :: entries)).
      { unfold len. cbn [List.length]. lia. }
      split; [lia|]. split; [lia|]. left. lia.
  - split; [lia|]. split; [lia|]. left. lia.
Qed.

Section LoopInvariant.

Context {FS : Type} `{FileSystem FS}.


(** X18: the OPTIONS_MENU branch is safe.  In a state where the selection
    is an index of the list, the list comes from a directory and the
    options index is one of the four items, every event is handled without
    raising (no IndexError on [OPTIONS_ITEMS] or [list_entries], no
    TypeError on the reload), and the resulting state satisfies the same
    conditions again. *)
Theorem options_menu_event_safe (max_rows : Z) (fs : FS) (ui : UI)
        (e : Event) :
  ui_inv max_rows ui ->
  exists fs' ui' log,
    options_menu_event fs ui e = Ok (fs', ui', log) /\ ui_inv max_rows ui'.
Proof.
  intros Inv. pose proof Inv as (H1 & H2 & H3 & H4 & H5 & H6).
  pose proof H6 as [[R0 R1] R2].
  assert (Hidx : list_entries ui <> [] ->
            exists item, index (list_entries ui) (selected_list_index ui)
                         = Ok item).
  { intros Hne. destruct H3 as [H3 | [H3 _]]; [|contradiction].
    destruct (index_in_range (list_entries ui) (selected_list_index ui))
      as (item & _ & I); [lia|]. eauto. }
  unfold options_menu_event. destruct e.
  - (* UP *)
    destruct (selected_option_index ui >? 0) eqn:B;
      do 3 eexists; (split; [reflexivity|]);
        [|(unfold ui_inv, row_ok; cbn; repeat split; try lia; try assumption)].
    unfold ui_inv. cbn. repeat split; try lia; try assumption.
  - (* DOWN *)
    change (len OPTIONS_ITEMS - 1) with 3.
    destruct (selected_option_index ui <? 3) eqn:B;
      do 3 eexists; (split; [reflexivity|]);
        [|(unfold ui_inv, row_ok; cbn; repeat split; try lia; try assumption)].
    unfold ui_inv. cbn. repeat split; try lia; try assumption.
  - do 3 eexists. split; [reflexivity|].
    (unfold ui_inv, row_ok; cbn; repeat split; try lia; try assumption).
  - do 3 eexists. split; [reflexivity|].
    (unfold ui_inv, row_ok; cbn; repeat split; try lia; try assumption).
  - (* CENTER *)
    assert (C : selected_option_index ui = 0 \/ selected_option_index ui = 1
                \/ selected_option_index ui = 2 \/ selected_option_index ui = 3)
      by lia.
    destruct C as [C | [C | [C | C]]]; rewrite C.
    + (* Create folder *)
      change (index OPTIONS_ITEMS 0) with (Ok (lit "Create folder")).
      cbn [bind].
      change (str_eqb (lit "Create folder") (lit "Back")) with false.
      change (str_eqb (lit "Create folder") (lit "Create folder")) with true.
      cbv iota.
      destruct (truthy_dir (current_dir ui));
        do 3 eexists; (split; [reflexivity|]);
        [|(unfold ui_inv, row_ok; cbn; repeat split; try lia; try assumption)].
      unfold ui_inv, row_ok. cbn. repeat split; try lia; assumption.
    + (* Rename *)
      change (index OPTIONS_ITEMS 1) with (Ok (lit "Rename")).
      cbn [bind].
      change (str_eqb (lit "Rename") (lit "Back")) with false.
      change (str_eqb (lit "Rename") (lit "Create folder")) with false.
      change (str_eqb (lit "Rename") (lit "Delete")) with false.
      change (str_eqb (lit "Rename") (lit "Rename")) with true.
      cbv iota.
      destruct (list_entries ui) as [|x es] eqn:L.
      * do 3 eexists. split; [reflexivity|].
        unfold ui_inv. cbn.
        repeat split; try lia; try assumption.
      * destruct Hidx as (item & I); [discriminate|]. rewrite I. cbn [bind].
        do 3 eexists. split; [reflexivity|].
        unfold ui_inv, row_ok. cbn.
        repeat split; try lia; assumption.
    + (* Delete *)
      change (index OPTIONS_ITEMS 2) with (Ok (lit "Delete")).
      cbn [bind].
      change (str_eqb (lit "Delete") (lit "Back")) with false.
      change (str_eqb (lit "Delete") (lit "Create folder")) with false.
      change (str_eqb (lit "Delete") (lit "Delete")) with true.
      cbv iota.
      destruct (list_entries ui) as [|x es] eqn:L.
      * do 3 eexists. split; [reflexivity|].
        unfold ui_inv. cbn.
        repeat split; try lia; try assumption.
      * destruct Hidx as (item & I); [discriminate|]. rewrite I. cbn [bind].
        destruct (delete_entry fs item) as [fs1 log1].
        destruct (current_dir ui) as [dir|] eqn:D.
        2:{ exfalso. apply H4; [discriminate | reflexivity]. }
        cbn [load_current bind].
        pose proof (clamp_selection_inv max_rows (load_list_entries fs1 dir)
                      (selected_list_index ui) (list_scroll ui) H1 H2) as Cl.
        destruct (clamp_selection _ _ _) as [sel scroll].
        destruct Cl as (C1 & C2 & C3).
        do 3 eexists. split; [reflexivity|].
        unfold ui_inv. cbn.
        repeat split; try lia; try assumption; try discriminate.
    + (* Back *)
      change (index OPTIONS_ITEMS 3) with (Ok (lit "Back")).
      cbn [bind].
      change (str_eqb (lit "Back") (lit "Back")) with true. cbv iota.
      do 3 eexists. split; [reflexivity|].
    (unfold ui_inv, row_ok; cbn; repeat split; try lia; try assumption).
  - do 3 eexists. split; [reflexivity|].
    (unfold ui_inv, row_ok; cbn; repeat split; try lia; try assumption).
  - do 3 eexists. split; [reflexivity|].
    (unfold ui_inv, row_ok; cbn; repeat split; try lia; try assumption).
  - (* KEY3 *)
    do 3 eexists. split; [reflexivity|].
    (unfold ui_inv, row_ok; cbn; repeat split; try lia; try assumption).
Qed.


(** X20: the file system is only touched on confirmation.  In the KEYBOARD
    branch every event other than KEY2 and CENTER on the on-screen return
    key leaves the file system, the entry list, the selection and the
    current directory as they are and logs nothing; the state changes only
    on KEY3, which goes back to the list view. *)
Theorem keyboard_event_keeps_file_system (fs fs' : FS) (ui ui' : UI)
        (e : Event) (log : list log_record) :
  keyboard_event fs ui e = Ok (fs', ui', log) ->
  e <> KEY2 ->
  (e = CENTER ->
   get_current_key_label (keyboard ui) <> Ok (Some (lit "return"))) ->
  fs' = fs /\ log = []
  /\ list_entries ui' = list_entries ui
  /\ selected_list_index ui' = selected_list_index ui
  /\ list_scroll ui' = list_scroll ui
  /\ current_dir ui' = current_dir ui
  /\ (state ui' = state ui \/ (e = KEY3 /\ state ui' = STATE_LIST_VIEW)).
Proof.
  intros E N2 Nret.
  assert (Hother : forall e', e' = e -> e' <> KEY1 -> e' <> KEY2 -> e' <> KEY3 ->
    (r <- handle_event (keyboard ui) e' ;;
       let '(k', (action, text0)) := r in
       match action with
       | Some redraw =>
           Ok (fs,
               mkUI (state ui) (current_dir ui) (list_entries ui)
                    (selected_list_index ui) (list_scroll ui)
                    (selected_option_index ui) k' (keyboard_mode ui)
                    (keyboard_target ui) (list_dirty ui) (options_dirty ui)
                    true, [])
       | Some done =>
           confirm_text fs
             (mkUI (state ui) (current_dir ui) (list_entries ui)
                   (selected_list_index ui) (list_scroll ui)
                   (selected_option_index ui) k' (keyboard_mode ui)
                   (keyboard_target ui) (list_dirty ui) (options_dirty ui)
                   (keyboard_dirty ui)) text0
       | None =>
           Ok (fs,
               mkUI (state ui) (current_dir ui) (list_entries ui)
                    (selected_list_index ui) (list_scroll ui)
                    (selected_option_index ui) k' (keyboard_mode ui)
                    (keyboard_target ui) (list_dirty ui) (options_dirty ui)
                    (keyboard_dirty ui), [])
       end) = Ok (fs', ui', log) ->
    fs' = fs /\ log = []
    /\ list_entries ui' = list_entries ui
    /\ selected_list_index ui' = selected_list_index ui
    /\ list_scroll ui' = list_scroll ui
    /\ current_dir ui' = current_dir ui
    /\ (state ui' = state ui \/ (e = KEY3 /\ state ui' = STATE_LIST_VIEW))).
  { intros e' -> _ _ _ X.
    destruct (handle_event (keyboard ui) e) as [[k' [action text0]]|] eqn:Hh;
      cbn [bind] in X; [|discriminate].
    destruct action as [[|]|].
    - inversion X; subst. cbn. auto 10.
    - exfalso.
      destruct (handle_event_done_inv _ _ _ _ Hh) as (-> & L & _).
      now apply Nret.
    - inversion X; subst. cbn. auto 10. }
  unfold keyboard_event in E.
  destruct e; try (apply (Hother _ eq_refl); [discriminate..|exact E]).
  - inversion E; subst. cbn. auto 10.
  - contradiction.
  - inversion E; subst. cbn. auto 10.
Qed.

End LoopInvariant.

(** The example state of the list view satisfies the conditions. *)
Lemma ui_on_two_apps_inv (st : State) (opt : Z) (k : OnScreenKeyboard)
      (km : option KbMode) (kt : option Entry) :
  0 <= opt < 4 -> row_ok k -> ui_inv 7 (ui_on two_apps st 1 opt k km kt).
Proof.
  intros Ho Hk. unfold ui_inv, ui_on.
  cbn [state current_dir list_entries selected_list_index list_scroll
       selected_option_index keyboard].
  repeat split; try lia; try apply Hk.
  - left. vm_compute. reflexivity.
  - intros _. discriminate.
Qed.

Lemma options_menu_event_safe_witness :
  exists fs' ui' log,
    options_menu_event two_apps
      (ui_on two_apps STATE_OPTIONS_MENU 1 2 init None None) CENTER
    = Ok (fs', ui', log) /\ ui_inv 7 ui'.
Proof.
  apply (options_menu_event_safe 7 two_apps
           (ui_on two_apps STATE_OPTIONS_MENU 1 2 init None None) CENTER).
  apply ui_on_two_apps_inv; [lia | unfold row_ok; cbn; lia].
Defined.


(** On that session the confirmation does raise: the app file has been
    renamed to [menu/b.app] when the assignment [meta["name"] = ...] fails
    on the array. *)
Example rename_on_array_metadata_raises :
  keyboard_event array_app rename_array_app KEY2 = Raise TypeError
  /\ os_rename array_app (lit "menu/a.app") (lit "menu/b.app")
     = ([(lit "menu", DirNode); (lit "menu/b.app", FileNode (Some NotObject))],
        Returned)
  /\ load_list_entries array_app (lit "menu")
     = [mkEntry app (lit "menu/a.app") (lit "menu/a.app") 9000].
Proof. vm_compute. repeat split. Qed.

(** With an object in the file the same confirmation returns to the list
    view. *)
Example rename_on_object_metadata_returns :
  exists fs' ui' log,
    keyboard_event one_app
      (ui_on one_app STATE_KEYBOARD 0 1
             (mkKeyboard (lit "Rename") (lit "b") 64 letters_en false 0 0)
             (Some KB_MODE_RENAME)
             (Some (mkEntry app (lit "menu/a.app") (lit "menu/a.app") 9000)))
      KEY2
    = Ok (fs', ui', log)
    /\ log = [info "Renamed app to: %s (display: %s)"]
    /\ read_json fs' (lit "menu/b.app")
       = Some (Object [("name"%string, JStr (lit "b"))])
    /\ state ui' = STATE_LIST_VIEW.
Proof. do 3 eexists. split; [vm_compute; reflexivity|]. repeat split. Qed.

Lemma keyboard_event_keeps_file_system_witness :
  exists fs' ui' log,
    keyboard_event two_apps
      (ui_on two_apps STATE_KEYBOARD 1 1 blank_keyboard
             (Some KB_MODE_NEW_FOLDER) None) CENTER
    = Ok (fs', ui', log)
    /\ (fs' = two_apps /\ log = []
        /\ list_entries ui'
           = list_entries (ui_on two_apps STATE_KEYBOARD 1 1 blank_keyboard
                                 (Some KB_MODE_NEW_FOLDER) None)
        /\ selected_list_index ui' = 1
        /\ list_scroll ui' = 0
        /\ current_dir ui' = Some (lit "menu")
        /\ (state ui' = STATE_KEYBOARD
            \/ (CENTER = KEY3 /\ state ui' = STATE_LIST_VIEW))).
Proof.
  do 3 eexists. split; [vm_compute; reflexivity|].
  apply (keyboard_event_keeps_file_system two_apps _
           (ui_on two_apps STATE_KEYBOARD 1 1 blank_keyboard
                  (Some KB_MODE_NEW_FOLDER) None) _ CENTER _).
  - vm_compute. reflexivity.
  - discriminate.
  - intros _. vm_compute. discriminate.
Defined.

(** *** Navigation in the list view, the main menu and the console *)

(** X21: the selected row of the list view stays a row of the list and
    stays on screen.  UP and DOWN move the selection by one, stopping at
    the first and at the last entry; afterwards the selection is still an
    index of the list and lies in the window of [(height - 30) // 30] rows
    that starts at the scroll offset. *)
Theorem list_view_navigate_visible (screen_height : Z) (ui : UI) (e : Event) :
  ui_inv ((screen_height - 30) / 30) ui ->
  ui_inv ((screen_height - 30) / 30) (list_view_navigate screen_height ui e)
  /\ selected_list_index (list_view_navigate screen_height ui e)
     = match e with
       | UP => Z.max 0 (selected_list_index ui - 1)
       | DOWN => Z.min (selected_list_index ui + 1)
                       (Z.max 0 (len (list_entries ui) - 1))
       | _ => selected_list_index ui
       end
  /\ list_entries (list_view_navigate screen_height ui e) = list_entries ui.
Proof.
  intros Inv. pose proof Inv as (H1 & H2 & H3 & H4 & H5 & H6).
  pose proof H6 as [[R0 R1] R2].
  unfold list_view_navigate.
  set (max_rows := (screen_height - 30) / 30) in *.
  destruct (list_entries ui) as [|x es] eqn:L.
  - split; [exact Inv|]. rewrite L. split; [|reflexivity].
    destruct H3 as [H3 | [_ H3]]; [cbn in H3; lia|].
    rewrite H3. destruct e; reflexivity.
  - rewrite <- L in *.
    assert (Hlen : 1 <= len (list_entries ui)).
    { rewrite L. unfold len. cbn [List.length]. lia. }
    destruct H3 as [H3 | [H3 _]]; [|rewrite L in H3; discriminate].
    destruct e; try (split; [exact Inv | split; reflexivity]).
    + (* UP *)
      destruct (selected_list_index ui >? 0) eqn:B.
      * destruct (selected_list_index ui - 1 <? list_scroll ui) eqn:B2;
          (split; [|split; [cbn; lia | reflexivity]]);
          unfold ui_inv; cbn; repeat split; try lia; try assumption;
          left; lia.
      * split; [exact Inv|]. split; [lia | reflexivity].
    + (* DOWN *)
      destruct (selected_list_index ui <? len (list_entries ui) - 1) eqn:B.
      * destruct (selected_list_index ui + 1 >=? list_scroll ui + max_rows) eqn:B2;
          (split; [|split; [cbn; lia | reflexivity]]);
          unfold ui_inv; cbn; repeat split; try lia; try assumption;
          left; lia.
      * split; [exact Inv|]. split; [lia | reflexivity].
Qed.

Lemma list_view_navigate_visible_witness :
  ui_inv ((240 - 30) / 30)
         (list_view_navigate 240
            (ui_on two_apps STATE_LIST_VIEW 1 0 init None None) DOWN)
  /\ selected_list_index
       (list_view_navigate 240
          (ui_on two_apps STATE_LIST_VIEW 1 0 init None None) DOWN)
     = Z.min (selected_list_index
                (ui_on two_apps STATE_LIST_VIEW 1 0 init None None) + 1)
             (Z.max 0 (len (list_entries
                              (ui_on two_apps STATE_LIST_VIEW 1 0 init None None))
                       - 1))
  /\ list_entries
       (list_view_navigate 240
          (ui_on two_apps STATE_LIST_VIEW 1 0 init None None) DOWN)
     = list_entries (ui_on two_apps STATE_LIST_VIEW 1 0 init None None).
Proof.
  apply (list_view_navigate_visible 240
           (ui_on two_apps STATE_LIST_VIEW 1 0 init None None) DOWN).
  change ((240 - 30) / 30) with 7.
  apply ui_on_two_apps_inv; [lia | unfold row_ok; cbn; lia].
Defined.

(** X22: the main-menu selection moves on a grid of three columns and
    never leaves the entries.  From an index of [root_entries] the new
    index is again an index of [root_entries]; LEFT and RIGHT change it by
    one inside its row, UP and DOWN by three, or not at all; [menu_dirty]
    is set exactly when the index changed. *)
Theorem main_menu_navigate_in_range {A : Type} (root_entries : list A)
        (idx : Z) (e : Event) :
  0 <= idx < len root_entries ->
  0 <= fst (main_menu_navigate root_entries idx e) < len root_entries
  /\ (snd (main_menu_navigate root_entries idx e) = true
      <-> fst (main_menu_navigate root_entries idx e) <> idx)
  /\ match e with
     | UP => fst (main_menu_navigate root_entries idx e) = idx
             \/ fst (main_menu_navigate root_entries idx e) = idx - 3
     | DOWN => fst (main_menu_navigate root_entries idx e) = idx
               \/ (fst (main_menu_navigate root_entries idx e) = idx + 3
                   /\ idx < 3)
     | LEFT => fst (main_menu_navigate root_entries idx e) = idx
               \/ (fst (main_menu_navigate root_entries idx e) = idx - 1
                   /\ (idx - 1) / 3 = idx / 3)
     | RIGHT => fst (main_menu_navigate root_entries idx e) = idx
                \/ (fst (main_menu_navigate root_entries idx e) = idx + 1
                    /\ (idx + 1) / 3 = idx / 3)
     | _ => fst (main_menu_navigate root_entries idx e) = idx
     end.
Proof.
  intros Hi. unfold main_menu_navigate.
  destruct root_entries as [|x es] eqn:L; [cbn in Hi; lia|].
  rewrite <- L in *. clear L x es.
  destruct e; cbv zeta;
    repeat match goal with
           | |- context [if ?b then _ else _] => destruct b eqn:?
           end; cbv beta iota zeta; cbn [fst snd].
  all: split; [Z.to_euclidean_division_equations; lia|].
  all: split;
    [ split;
      [ intros Hs; try discriminate Hs; Z.to_euclidean_division_equations; lia
      | intros Hn; try reflexivity; exfalso; apply Hn;
        Z.to_euclidean_division_equations; lia ]
    | ].
  all: try reflexivity; Z.to_euclidean_division_equations; lia.
Qed.

Lemma main_menu_navigate_in_range_witness :
  0 <= fst (main_menu_navigate [1; 2; 3; 4; 5] 1 DOWN) < len [1; 2; 3; 4; 5]
  /\ (snd (main_menu_navigate [1; 2; 3; 4; 5] 1 DOWN) = true
      <-> fst (main_menu_navigate [1; 2; 3; 4; 5] 1 DOWN) <> 1)
  /\ (fst (main_menu_navigate [1; 2; 3; 4; 5] 1 DOWN) = 1
      \/ (fst (main_menu_navigate [1; 2; 3; 4; 5] 1 DOWN) = 1 + 3 /\ 1 < 3)).
Proof.
  apply (main_menu_navigate_in_range [1; 2; 3; 4; 5] 1 DOWN).
  vm_compute. split; [discriminate | reflexivity].
Defined.

(** X23: the console scroll offset stays between 0 and the last line.  UP
    and DOWN change [console_scroll] by one at most, never below 0 and
    never past [max(0, len(console_lines) - 1)], and [console_dirty] is set
    exactly when the offset changed. *)
Theorem console_navigate_bounds (console_lines : list str)
        (console_scroll : Z) (e : Event) :
  0 <= console_scroll <= Z.max 0 (len console_lines - 1) ->
  0 <= fst (console_navigate console_lines console_scroll e)
    <= Z.max 0 (len console_lines - 1)
  /\ (snd (console_navigate console_lines console_scroll e) = true
      <-> fst (console_navigate console_lines console_scroll e)
          <> console_scroll)
  /\ fst (console_navigate console_lines console_scroll e)
     = match e with
       | UP => Z.max 0 (console_scroll - 1)
       | DOWN => Z.min (Z.max 0 (len console_lines - 1)) (console_scroll + 1)
       | _ => console_scroll
       end.
Proof.
  intros Hs. unfold console_navigate.
  destruct e;
    repeat match goal with
           | |- context [if ?b then _ else _] => destruct b eqn:?
           end; cbn [fst snd];
    (split; [lia|]);
    (split;
     [ split;
       [ intros Hd; try discriminate Hd; lia
       | intros Hn; try reflexivity; exfalso; apply Hn; lia ]
     | try reflexivity; lia ]).
Qed.

Lemma console_navigate_bounds_witness :
  0 <= fst (console_navigate [lit "a"; lit "b"] 1 DOWN)
    <= Z.max 0 (len [lit "a"; lit "b"] - 1)
  /\ (snd (console_navigate [lit "a"; lit "b"] 1 DOWN) = true
      <-> fst (console_navigate [lit "a"; lit "b"] 1 DOWN) <> 1)
  /\ fst (console_navigate [lit "a"; lit "b"] 1 DOWN)
     = Z.min (Z.max 0 (len [lit "a"; lit "b"] - 1)) (1 + 1).
Proof.
  apply (console_navigate_bounds [lit "a"; lit "b"] 1 DOWN).
  vm_compute. split; discriminate.
Defined.

End main_py_more.

(** ** Buttons *)

Module core_input_facts.
Import Py ui_keyboard core_input.

Lemma Event_eqb_eq (a b : Event) : Event_eqb a b = true <-> a = b.
Proof. destruct a, b; cbn; split; congruence. Qed.

Lemma Event_eqb_refl (a : Event) : Event_eqb a a = true.
Proof. now apply Event_eqb_eq. Qed.

Lemma Event_eqb_sym (a b : Event) : Event_eqb a b = Event_eqb b a.
Proof. destruct a, b; reflexivity. Qed.

Lemma states_get_set (d : States) (n n' : Event) (v default : Z) :
  states_get (states_set d n v) n' default
  = if Event_eqb n n' then v else states_get d n' default.
Proof.
  induction d as [|[m w] d IH]; cbn.
  - reflexivity.
  - destruct (Event_eqb m n) eqn:E; cbn.
    + apply Event_eqb_eq in E. subst m.
      destruct (Event_eqb n n'); reflexivity.
    + rewrite IH. destruct (Event_eqb m n') eqn:E'; [|reflexivity].
      apply Event_eqb_eq in E'. subst m.
      rewrite Event_eqb_sym, E. reflexivity.
Qed.

(** The event of the loop: the one already found, or else the first
    pressed name among those still to visit. *)
Lemma read_loop_event (digital_read : Event -> Z) (prev : States)
      (names : list Event) :
  forall (acc : States) (ev : option Event),
    fst (read_loop digital_read prev names acc ev)
    = match ev with
      | Some e => Some e
      | None => List.find (pressed digital_read prev) names
      end.
Proof.
  induction names as [|n names IH]; intros acc ev; cbn [read_loop List.find].
  - destruct ev; reflexivity.
  - rewrite IH. unfold pressed at 2. destruct ev as [e|].
    + rewrite andb_false_r. reflexivity.
    + rewrite andb_true_r.
      destruct ((states_get prev n 1 =? 1) && (digital_read n =? 0));
        reflexivity.
Qed.

(** The states of the loop: the level read for every visited name. *)
Lemma read_loop_states (digital_read : Event -> Z) (prev : States)
      (names : list Event) :
  forall (acc : States) (ev : option Event) (n : Event) (default : Z),
    states_get (snd (read_loop digital_read prev names acc ev)) n default
    = if existsb (Event_eqb n) names then digital_read n
      else states_get acc n default.
Proof.
  induction names as [|m names IH]; intros acc ev n default;
    cbn [read_loop existsb].
  - reflexivity.
  - rewrite IH. rewrite states_get_set.
    destruct (existsb (Event_eqb n) names); [now rewrite orb_true_r|].
    rewrite orb_false_r.
    destruct (Event_eqb n m) eqn:E.
    + apply Event_eqb_eq in E. subst m. now rewrite Event_eqb_refl.
    + destruct (Event_eqb m n) eqn:E'; [|reflexivity].
      apply Event_eqb_eq in E'. subst m. now rewrite Event_eqb_refl in E.
Qed.

(** X24: [read_buttons] reports the first fresh press.  The event is the
    first button, in the order UP, DOWN, LEFT, RIGHT, CENTER, KEY1, KEY2,
    KEY3, whose level was 1 (or unknown) on the previous tick and is 0 now;
    it is [None] exactly when no button went from 1 to 0; and the new
    states record the level read for every button. *)
Theorem read_buttons_first_pressed (digital_read : Event -> Z)
        (prev_states : States) :
  fst (read_buttons digital_read prev_states)
    = List.find (pressed digital_read prev_states) pin_names
  /\ (fst (read_buttons digital_read prev_states) = None
      <-> forall name, pressed digital_read prev_states name = false)
  /\ (forall name default,
        states_get (snd (read_buttons digital_read prev_states)) name default
        = digital_read name).
Proof.
  unfold read_buttons. split; [|split].
  - now rewrite read_loop_event.
  - rewrite read_loop_event. split.
    + intros Hf name.
      apply (find_none _ _ Hf name). destruct name; cbn; tauto.
    + intros Hall.
      destruct (List.find (pressed digital_read prev_states) pin_names)
        as [e|] eqn:F; [|reflexivity].
      apply find_some in F as [_ F]. rewrite Hall in F. discriminate.
  - intros name default. rewrite read_loop_states.
    destruct name; reflexivity.
Qed.

(** X25: a held button does not repeat.  When the states returned by one
    call are handed to the next call and the levels have not changed, the
    next call reports no event, whatever is held down, including a button
    whose press lost against an earlier one in the same tick. *)
Theorem read_buttons_no_repeat (digital_read : Event -> Z)
        (prev_states : States) :
  fst (read_buttons digital_read
         (snd (read_buttons digital_read prev_states))) = None.
Proof.
  unfold read_buttons at 1. rewrite read_loop_event.
  destruct (List.find _ pin_names) as [e|] eqn:F; [|reflexivity].
  apply find_some in F as [_ F]. unfold pressed in F.
  unfold read_buttons in F. rewrite read_loop_states in F.
  assert (X : existsb (Event_eqb e) pin_names = true) by (destruct e; reflexivity).
  rewrite X in F. lia.
Qed.

End core_input_facts.

(** ** The metric history *)

Module core_monitor_facts.
Import Py Py_facts core_monitor.

Section Monitor.

Variable float : Type.
Variable fsub : float -> float -> float.
Variable flt : float -> float -> bool.

Lemma len_tl {A : Type} (l : list A) : l <> [] -> len (List.tl l) = len l - 1.
Proof.
  destruct l as [|x l]; [contradiction|]. intros _.
  unfold len. cbn [List.tl List.length]. lia.
Qed.

Lemma append_bounded_len (hist : list float) (v : float) (mp : Z) :
  0 <= mp -> len hist <= mp -> len (append_bounded float hist v mp) <= mp.
Proof.
  intros Hmp Hb. unfold append_bounded.
  destruct (len (hist ++ [v]) >? mp) eqn:E.
  - rewrite len_tl by (destruct hist; discriminate).
    rewrite len_app. change (len [v]) with 1. lia.
  - lia.
Qed.

Lemma append_bounded_same_len (h1 h2 : list float) (v1 v2 : float) (mp : Z) :
  len h1 = len h2 ->
  len (append_bounded float h1 v1 mp) = len (append_bounded float h2 v2 mp).
Proof.
  intros E. unfold append_bounded. rewrite !len_app.
  change (len [v1]) with 1. change (len [v2]) with 1. rewrite E.
  destruct (len h2 + 1 >? mp).
  - rewrite !len_tl by (first [destruct h1; discriminate | destruct h2; discriminate]).
    rewrite !len_app. change (len [v1]) with 1. change (len [v2]) with 1. lia.
  - rewrite !len_app. change (len [v1]) with 1. change (len [v2]) with 1. lia.
Qed.

(** X26: the histories are bounded and stay in step.  Starting from a
    fresh monitor with [max_points >= 0], after any number of [sample]
    calls, whether they fire or fall inside the interval, each history
    holds at most [max_points] values and both histories have the same
    length. *)
Theorem histories_bounded (zero : float) (max_points0 : Z) (interval0 : float)
        (ticks : list (float * Readings float)) :
  0 <= max_points0 ->
  len (cpu_history
         (sample_all float fsub flt (init float zero max_points0 interval0)
                     ticks)) <= max_points0
  /\ len (cpu_history
            (sample_all float fsub flt (init float zero max_points0 interval0)
                        ticks))
     = len (temp_history
              (sample_all float fsub flt
                          (init float zero max_points0 interval0) ticks)).
Proof.
  intros Hmp.
  assert (G : forall ticks m,
            max_points m = max_points0 ->
            len (cpu_history m) <= max_points0 ->
            len (cpu_history m) = len (temp_history m) ->
            len (cpu_history (sample_all float fsub flt m ticks)) <= max_points0
            /\ len (cpu_history (sample_all float fsub flt m ticks))
               = len (temp_history (sample_all float fsub flt m ticks))).
  { clear ticks. induction ticks as [|[now r] ticks IH]; intros m Hm Hb He.
    - cbn. auto.
    - cbn [sample_all]. apply IH; unfold sample;
        destruct (flt (fsub now (last_sample m)) (interval m)); cbn;
        try assumption.
      + rewrite Hm. now apply append_bounded_len.
      + now apply append_bounded_same_len. }
  apply G; cbn; try reflexivity. exact Hmp.
Qed.

(** X27: the history is a sliding window.  Appending to a history that
    holds at most [max_points >= 1] values puts the new value at the end
    and, when the history was full, drops the oldest value; the other
    values keep their order. *)
Theorem append_bounded_window (hist : list float) (v : float) (mp : Z) :
  1 <= mp -> len hist <= mp ->
  append_bounded float hist v mp
  = (if len hist =? mp then List.tl hist else hist) ++ [v].
Proof.
  intros Hmp Hb. unfold append_bounded. rewrite len_app.
  change (len [v]) with 1.
  destruct (Z.eqb_spec (len hist) mp) as [E|E].
  - assert (X : (len hist + 1 >? mp) = true) by lia. rewrite X.
    destruct hist as [|x hist]; [|reflexivity].
    exfalso. change (len (@nil float)) with 0 in E. lia.
  - assert (X : (len hist + 1 >? mp) = false) by lia. rewrite X. reflexivity.
Qed.

End Monitor.

Lemma histories_bounded_witness :
  len (cpu_history
         (sample_all Z Z.sub Z.ltb (init Z 0 2 1)
            [(1, mkReadings 10 1 2 40); (1, mkReadings 11 1 2 41);
             (2, mkReadings 12 1 2 42); (3, mkReadings 13 1 2 43)])) <= 2
  /\ len (cpu_history
            (sample_all Z Z.sub Z.ltb (init Z 0 2 1)
               [(1, mkReadings 10 1 2 40); (1, mkReadings 11 1 2 41);
                (2, mkReadings 12 1 2 42); (3, mkReadings 13 1 2 43)]))
     = len (temp_history
              (sample_all Z Z.sub Z.ltb (init Z 0 2 1)
                 [(1, mkReadings 10 1 2 40); (1, mkReadings 11 1 2 41);
                  (2, mkReadings 12 1 2 42); (3, mkReadings 13 1 2 43)])).
Proof.
  apply (histories_bounded Z Z.sub Z.ltb 0 2 1).
  lia.
Defined.

Lemma append_bounded_window_witness :
  append_bounded Z [10; 11] 12 2
  = (if len [10; 11] =? 2 then List.tl [10; 11] else [10; 11]) ++ [12].
Proof.
  apply (append_bounded_window Z [10; 11] 12 2).
  - lia.
  - vm_compute. discriminate.
Defined.

End core_monitor_facts.

(** ** The console *)

Module core_console_facts.
Import Py Py_facts core_console.

Lemma dropwhile_length {A : Type} (f : A -> bool) (l : list A) :
  (List.length (dropwhile f l) <= List.length l)%nat.
Proof.
  induction l as [|x l IH]; cbn; [lia|].
  destruct (f x); cbn; lia.
Qed.

Lemma rstrip_length (s : str) : (List.length (rstrip s) <= List.length s)%nat.
Proof.
  unfold rstrip. rewrite length_rev.
  pose proof (dropwhile_length isspace (List.rev s)) as D.
  rewrite length_rev in D. exact D.
Qed.

(** With a positive width and enough fuel the loop ends, and its pieces
    are the line cut into chunks of at most [max_chars] characters. *)
Lemma wrap_line_ok (max_chars : Z) :
  1 <= max_chars ->
  forall (fuel : nat) (line : str),
    (List.length line <= fuel)%nat ->
    exists pieces,
      wrap_line fuel line max_chars = Some pieces
      /\ List.concat pieces = line
      /\ Forall (fun p => len p <= max_chars) pieces
      /\ (1 <= List.length pieces)%nat.
Proof.
  intros Hm. induction fuel as [|fuel IH]; intros line Hf.
  - destruct line; [|cbn in Hf; lia].
    exists [[]]. cbn. assert (X : (0 >? max_chars) = false) by lia.
    change (len (@nil N)) with 0. rewrite X.
    repeat split; [repeat constructor; cbn; lia | cbn; lia].
  - cbn [wrap_line]. destruct (len line >? max_chars) eqn:E.
    + assert (Hs : slice_from line max_chars = skipn (Z.to_nat max_chars) line).
      { unfold slice_from. assert (X : (max_chars <? 0) = false) by lia.
        now rewrite X. }
      assert (Ht : slice_to line max_chars = firstn (Z.to_nat max_chars) line).
      { unfold slice_to. assert (X : (max_chars <? 0) = false) by lia.
        now rewrite X. }
      rewrite Hs, Ht.
      destruct (IH (skipn (Z.to_nat max_chars) line)) as (rest & R & C & F & L).
      { rewrite length_skipn. unfold len in E. lia. }
      rewrite R. eexists. split; [reflexivity|].
      split; [cbn [List.concat]; rewrite C; apply firstn_skipn|].
      split.
      * constructor; [|exact F]. unfold len. rewrite length_firstn. lia.
      * cbn. lia.
    + exists [line]. split; [reflexivity|].
      split; [cbn; apply app_nil_r|]. split; [|cbn; lia].
      constructor; [lia | constructor].
Qed.

(** X28: wrapping keeps the text and respects the width.  For a width of
    at least 1, [_wrap_lines] returns; every line it returns has at most
    [max_chars] characters; glued together the returned lines are the
    input lines with their trailing white space removed, in order; and
    every input line gives at least one output line. *)
Theorem wrap_lines_ok (fuel : nat) (lines : list str) (max_chars : Z) :
  1 <= max_chars ->
  Forall (fun line => (List.length line <= fuel)%nat) lines ->
  exists wrapped,
    wrap_lines fuel lines max_chars = Some wrapped
    /\ Forall (fun p => len p <= max_chars) wrapped
    /\ List.concat wrapped = List.concat (List.map rstrip lines)
    /\ (List.length lines <= List.length wrapped)%nat.
Proof.
  intros Hm. induction 1 as [|line lines Hl _ IH].
  - exists []. cbn. repeat split; [constructor | lia].
  - destruct IH as (wrapped & W & F & C & L).
    cbn [wrap_lines]. rewrite W.
    destruct (rstrip line) as [|c line'] eqn:R.
    + exists ([] :: wrapped). split; [reflexivity|].
      split; [constructor; [cbn; lia | exact F]|].
      split; [cbn; rewrite R, C; reflexivity | cbn; lia].
    + destruct (wrap_line_ok max_chars Hm fuel (c :: line'))
        as (pieces & P & Cp & Fp & Lp).
      { rewrite <- R. pose proof (rstrip_length line). lia. }
      rewrite P. exists (pieces ++ wrapped). split; [reflexivity|].
      split; [apply Forall_app; split; assumption|].
      split.
      * rewrite concat_app. cbn [List.map List.concat].
        rewrite R, Cp, C. reflexivity.
      * rewrite length_app. cbn. lia.
Qed.

Lemma wrap_lines_ok_witness :
  exists wrapped,
    wrap_lines 12 [lit "total 12  "; lit ""; lit "abcdefghij"] 4 = Some wrapped
    /\ Forall (fun p => len p <= 4) wrapped
    /\ List.concat wrapped
       = List.concat (List.map rstrip
                        [lit "total 12  "; lit ""; lit "abcdefghij"])
    /\ (List.length [lit "total 12  "; lit ""; lit "abcdefghij"]
        <= List.length wrapped)%nat.
Proof.
  apply (wrap_lines_ok 12 [lit "total 12  "; lit ""; lit "abcdefghij"] 4).
  - lia.
  - repeat constructor; cbn; lia.
Defined.

(** X29: a width of 0 or less never ends.  On a line that is not empty the
    loop of [_wrap_lines] makes no progress when [max_chars <= 0]: whatever
    the number of iterations allowed, it has not returned. *)
Theorem wrap_line_diverges (max_chars : Z) (line : str) :
  max_chars <= 0 -> line <> [] ->
  forall fuel, wrap_line fuel line max_chars = None.
Proof.
  intros Hm Hne fuel. revert line Hne.
  assert (Hpos : forall l : str, l <> [] -> (1 <= List.length l)%nat).
  { intros l Hl. destruct l; [contradiction | cbn; lia]. }
  induction fuel as [|fuel IH]; intros line Hne.
  - pose proof (Hpos line Hne) as Hlen.
    assert (X : (len line >? max_chars) = true)
      by (apply Z.gtb_lt; unfold len; lia).
    cbn [wrap_line]. now rewrite X.
  - pose proof (Hpos line Hne) as Hlen.
    assert (X : (len line >? max_chars) = true)
      by (apply Z.gtb_lt; unfold len; lia).
    cbn [wrap_line]. rewrite X. rewrite IH; [reflexivity|].
    unfold slice_from. intros Hnil.
    apply (f_equal (@List.length N)) in Hnil. cbn [List.length] in Hnil.
    destruct (Z.ltb_spec max_chars 0) as [B|B]; rewrite length_skipn in Hnil;
      unfold len in *; lia.
Qed.

Lemma wrap_line_diverges_witness :
  wrap_line 1000 (lit "abc") 0 = None.
Proof.
  apply (wrap_line_diverges 0 (lit "abc")).
  - lia.
  - discriminate.
Defined.

(** X30: the window of the console.  On a screen high enough for one row
    ([height >= 34]) [draw_console] draws a window of consecutive wrapped
    lines (of the one-line placeholder "(no output)" when the list of
    wrapped lines is empty): it starts at the scroll offset brought back
    into [0, max(0, len - max_rows)] and holds [min(max_rows, len)] lines,
    which is at least one, so a scroll offset past the end shows the last
    page and not an empty window.  The lines drawn may themselves be
    empty. *)
Theorem visible_lines_window (height : Z) (wrapped0 : list str)
        (console_scroll : Z) :
  34 <= height ->
  let max_rows := (height - 20) / 14 in
  let wrapped :=
    match wrapped0 with [] => [lit "(no output)"] | _ => wrapped0 end in
  let start := Z.max 0 (Z.min console_scroll (Z.max 0 (len wrapped - max_rows))) in
  visible_lines height wrapped0 console_scroll
    = firstn (Z.to_nat max_rows) (skipn (Z.to_nat start) wrapped)
  /\ len (visible_lines height wrapped0 console_scroll)
     = Z.min max_rows (len wrapped)
  /\ 1 <= len (visible_lines height wrapped0 console_scroll).
Proof.
  intros Hh max_rows wrapped start.
  assert (Hmr : 1 <= max_rows).
  { unfold max_rows. apply Z.div_le_lower_bound; lia. }
  assert (Hw : 1 <= len wrapped).
  { unfold wrapped. destruct wrapped0; unfold len; cbn [List.length]; lia. }
  assert (V : visible_lines height wrapped0 console_scroll
              = firstn (Z.to_nat max_rows) (skipn (Z.to_nat start) wrapped)).
  { unfold visible_lines. fold max_rows. fold wrapped.
    set (s1 := if console_scroll <? 0 then 0 else console_scroll).
    set (s2 := if s1 >? Z.max 0 (len wrapped - max_rows)
               then Z.max 0 (len wrapped - max_rows) else s1).
    assert (Es : s2 = start).
    { unfold s2, s1, start.
      destruct (console_scroll <? 0) eqn:B1;
        match goal with |- context [if ?b then _ else _] => destruct b eqn:B2 end;
        lia. }
    rewrite Es. clear s1 s2 Es.
    assert (Hs : 0 <= start <= Z.max 0 (len wrapped - max_rows))
      by (unfold start; lia).
    unfold slice, slice_to, slice_from.
    assert (B1 : (Z.min (start + max_rows) (len wrapped) <? 0) = false) by lia.
    assert (B2 : (start <? 0) = false) by lia.
    rewrite B1, B2. rewrite skipn_firstn_comm.
    destruct (Z_le_gt_dec max_rows (len wrapped)) as [Hle | Hgt].
    - f_equal. lia.
    - assert (start = 0) by lia.
      replace (Z.to_nat start) with 0%nat by lia.
      cbn [skipn]. rewrite !firstn_all2; [reflexivity | unfold len in *; lia
                                          | unfold len in *; lia]. }
  split; [exact V|].
  assert (L : len (visible_lines height wrapped0 console_scroll)
              = Z.min max_rows (len wrapped)).
  { rewrite V. unfold len. rewrite length_firstn, length_skipn.
    unfold len in *. unfold start. lia. }
  split; [exact L | lia].
Qed.

Lemma visible_lines_window_witness :
  visible_lines 240 [lit "a"; lit "b"] 99
    = firstn (Z.to_nat ((240 - 20) / 14))
        (skipn (Z.to_nat
                  (Z.max 0 (Z.min 99
                     (Z.max 0 (len [lit "a"; lit "b"] - (240 - 20) / 14)))))
               [lit "a"; lit "b"])
  /\ len (visible_lines 240 [lit "a"; lit "b"] 99)
     = Z.min ((240 - 20) / 14) (len [lit "a"; lit "b"])
  /\ 1 <= len (visible_lines 240 [lit "a"; lit "b"] 99).
Proof.
  apply (visible_lines_window 240 [lit "a"; lit "b"] 99).
  lia.
Defined.

End core_console_facts.
